(** * Shippo webhook reconciliation: a shallow embedding of
      [shippo-integration/shippo_webhook.py] and the properties of its
      event handlers, carrier classifier, list query and webhook endpoint.

    Conventions of the embedding.
    - A decoded JSON payload is a value of [json].  JSON numbers are
      integers; text is ASCII (Python's [upper], [isdigit] and [isalpha]
      are modelled on ASCII characters).
    - A Python exception is a value of [exn]; code that can raise returns
      [result A].
    - The table [shippo_tracking] is the list of its rows in rowid order.
      Every column other than [id] has TEXT affinity, so a stored cell is
      [option string] ([None] is SQL NULL).
    - [CURRENT_TIMESTAMP] is an argument [now] of each handler: the clock
      reading of the one statement of the call that writes. *)

From Stdlib Require Import List String Ascii ZArith Bool Lia Arith Sorted.
From Stdlib Require Import DecimalString DecimalZ DecimalPos.
Import ListNotations.
Local Open Scope string_scope.
Local Open Scope Z_scope.

Set Implicit Arguments.

(** ** Exceptions and the error monad *)

Inductive exn : Type :=
| AttributeError      (* [.get], [.upper] on a value without that attribute *)
| InterfaceError      (* sqlite3: parameter of an unsupported type *)
| OverflowError       (* sqlite3: Python int outside the 64-bit range *)
| IntegrityError      (* sqlite3: NOT NULL or UNIQUE constraint failed *)
| ValueError          (* [int()] of a malformed literal *)
| BadRequest.         (* werkzeug: raised by [request.get_json()] *)

Inductive result (A : Type) : Type :=
| Ok (a : A)
| Err (e : exn).
Arguments Ok {A} a.
Arguments Err {A} e.

Definition bind {A B} (m : result A) (f : A -> result B) : result B :=
  match m with
  | Ok a => f a
  | Err e => Err e
  end.

Notation "x <- m ;; k" := (bind m (fun x => k))
  (at level 61, m at next level, right associativity).
Notation "m ;;; k" := (bind m (fun _ => k))
  (at level 61, right associativity).

Definition is_ok {A} (m : result A) : bool :=
  match m with Ok _ => true | Err _ => false end.

Definition ok_value {A} (m : result A) : option A :=
  match m with Ok a => Some a | Err _ => None end.

(** ** Python strings (ASCII)

    The operations of [str] on text whose characters are all below 128
    ([isascii]).  On other characters Python consults the Unicode tables
    ([upper] may then even change the length of the text); these are not
    modelled, and a statement that depends on the class or the case of a
    character carries [isascii] as a premise. *)

Module PyStr.

Definition is_digit (c : ascii) : bool :=
  let n := nat_of_ascii c in (48 <=? n)%nat && (n <=? 57)%nat.

Definition is_upper (c : ascii) : bool :=
  let n := nat_of_ascii c in (65 <=? n)%nat && (n <=? 90)%nat.

Definition is_lower (c : ascii) : bool :=
  let n := nat_of_ascii c in (97 <=? n)%nat && (n <=? 122)%nat.

Definition is_alpha (c : ascii) : bool := is_upper c || is_lower c.

Definition upper_char (c : ascii) : ascii :=
  if is_lower c then ascii_of_nat (nat_of_ascii c - 32) else c.

Definition lower_char (c : ascii) : ascii :=
  if is_upper c then ascii_of_nat (nat_of_ascii c + 32) else c.

Fixpoint map (f : ascii -> ascii) (s : string) : string :=
  match s with
  | EmptyString => EmptyString
  | String c s' => String (f c) (map f s')
  end.

Fixpoint all (p : ascii -> bool) (s : string) : bool :=
  match s with
  | EmptyString => true
  | String c s' => p c && all p s'
  end.

(** [s.upper()] *)
Definition upper (s : string) : string := map upper_char s.

(** [s.isascii()] *)
Definition isascii (s : string) : bool :=
  all (fun c => (nat_of_ascii c <? 128)%nat) s.

Definition nonempty (s : string) : bool :=
  match s with EmptyString => false | _ => true end.

(** [s.isdigit()], [s.isalpha()]: false on the empty string. *)
Definition isdigit (s : string) : bool := nonempty s && all is_digit s.
Definition isalpha (s : string) : bool := nonempty s && all is_alpha s.

(** [len(s)] *)
Definition len (s : string) : Z := Z.of_nat (String.length s).

(** [s.startswith(p)] *)
Definition startswith (p s : string) : bool := String.prefix p s.

(** [s[:n]] and [s[-n:]] for a literal [n > 0] *)
Definition take (n : nat) (s : string) : string := substring 0 n s.
Definition take_last (n : nat) (s : string) : string :=
  substring (String.length s - n) n s.

(** [s[0] == c], under a guard that makes [s] non-empty; the model
    answers [false] on the empty string, where Python would raise. *)
Definition first_is (c : ascii) (s : string) : bool :=
  match s with
  | String d _ => Ascii.eqb d c
  | EmptyString => false
  end.

End PyStr.

(** ** Decoded JSON values *)

#[local] Unset Elimination Schemes.
Inductive json : Type :=
| JNull
| JBool (b : bool)
| JNum (z : Z)
| JStr (s : string)
| JArr (items : list json)
| JObj (fields : list (string * json)).
#[local] Set Elimination Schemes.

(** Python truthiness: [if v], [not v], [a or b]. *)
Definition truthy (v : json) : bool :=
  match v with
  | JNull => false
  | JBool b => b
  | JNum z => negb (z =? 0)
  | JStr s => PyStr.nonempty s
  | JArr l => match l with [] => false | _ => true end
  | JObj l => match l with [] => false | _ => true end
  end.

(** The value under key [k]; the keys of a decoded object are distinct. *)
Fixpoint assoc (k : string) (l : list (string * json)) : option json :=
  match l with
  | [] => None
  | (k', v) :: l' => if String.eqb k' k then Some v else assoc k l'
  end.

(** [d.get(k, default)]: an absent key gives the default, a key that is
    present gives its value (also when that value is null); anything but
    a dict has no [get]. *)
Definition get_or (k : string) (default : json) (d : json) : result json :=
  match d with
  | JObj l => Ok (match assoc k l with Some v => v | None => default end)
  | _ => Err AttributeError
  end.

(** [d.get(k)] *)
Definition get (k : string) (d : json) : result json := get_or k JNull d.

(** ** Carrier classifier *)

(** [detect_carrier(tracking_number)], on any decoded value: a falsy
    value is ['UNKNOWN'], a string is classified, and any other truthy
    value has no [upper]. *)
Definition classify_upper (tn : string) : string :=
  if PyStr.startswith "1Z" tn then "UPS"
  else if (12 <=? PyStr.len tn) && PyStr.isdigit tn then "FEDEX"
  else if ((16 <=? PyStr.len tn) && PyStr.first_is "9" tn && PyStr.isdigit tn)
          || ((PyStr.len tn =? 13) && PyStr.isalpha (PyStr.take 2 tn)
              && String.eqb (PyStr.take_last 2 tn) "US") then "USPS"
  else if ((PyStr.len tn =? 10) || (PyStr.len tn =? 11)) && PyStr.isdigit tn
       then "DHL"
  else "CARRIER".

Definition detect_carrier (tracking_number : json) : result string :=
  if negb (truthy tracking_number) then Ok "UNKNOWN"
  else match tracking_number with
       | JStr s => Ok (classify_upper (PyStr.upper s))
       | _ => Err AttributeError
       end.


(** ** [str()] and [repr()] of decoded values *)

Module PyRepr.

Fixpoint contains (c : ascii) (s : string) : bool :=
  match s with
  | EmptyString => false
  | String d s' => Ascii.eqb d c || contains c s'
  end.

Definition hex_digit (n : nat) : ascii :=
  if (n <? 10)%nat then ascii_of_nat (48 + n) else ascii_of_nat (87 + n).

Definition hex2 (c : ascii) : string :=
  let n := nat_of_ascii c in
  String (hex_digit (n / 16)) (String (hex_digit (n mod 16)) EmptyString).

Definition backslash : ascii := "092"%char.
Definition dquote : ascii := "034"%char.
Definition squote : ascii := "039"%char.

Definition esc (c : ascii) : string := String backslash (String c EmptyString).

(** One character of [repr(str)] with [q] the chosen quote. *)
Definition repr_char (q c : ascii) : string :=
  let n := nat_of_ascii c in
  if Ascii.eqb c backslash then esc backslash
  else if Ascii.eqb c q then esc q
  else if (n =? 9)%nat then esc "t"
  else if (n =? 10)%nat then esc "n"
  else if (n =? 13)%nat then esc "r"
  else if (n <? 32)%nat || (n =? 127)%nat then esc "x" ++ hex2 c
  else String c EmptyString.

Fixpoint repr_body (q : ascii) (s : string) : string :=
  match s with
  | EmptyString => EmptyString
  | String c s' => repr_char q c ++ repr_body q s'
  end.

(** [repr(s)]: single quotes, unless [s] holds a single quote and no
    double quote. *)
Definition repr_str (s : string) : string :=
  let q := if contains squote s && negb (contains dquote s)
           then dquote else squote in
  String q (repr_body q s ++ String q EmptyString).

Definition string_of_Z (z : Z) : string :=
  NilZero.string_of_int (Z.to_int z).

Fixpoint join (sep : string) (l : list string) : string :=
  match l with
  | [] => EmptyString
  | [x] => x
  | x :: l' => x ++ sep ++ join sep l'
  end.

Fixpoint repr (v : json) : string :=
  match v with
  | JNull => "None"
  | JBool true => "True"
  | JBool false => "False"
  | JNum z => string_of_Z z
  | JStr s => repr_str s
  | JArr l => "[" ++ join ", " (List.map repr l) ++ "]"
  | JObj l =>
      "{" ++ join ", "
               (List.map (fun kv => repr_str (fst kv) ++ ": " ++ repr (snd kv)) l)
          ++ "}"
  end.

(** [str(v)], also what an f-string field [{v}] renders. *)
Definition str (v : json) : string :=
  match v with
  | JStr s => s
  | _ => repr v
  end.

End PyRepr.

(** ** [json.dumps] *)

Module Json.

Import PyRepr.

Definition hex4 (c : ascii) : string := "00" ++ hex2 c.

(** One character of a JSON string literal ([ensure_ascii=True]): the
    quote, the backslash and everything outside [' '..'~'] is escaped. *)
Definition dump_char (c : ascii) : string :=
  let n := nat_of_ascii c in
  if Ascii.eqb c dquote then esc dquote
  else if Ascii.eqb c backslash then esc backslash
  else if (n =? 10)%nat then esc "n"
  else if (n =? 13)%nat then esc "r"
  else if (n =? 9)%nat then esc "t"
  else if (n =? 8)%nat then esc "b"
  else if (n =? 12)%nat then esc "f"
  else if (n <? 32)%nat || (126 <? n)%nat then esc "u" ++ hex4 c
  else String c EmptyString.

Fixpoint dump_chars (s : string) : string :=
  match s with
  | EmptyString => EmptyString
  | String c s' => dump_char c ++ dump_chars s'
  end.

Definition dump_str (s : string) : string :=
  String dquote (dump_chars s ++ String dquote EmptyString).

(** [json.dumps(v)] with the default separators [', '] and [': ']. *)
Fixpoint dumps (v : json) : string :=
  match v with
  | JNull => "null"
  | JBool true => "true"
  | JBool false => "false"
  | JNum z => string_of_Z z
  | JStr s => dump_str s
  | JArr l => "[" ++ join ", " (List.map dumps l) ++ "]"
  | JObj l =>
      "{" ++ join ", "
               (List.map (fun kv => dump_str (fst kv) ++ ": " ++ dumps (snd kv)) l)
          ++ "}"
  end.

(** *** [json.loads]

    The decoder for the texts [dumps] writes and for JSON text in
    general, short of two things the model has no value for: numbers
    with a fraction or an exponent, and [\u] escapes above [00ff]; on
    those it answers [None], as on malformed text.  An object keeps its
    members in the order of the text. *)

Definition is_ws (c : ascii) : bool :=
  let n := nat_of_ascii c in
  (n =? 32)%nat || (n =? 9)%nat || (n =? 10)%nat || (n =? 13)%nat.

Fixpoint skip_ws (s : string) : string :=
  match s with
  | EmptyString => EmptyString
  | String c s' => if is_ws c then skip_ws s' else s
  end.

Fixpoint drop (n : nat) (s : string) : string :=
  match n, s with
  | O, _ => s
  | S n', String _ s' => drop n' s'
  | S _, EmptyString => EmptyString
  end.

Definition expect (lit s : string) : option string :=
  if String.prefix lit s then Some (drop (String.length lit) s) else None.

Fixpoint span_digits (s : string) : string * string :=
  match s with
  | EmptyString => (EmptyString, EmptyString)
  | String c s' =>
      if PyStr.is_digit c
      then let (ds, r) := span_digits s' in (String c ds, r)
      else (EmptyString, s)
  end.

(** The integer grammar (an optional minus sign, then a single zero or
    digits that start with a non-zero one): the token is the canonical
    rendering of its value, or minus zero.  A fraction or an exponent
    after it makes the number a float. *)
Definition starts_float (s : string) : bool :=
  match s with
  | String c _ => Ascii.eqb c "." || Ascii.eqb c "e" || Ascii.eqb c "E"
  | EmptyString => false
  end.

Definition parse_int (s : string) : option (json * string) :=
  let (sign, s1) :=
    match s with
    | String c s' => if Ascii.eqb c "-" then ("-", s') else (EmptyString, s)
    | EmptyString => (EmptyString, s)
    end in
  let (ds, r) := span_digits s1 in
  let tok := sign ++ ds in
  match NilZero.int_of_string tok with
  | Some d =>
      let z := Z.of_int d in
      if (String.eqb (string_of_Z z) tok || String.eqb tok "-0")
         && negb (starts_float r)
      then Some (JNum z, r) else None
  | None => None
  end.

Definition hex_value (c : ascii) : option nat :=
  let n := nat_of_ascii c in
  if PyStr.is_digit c then Some (n - 48)%nat
  else if (97 <=? n)%nat && (n <=? 102)%nat then Some (n - 87)%nat
  else if (65 <=? n)%nat && (n <=? 70)%nat then Some (n - 55)%nat
  else None.

Definition unescape_u (h1 h2 h3 h4 : ascii) : option ascii :=
  match hex_value h1, hex_value h2, hex_value h3, hex_value h4 with
  | Some a, Some b, Some c, Some d =>
      if ((a =? 0) && (b =? 0))%nat then Some (ascii_of_nat (16 * c + d))
      else None
  | _, _, _, _ => None
  end.

Definition unescape (e : ascii) : option ascii :=
  if Ascii.eqb e dquote then Some dquote
  else if Ascii.eqb e backslash then Some backslash
  else if Ascii.eqb e "/" then Some "/"%char
  else if Ascii.eqb e "b" then Some (ascii_of_nat 8)
  else if Ascii.eqb e "f" then Some (ascii_of_nat 12)
  else if Ascii.eqb e "n" then Some (ascii_of_nat 10)
  else if Ascii.eqb e "r" then Some (ascii_of_nat 13)
  else if Ascii.eqb e "t" then Some (ascii_of_nat 9)
  else None.

Definition cons_char (c : ascii) (p : option (string * string))
  : option (string * string) :=
  match p with
  | Some (x, r) => Some (String c x, r)
  | None => None
  end.

(** The characters of a string literal after its opening quote, up to
    and including the closing quote. *)
Fixpoint parse_chars (s : string) : option (string * string) :=
  match s with
  | EmptyString => None
  | String c s' =>
      if Ascii.eqb c dquote then Some (EmptyString, s')
      else if Ascii.eqb c backslash then
        match s' with
        | String e s2 =>
            if Ascii.eqb e "u" then
              match s2 with
              | String h1 (String h2 (String h3 (String h4 s3))) =>
                  match unescape_u h1 h2 h3 h4 with
                  | Some x => cons_char x (parse_chars s3)
                  | None => None
                  end
              | _ => None
              end
            else
              match unescape e with
              | Some x => cons_char x (parse_chars s2)
              | None => None
              end
        | EmptyString => None
        end
      else if (nat_of_ascii c <? 32)%nat then None
      else cons_char c (parse_chars s')
  end.

Fixpoint parse_value (fuel : nat) (s : string) : option (json * string) :=
  match fuel with
  | O => None
  | S fuel' =>
      match skip_ws s with
      | EmptyString => None
      | String c s' =>
          if Ascii.eqb c "n" then
            match expect "ull" s' with
            | Some r => Some (JNull, r) | None => None end
          else if Ascii.eqb c "t" then
            match expect "rue" s' with
            | Some r => Some (JBool true, r) | None => None end
          else if Ascii.eqb c "f" then
            match expect "alse" s' with
            | Some r => Some (JBool false, r) | None => None end
          else if Ascii.eqb c dquote then
            match parse_chars s' with
            | Some (x, r) => Some (JStr x, r) | None => None end
          else if Ascii.eqb c "[" then
            match skip_ws s' with
            | String d r =>
                if Ascii.eqb d "]" then Some (JArr [], r)
                else match parse_items fuel' s' with
                     | Some (l, r') => Some (JArr l, r') | None => None end
            | EmptyString => None
            end
          else if Ascii.eqb c "{" then
            match skip_ws s' with
            | String d r =>
                if Ascii.eqb d "}" then Some (JObj [], r)
                else match parse_fields fuel' s' with
                     | Some (l, r') => Some (JObj l, r') | None => None end
            | EmptyString => None
            end
          else parse_int (String c s')
      end
  end
with parse_items (fuel : nat) (s : string) : option (list json * string) :=
  match fuel with
  | O => None
  | S fuel' =>
      match parse_value fuel' s with
      | Some (v, r) =>
          match skip_ws r with
          | String d r' =>
              if Ascii.eqb d "," then
                match parse_items fuel' r' with
                | Some (l, r2) => Some (v :: l, r2) | None => None end
              else if Ascii.eqb d "]" then Some ([v], r')
              else None
          | EmptyString => None
          end
      | None => None
      end
  end
with parse_fields (fuel : nat) (s : string)
     : option (list (string * json) * string) :=
  match fuel with
  | O => None
  | S fuel' =>
      match skip_ws s with
      | String q s1 =>
          if Ascii.eqb q dquote then
            match parse_chars s1 with
            | Some (k, r1) =>
                match skip_ws r1 with
                | String col r2 =>
                    if Ascii.eqb col ":" then
                      match parse_value fuel' r2 with
                      | Some (v, r3) =>
                          match skip_ws r3 with
                          | String d r4 =>
                              if Ascii.eqb d "," then
                                match parse_fields fuel' r4 with
                                | Some (l, r5) => Some ((k, v) :: l, r5)
                                | None => None
                                end
                              else if Ascii.eqb d "}" then Some ([(k, v)], r4)
                              else None
                          | EmptyString => None
                          end
                      | None => None
                      end
                    else None
                | EmptyString => None
                end
            | None => None
            end
          else None
      | EmptyString => None
      end
  end.

(** [json.loads(s)]; [None] stands for the exception it raises. *)
Definition loads (s : string) : option json :=
  match parse_value (S (String.length s)) s with
  | Some (v, r) =>
      match skip_ws r with
      | EmptyString => Some v
      | _ => None
      end
  | None => None
  end.

End Json.

(** ** The table [shippo_tracking] *)

(** A cell of a TEXT column; [None] is SQL NULL. *)
Definition cell : Type := option string.

Record row : Type := mkRow {
  id : Z;
  transaction_id : string;          (* TEXT UNIQUE NOT NULL *)
  tracking_number : cell;
  carrier : cell;
  status : cell;
  status_details : cell;
  metadata : cell;
  label_url : cell;
  tracking_url : cell;
  eta : cell;
  to_name : cell;
  to_city : cell;
  to_state : cell;
  to_zip : cell;
  to_country : cell;
  from_city : cell;
  from_state : cell;
  from_zip : cell;
  from_country : cell;
  service_name : cell;
  service_token : cell;
  tracking_history : cell;
  created_at : cell;
  updated_at : cell;
  status_date : cell;
  delivered_at : cell
}.

(** The rows in rowid order. *)
Definition table : Type := list row.

(** ** SQLite: binding, NULL-aware operators, statements *)

Module Sql.

Definition int64 (z : Z) : bool := (- 2 ^ 63 <=? z) && (z <? 2 ^ 63).

(** Binding a Python value as a statement parameter that lands in, or
    is compared with, a TEXT column: [None] is NULL, [str] is TEXT, an
    [int] in range ([bool] included) is rendered as text by the column
    affinity; a list or a dict is not supported. *)
Definition bind_param (v : json) : result cell :=
  match v with
  | JNull => Ok None
  | JBool b => Ok (Some (if b then "1" else "0"))
  | JNum z => if int64 z then Ok (Some (PyRepr.string_of_Z z))
              else Err OverflowError
  | JStr s => Ok (Some s)
  | JArr _ | JObj _ => Err InterfaceError
  end.

(** [COALESCE(a, b)] *)
Definition coalesce (a b : cell) : cell :=
  match a with
  | Some _ => a
  | None => b
  end.

(** [col = ?] as a WHERE condition: NULL on either side is not true. *)
Definition eq_cell (a b : cell) : bool :=
  match a, b with
  | Some x, Some y => String.eqb x y
  | _, _ => false
  end.

(** [col != ?] as a WHERE condition. *)
Definition ne_cell (a b : cell) : bool :=
  match a, b with
  | Some x, Some y => negb (String.eqb x y)
  | _, _ => false
  end.

(** [UPDATE t SET ... WHERE w]: the new table and [cursor.rowcount]. *)
Definition update (w : row -> bool) (set : row -> row) (t : table)
  : table * nat :=
  (List.map (fun r => if w r then set r else r) t,
   List.length (List.filter w t)).

(** [SELECT ... WHERE w] followed by [fetchone()]: the first matching row
    in rowid order. *)
Definition fetchone (w : row -> bool) (t : table) : option row :=
  List.find w t.

(** The id AUTOINCREMENT gives a new row: above every id in the table. *)
Definition fresh_id (t : table) : Z :=
  1 + List.fold_right (fun r m => Z.max (id r) m) 0 t.

Definition where_transaction_id (k : cell) (r : row) : bool :=
  eq_cell (Some (transaction_id r)) k.

Definition where_tracking_number (k : cell) (r : row) : bool :=
  eq_cell (tracking_number r) k.

Definition where_id (i : Z) (r : row) : bool := id r =? i.

End Sql.

(** ** Event reconciliation *)

(** [handle_transaction_created(conn, data)] *)
Definition handle_transaction_created (now : string) (t : table) (data : json)
  : result table :=
  transaction_id_ <- get "object_id" data ;;
  tracking_number_ <- get "tracking_number" data ;;
  (* the parameter tuple *)
  carrier_ <- detect_carrier tracking_number_ ;;
  status_ <- get_or "tracking_status" (JStr "PRE_TRANSIT") data ;;
  metadata_ <- get "metadata" data ;;
  label_url_ <- get "label_url" data ;;
  tracking_url_ <- get "tracking_url_provider" data ;;
  eta_ <- get "eta" data ;;
  created_at_ <- get "object_created" data ;;
  (* cursor.execute: the parameters are bound in order *)
  x_transaction_id <- Sql.bind_param transaction_id_ ;;
  x_tracking_number <- Sql.bind_param tracking_number_ ;;
  x_status <- Sql.bind_param status_ ;;
  x_metadata <- Sql.bind_param metadata_ ;;
  x_label_url <- Sql.bind_param label_url_ ;;
  x_tracking_url <- Sql.bind_param tracking_url_ ;;
  x_eta <- Sql.bind_param eta_ ;;
  x_created_at <- Sql.bind_param created_at_ ;;
  match x_transaction_id with
  | None => Err IntegrityError              (* NOT NULL *)
  | Some tid =>
      if List.existsb (Sql.where_transaction_id (Some tid)) t then
        (* ON CONFLICT(transaction_id) DO UPDATE SET ... *)
        Ok (fst (Sql.update (Sql.where_transaction_id (Some tid))
                   (fun r =>
                      {| id := id r;
                         transaction_id := transaction_id r;
                         tracking_number := x_tracking_number;
                         carrier := carrier r;
                         status := x_status;
                         status_details := status_details r;
                         metadata := Sql.coalesce x_metadata (metadata r);
                         label_url := Sql.coalesce x_label_url (label_url r);
                         tracking_url :=
                           Sql.coalesce x_tracking_url (tracking_url r);
                         eta := Sql.coalesce x_eta (eta r);
                         to_name := to_name r;
                         to_city := to_city r;
                         to_state := to_state r;
                         to_zip := to_zip r;
                         to_country := to_country r;
                         from_city := from_city r;
                         from_state := from_state r;
                         from_zip := from_zip r;
                         from_country := from_country r;
                         service_name := service_name r;
                         service_token := service_token r;
                         tracking_history := tracking_history r;
                         created_at := created_at r;
                         updated_at := Some now;
                         status_date := status_date r;
                         delivered_at := delivered_at r |})
                   t))
      else
        Ok (t ++ [ {| id := Sql.fresh_id t;
                      transaction_id := tid;
                      tracking_number := x_tracking_number;
                      carrier := Some carrier_;
                      status := x_status;
                      status_details := None;
                      metadata := x_metadata;
                      label_url := x_label_url;
                      tracking_url := x_tracking_url;
                      eta := x_eta;
                      to_name := None;
                      to_city := None;
                      to_state := None;
                      to_zip := None;
                      to_country := None;
                      from_city := None;
                      from_state := None;
                      from_zip := None;
                      from_country := None;
                      service_name := None;
                      service_token := None;
                      tracking_history := None;
                      created_at := x_created_at;
                      updated_at := Some now;   (* DEFAULT CURRENT_TIMESTAMP *)
                      status_date := None;
                      delivered_at := None |} ])%list
  end.

(** [handle_transaction_updated(conn, data)] *)
Definition handle_transaction_updated (now : string) (t : table) (data : json)
  : result table :=
  transaction_id_ <- get "object_id" data ;;
  tracking_number_ <- get "tracking_number" data ;;
  status_ <- get_or "tracking_status" (JStr "UNKNOWN") data ;;
  eta_ <- get "eta" data ;;
  x_tracking_number <- Sql.bind_param tracking_number_ ;;
  x_status <- Sql.bind_param status_ ;;
  x_eta <- Sql.bind_param eta_ ;;
  x_transaction_id <- Sql.bind_param transaction_id_ ;;
  let (t', rowcount) :=
    Sql.update (Sql.where_transaction_id x_transaction_id)
      (fun r =>
         {| id := id r;
            transaction_id := transaction_id r;
            tracking_number :=
              Sql.coalesce x_tracking_number (tracking_number r);
            carrier := carrier r;
            status := x_status;
            status_details := status_details r;
            metadata := metadata r;
            label_url := label_url r;
            tracking_url := tracking_url r;
            eta := Sql.coalesce x_eta (eta r);
            to_name := to_name r;
            to_city := to_city r;
            to_state := to_state r;
            to_zip := to_zip r;
            to_country := to_country r;
            from_city := from_city r;
            from_state := from_state r;
            from_zip := from_zip r;
            from_country := from_country r;
            service_name := service_name r;
            service_token := service_token r;
            tracking_history := tracking_history r;
            created_at := created_at r;
            updated_at := Some now;
            status_date := status_date r;
            delivered_at := delivered_at r |})
      t in
  (* If no rows updated, insert new *)
  if (rowcount =? 0)%nat then handle_transaction_created now t data
  else Ok t'.

(** [v.get(k) if isinstance(v, dict) else None] *)
Definition member (k : string) (v : json) : json :=
  match v with
  | JObj l => match assoc k l with Some x => x | None => JNull end
  | _ => JNull
  end.

(** [v == s] for a string literal [s] *)
Definition eq_str (v : json) (s : string) : bool :=
  match v with JStr x => String.eqb x s | _ => false end.

(** [v.upper()] *)
Definition upper (v : json) : result string :=
  match v with JStr s => Ok (PyStr.upper s) | _ => Err AttributeError end.

(** [tracking_status.get('status', 'UNKNOWN')
     if isinstance(tracking_status, dict) else str(tracking_status)] *)
Definition status_of (tracking_status : json) : json :=
  match tracking_status with
  | JObj l => match assoc "status" l with
              | Some x => x
              | None => JStr "UNKNOWN"
              end
  | _ => JStr (PyRepr.str tracking_status)
  end.

(** [delivered_at]: the status date of a ['DELIVERED'] status object. *)
Definition delivered_at_of (tracking_status : json) : json :=
  if eq_str (status_of tracking_status) "DELIVERED"
  then member "status_date" tracking_status
  else JNull.

(** The SELECT of [handle_track_updated]: by transaction id when the
    payload has one, else by tracking number. *)
Definition find_existing (t : table) (transaction_id_ tracking_number_ : json)
  : result (option row) :=
  if truthy transaction_id_ then
    k <- Sql.bind_param transaction_id_ ;;
    Ok (Sql.fetchone (Sql.where_transaction_id k) t)
  else
    k <- Sql.bind_param tracking_number_ ;;
    Ok (Sql.fetchone (Sql.where_tracking_number k) t).

(** [handle_track_updated(conn, data)] *)
Definition handle_track_updated (now : string) (t : table) (data : json)
  : result table :=
  tracking_number_ <- get "tracking_number" data ;;
  transaction_id_ <- get "transaction" data ;;
  address_to <- get_or "address_to" (JObj []) data ;;
  address_from <- get_or "address_from" (JObj []) data ;;
  tracking_status <- get_or "tracking_status" (JObj []) data ;;
  service <- get_or "servicelevel" (JObj []) data ;;
  (* Try to find existing record *)
  existing <- find_existing t transaction_id_ tracking_number_ ;;
  carrier_field <- get "carrier" data ;;
  carrier_ <- (if truthy carrier_field then upper carrier_field
               else c <- detect_carrier tracking_number_ ;; Ok (PyStr.upper c)) ;;
  let status_ := status_of tracking_status in
  (* Check if delivered *)
  let delivered_at_ := delivered_at_of tracking_status in
  (* the parameter tuple: members of the nested objects ([to_name_] is
     bound by the UPDATE only; reading it raises what [to_city_] would) *)
  eta_ <- get "eta" data ;;
  to_name_ <- get "name" address_to ;;
  to_city_ <- get "city" address_to ;;
  to_state_ <- get "state" address_to ;;
  to_zip_ <- get "zip" address_to ;;
  to_country_ <- get "country" address_to ;;
  from_city_ <- get "city" address_from ;;
  from_state_ <- get "state" address_from ;;
  from_zip_ <- get "zip" address_from ;;
  from_country_ <- get "country" address_from ;;
  service_name_ <- get "name" service ;;
  service_token_ <- get "token" service ;;
  history_ <- get_or "tracking_history" (JArr []) data ;;
  let x_history := Some (Json.dumps history_) in
  match existing with
  | Some e =>
      x_tracking_number <- Sql.bind_param tracking_number_ ;;
      x_status <- Sql.bind_param status_ ;;
      x_status_details <- Sql.bind_param (member "status_details" tracking_status) ;;
      x_status_date <- Sql.bind_param (member "status_date" tracking_status) ;;
      x_eta <- Sql.bind_param eta_ ;;
      x_to_name <- Sql.bind_param to_name_ ;;
      x_to_city <- Sql.bind_param to_city_ ;;
      x_to_state <- Sql.bind_param to_state_ ;;
      x_to_zip <- Sql.bind_param to_zip_ ;;
      x_to_country <- Sql.bind_param to_country_ ;;
      x_from_city <- Sql.bind_param from_city_ ;;
      x_from_state <- Sql.bind_param from_state_ ;;
      x_from_zip <- Sql.bind_param from_zip_ ;;
      x_from_country <- Sql.bind_param from_country_ ;;
      x_service_name <- Sql.bind_param service_name_ ;;
      x_service_token <- Sql.bind_param service_token_ ;;
      x_delivered_at <- Sql.bind_param delivered_at_ ;;
      Ok (fst (Sql.update (Sql.where_id (id e))
                 (fun r =>
                    {| id := id r;
                       transaction_id := transaction_id r;
                       tracking_number :=
                         Sql.coalesce x_tracking_number (tracking_number r);
                       carrier := Some carrier_;
                       status := x_status;
                       status_details := x_status_details;
                       metadata := metadata r;
                       label_url := label_url r;
                       tracking_url := tracking_url r;
                       eta := Sql.coalesce x_eta (eta r);
                       to_name := Sql.coalesce x_to_name (to_name r);
                       to_city := x_to_city;
                       to_state := x_to_state;
                       to_zip := x_to_zip;
                       to_country := x_to_country;
                       from_city := x_from_city;
                       from_state := x_from_state;
                       from_zip := x_from_zip;
                       from_country := x_from_country;
                       service_name := x_service_name;
                       service_token := x_service_token;
                       tracking_history := x_history;
                       created_at := created_at r;
                       updated_at := Some now;
                       status_date := x_status_date;
                       delivered_at :=
                         Sql.coalesce x_delivered_at (delivered_at r) |})
                 t))
  | None =>
      (* Create new record *)
      x_transaction_id <-
        Sql.bind_param (if truthy transaction_id_ then transaction_id_
                        else JStr ("track_" ++ PyRepr.str tracking_number_)) ;;
      x_tracking_number <- Sql.bind_param tracking_number_ ;;
      x_status <- Sql.bind_param status_ ;;
      x_status_details <- Sql.bind_param (member "status_details" tracking_status) ;;
      x_status_date <- Sql.bind_param (member "status_date" tracking_status) ;;
      x_eta <- Sql.bind_param eta_ ;;
      x_to_city <- Sql.bind_param to_city_ ;;
      x_to_state <- Sql.bind_param to_state_ ;;
      x_to_zip <- Sql.bind_param to_zip_ ;;
      x_to_country <- Sql.bind_param to_country_ ;;
      x_from_city <- Sql.bind_param from_city_ ;;
      x_from_state <- Sql.bind_param from_state_ ;;
      x_from_zip <- Sql.bind_param from_zip_ ;;
      x_from_country <- Sql.bind_param from_country_ ;;
      x_service_name <- Sql.bind_param service_name_ ;;
      x_service_token <- Sql.bind_param service_token_ ;;
      x_delivered_at <- Sql.bind_param delivered_at_ ;;
      match x_transaction_id with
      | None => Err IntegrityError          (* NOT NULL *)
      | Some tid =>
          if List.existsb (Sql.where_transaction_id (Some tid)) t
          then Err IntegrityError           (* UNIQUE *)
          else
            Ok (t ++ [ {| id := Sql.fresh_id t;
                          transaction_id := tid;
                          tracking_number := x_tracking_number;
                          carrier := Some carrier_;
                          status := x_status;
                          status_details := x_status_details;
                          metadata := None;
                          label_url := None;
                          tracking_url := None;
                          eta := x_eta;
                          to_name := None;
                          to_city := x_to_city;
                          to_state := x_to_state;
                          to_zip := x_to_zip;
                          to_country := x_to_country;
                          from_city := x_from_city;
                          from_state := x_from_state;
                          from_zip := x_from_zip;
                          from_country := x_from_country;
                          service_name := x_service_name;
                          service_token := x_service_token;
                          tracking_history := x_history;
                          created_at := Some now;
                          updated_at := Some now;
                          status_date := x_status_date;
                          delivered_at := x_delivered_at |} ])%list
      end
  end.

(** ** Webhook endpoint *)

Inductive webhook_body : Type :=
| Received                       (* {"received": true} *)
| NoPayload                      (* {"error": "No payload"} *)
| Error (e : exn).               (* {"error": str(e)} *)

Record response (B : Type) : Type := mkResponse {
  code : nat;
  body : B
}.

(** The dispatch on [event] inside the [try] block. *)
Definition dispatch (now : string) (t : table) (payload : json)
  : result table :=
  event <- get_or "event" (JStr "unknown") payload ;;
  data <- get_or "data" (JObj []) payload ;;
  if eq_str event "transaction_created" then
    handle_transaction_created now t data
  else if eq_str event "transaction_updated" then
    handle_transaction_updated now t data
  else if eq_str event "track_updated" then
    handle_track_updated now t data
  else Ok t.

(** [shippo_webhook()].  [request_json] is what [request.get_json()] does:
    it returns the decoded body or raises; [t] is the table behind the
    connection of [get_db_func()].  An exception leaves the table as it
    was: nothing was committed. *)
Definition shippo_webhook (now : string) (t : table)
    (request_json : result json) : response webhook_body * table :=
  match request_json with
  | Err e => (mkResponse 200 (Error e), t)
  | Ok payload =>
      if negb (truthy payload) then (mkResponse 400 NoPayload, t)
      else match dispatch now t payload with
           | Ok t' => (mkResponse 200 Received, t')
           | Err e => (mkResponse 200 (Error e), t)
           end
  end.

(** ** Query API: the shipment list *)

Module PyInt.

(** The blanks [int()] skips before and after the literal: the space
    and the characters from tab to carriage return. *)
Definition is_space (c : ascii) : bool :=
  let n := nat_of_ascii c in
  (n =? 32)%nat || ((9 <=? n)%nat && (n <=? 13)%nat).

Fixpoint lstrip (s : string) : string :=
  match s with
  | EmptyString => EmptyString
  | String c s' => if is_space c then lstrip s' else s
  end.

Fixpoint rstrip (s : string) : string :=
  match s with
  | EmptyString => EmptyString
  | String c s' =>
      match rstrip s' with
      | EmptyString => if is_space c then EmptyString
                       else String c EmptyString
      | r => String c r
      end
  end.

Definition digit_value (c : ascii) : Z := Z.of_nat (nat_of_ascii c - 48).

(** Decimal digits, single underscores allowed between two digits. *)
Fixpoint digits (acc : Z) (s : string) : option Z :=
  match s with
  | EmptyString => Some acc
  | String c s' =>
      if PyStr.is_digit c then digits (10 * acc + digit_value c) s'
      else if Ascii.eqb c "_" then
        match s' with
        | String d _ => if PyStr.is_digit d then digits acc s' else None
        | EmptyString => None
        end
      else None
  end.

Definition unsigned (s : string) : option Z :=
  match s with
  | String c _ => if PyStr.is_digit c then digits 0 s else None
  | EmptyString => None
  end.

(** The digits of a literal; the sign and the underscores do not count. *)
Fixpoint count_digits (s : string) : Z :=
  match s with
  | EmptyString => 0
  | String c s' => (if PyStr.is_digit c then 1 else 0) + count_digits s'
  end.

(** [sys.get_int_max_str_digits()] as CPython sets it: a decimal literal
    with more digits is refused. *)
Definition max_str_digits : Z := 4300.

(** [int(s)] for a string [s] *)
Definition int (s : string) : result Z :=
  let body := rstrip (lstrip s) in
  let r :=
    match body with
    | String c s' =>
        if Ascii.eqb c "-" then option_map Z.opp (unsigned s')
        else if Ascii.eqb c "+" then unsigned s'
        else unsigned body
    | EmptyString => None
    end in
  match r with
  | Some z =>
      if max_str_digits <? count_digits body then Err ValueError else Ok z
  | None => Err ValueError
  end.

End PyInt.

(** [request.args]: each parameter is absent or a string. *)
Record query_args : Type := mkArgs {
  arg_status : option string;
  arg_search : option string;
  arg_days : option string;
  arg_limit : option string
}.

(** A shipment of the response: the row as a dict, with its history
    decoded. *)
Record shipment : Type := mkShipment {
  shipment_row : row;
  shipment_history : json
}.

Inductive list_body : Type :=
| Shipments (l : list shipment)    (* {"success": true, "count", "shipments"} *)
| ListError (e : exn).             (* {"error": str(e)} *)

(** [x LIKE p]: [%] is any run of characters, [_] any one character,
    letters compare without case. *)
Fixpoint like (p x : string) : bool :=
  match p with
  | EmptyString => match x with EmptyString => true | _ => false end
  | String c p' =>
      if Ascii.eqb c "%" then
        (fix star (y : string) : bool :=
           like p' y
           || match y with
              | EmptyString => false
              | String _ y' => star y'
              end) x
      else
        match x with
        | EmptyString => false
        | String d x' =>
            (Ascii.eqb c "_"
             || Ascii.eqb (PyStr.lower_char c) (PyStr.lower_char d))
            && like p' x'
        end
  end.

Definition like_cell (x : cell) (p : string) : bool :=
  match x with
  | Some s => like p s
  | None => false
  end.

(** [a >= b] as a WHERE condition on TEXT values. *)
Definition ge_cell (a b : cell) : bool :=
  match a, b with
  | Some x, Some y => String.leb y x
  | _, _ => false
  end.

(** [ORDER BY created_at DESC]: NULL sorts below every text; rows with
    equal keys stay in rowid order. *)
Definition lt_cell (a b : cell) : bool :=
  match a, b with
  | None, Some _ => true
  | Some x, Some y => String.ltb x y
  | _, None => false
  end.

Fixpoint insert_desc (r : row) (l : list row) : list row :=
  match l with
  | [] => [r]
  | y :: l' =>
      if lt_cell (created_at r) (created_at y) then y :: insert_desc r l'
      else r :: l
  end.

Definition order_by_created_desc (l : list row) : list row :=
  List.fold_right insert_desc [] l.

(** [LIMIT n]: a negative [n] is no limit. *)
Definition limit_rows (n : Z) (l : list row) : list row :=
  if n <? 0 then l else List.firstn (Z.to_nat n) l.

(** The history of a listed shipment: decoded when the cell is non-empty,
    the empty array when it is empty or does not decode. *)
Definition decode_history (x : cell) : json :=
  match x with
  | Some s =>
      if PyStr.nonempty s then
        match Json.loads s with
        | Some v => v
        | None => JArr []
        end
      else JArr []
  | None => JArr []
  end.

Section Query.

(** SQLite's [datetime('now', modifier)]: the clock and the calendar
    arithmetic of the database, NULL for a modifier it does not
    accept. *)
Variable datetime_now : string -> cell.

(** The WHERE clause the endpoint assembles. *)
Definition list_where (days : Z) (status_ : option string) (search : string)
    (r : row) : bool :=
  ge_cell (created_at r)
          (datetime_now ("-" ++ PyRepr.string_of_Z days ++ " days"))
  && Sql.ne_cell (status r) (Some "ERROR")
  && match status_ with
     | Some s =>
         if PyStr.nonempty s && negb (String.eqb (PyStr.upper s) "ALL")
         then Sql.eq_cell (status r) (Some (PyStr.upper s))
         else true
     | None => true
     end
  && (if PyStr.nonempty search then
        let pattern := "%" ++ search ++ "%" in
        like_cell (tracking_number r) pattern
        || like_cell (metadata r) pattern
        || like_cell (to_city r) pattern
        || like_cell (carrier r) pattern
      else true).

Definition list_query (t : table) (a : query_args) : result (list shipment) :=
  let search := match arg_search a with Some s => s | None => EmptyString end in
  days <- (match arg_days a with Some s => PyInt.int s | None => Ok 90 end) ;;
  limit <- (match arg_limit a with Some s => PyInt.int s | None => Ok 200 end) ;;
  (if Sql.int64 limit then Ok tt else Err OverflowError) ;;;
  let rows :=
    limit_rows limit
      (order_by_created_desc
         (List.filter (list_where days (arg_status a) search) t)) in
  Ok (List.map (fun r => mkShipment r (decode_history (tracking_history r)))
        rows).

(** [get_shippo_shipments()] *)
Definition get_shippo_shipments (t : table) (a : query_args)
  : response list_body :=
  match list_query t a with
  | Ok l => mkResponse 200 (Shipments l)
  | Err e => mkResponse 500 (ListError e)
  end.

End Query.

(** ** Query API: one shipment, and the statistics *)

(** The [tracking_history] entry of the single-shipment response: decoded
    when the stored cell is non-empty (the empty array when it does not
    decode), and otherwise the cell as stored. *)
Inductive history_field : Type :=
| Decoded (v : json)
| Stored (x : cell).

Definition lookup_history (x : cell) : history_field :=
  match x with
  | Some s =>
      if PyStr.nonempty s then
        Decoded match Json.loads s with
                | Some v => v
                | None => JArr []
                end
      else Stored x
  | None => Stored x
  end.

Inductive lookup_body : Type :=
| Found (r : row) (history : history_field)   (* {"success": true, "shipment"} *)
| NotFound.                                   (* {"error": "Not found"} *)

(** What [cursor.fetchone()] may give on the rows a SELECT without ORDER
    BY matches: one of them, and nothing only when there is none. *)
Definition fetches (fetch : list row -> option row) : Prop :=
  (forall l r, fetch l = Some r -> In r l)
  /\ (forall l, fetch l = None -> l = []).

Section Lookup.

(** SQLite's comparison of the INTEGER column [id] with a text
    parameter: the integer the text is equal to, if any. *)
Variable numeric_id : string -> option Z.

(** The row [fetchone()] gives among the matching ones. *)
Variable fetch : list row -> option row.

(** [WHERE id = ? OR tracking_number = ? OR transaction_id = ?] *)
Definition lookup_where (shipment_id : string) (r : row) : bool :=
  match numeric_id shipment_id with
  | Some i => id r =? i
  | None => false
  end
  || Sql.eq_cell (tracking_number r) (Some shipment_id)
  || Sql.eq_cell (Some (transaction_id r)) (Some shipment_id).

(** [get_shippo_shipment(shipment_id)] *)
Definition get_shippo_shipment (t : table) (shipment_id : string)
  : response lookup_body :=
  match fetch (List.filter (lookup_where shipment_id) t) with
  | None => mkResponse 404 NotFound
  | Some r => mkResponse 200 (Found r (lookup_history (tracking_history r)))
  end.

End Lookup.

Inductive stats_body : Type :=
| Stats (total : nat) (by_status : list (cell * nat))
                               (* {"success": true, "total", "by_status"} *)
| StatsError (e : exn).        (* {"error": str(e)} *)

(** [a IS b]: the equality GROUP BY groups rows with. *)
Definition same_cell (a b : cell) : bool :=
  match a, b with
  | Some x, Some y => String.eqb x y
  | None, None => true
  | _, _ => false
  end.

(** [COUNT( * )] of the group of [k]. *)
Definition count_status (k : cell) (rows : list row) : nat :=
  List.length (List.filter (fun r => same_cell (status r) k) rows).

(** The distinct statuses of [rows], each once, in order of appearance. *)
Fixpoint statuses (rows : list row) : list cell :=
  match rows with
  | [] => []
  | r :: rows' =>
      status r
      :: List.filter (fun k => negb (same_cell k (status r))) (statuses rows')
  end.

(** [SELECT status, COUNT( * ) ... GROUP BY status] read into the dict
    [by_status]: one item per status. *)
Definition group_by_status (rows : list row) : list (cell * nat) :=
  List.map (fun k => (k, count_status k rows)) (statuses rows).

(** [by_status.get(k)] *)
Fixpoint status_count (k : cell) (by_status : list (cell * nat)) : option nat :=
  match by_status with
  | [] => None
  | (k', n) :: rest => if same_cell k' k then Some n else status_count k rest
  end.

Section Stats.

Variable datetime_now : string -> cell.

Definition stats_where (days : Z) (r : row) : bool :=
  ge_cell (created_at r)
          (datetime_now ("-" ++ PyRepr.string_of_Z days ++ " days"))
  && Sql.ne_cell (status r) (Some "ERROR").

Definition stats_query (t : table) (arg_days_ : option string)
  : result (nat * list (cell * nat)) :=
  days <- (match arg_days_ with Some s => PyInt.int s | None => Ok 90 end) ;;
  let by_status := group_by_status (List.filter (stats_where days) t) in
  Ok (List.fold_right (fun kn n => (snd kn + n)%nat) O by_status, by_status).

(** [get_shippo_stats()] *)
Definition get_shippo_stats (t : table) (arg_days_ : option string)
  : response stats_body :=
  match stats_query t arg_days_ with
  | Ok (total, by_status) => mkResponse 200 (Stats total by_status)
  | Err e => mkResponse 500 (StatsError e)
  end.

End Stats.

(** ** Definitions the properties are stated with *)

(** The six classification rules in the words of the specification, each
    a test on the tracking number, tried in order ([rules], [classify]);
    and the same with the suffix of rule 4 read in either case
    ([rules_any_case], [classify_any_case]). *)
Module CarrierSpec.

Definition all_digit (s : string) : bool := PyStr.isdigit s.

(** 2. starts with "1Z", case-insensitive *)
Definition rule_ups (s : string) : bool :=
  PyStr.startswith "1Z" (PyStr.upper s).

(** 3. length >= 12 and all-digit *)
Definition rule_fedex (s : string) : bool :=
  (12 <=? PyStr.len s) && all_digit s.

(** The first half of rule 4: length >= 16, first character '9',
    all-digit. *)
Definition usps_digits (s : string) : bool :=
  (16 <=? PyStr.len s) && PyStr.first_is "9" s && all_digit s.

(** 4. (length >= 16, first character '9', all-digit) or (length 13,
    first two characters alphabetic, last two characters "US") *)
Definition rule_usps (s : string) : bool :=
  usps_digits s
  || ((PyStr.len s =? 13) && PyStr.isalpha (PyStr.take 2 s)
      && String.eqb (PyStr.take_last 2 s) "US").

(** Rule 4 with the last two characters compared in either case, the way
    rule 2 compares the first two. *)
Definition rule_usps_any_case (s : string) : bool :=
  usps_digits s
  || ((PyStr.len s =? 13) && PyStr.isalpha (PyStr.take 2 s)
      && String.eqb (PyStr.take_last 2 (PyStr.upper s)) "US").

(** 5. length in {10, 11} and all-digit *)
Definition rule_dhl (s : string) : bool :=
  ((PyStr.len s =? 10) || (PyStr.len s =? 11)) && all_digit s.

Definition rules : list ((string -> bool) * string) :=
  [ (rule_ups, "UPS"); (rule_fedex, "FEDEX");
    (rule_usps, "USPS"); (rule_dhl, "DHL") ].

Definition rules_any_case : list ((string -> bool) * string) :=
  [ (rule_ups, "UPS"); (rule_fedex, "FEDEX");
    (rule_usps_any_case, "USPS"); (rule_dhl, "DHL") ].

(** First match wins; 6. otherwise the generic tag. *)
Fixpoint first_match (rs : list ((string -> bool) * string)) (s : string)
  : string :=
  match rs with
  | [] => "CARRIER"
  | (applies, tag) :: rs' => if applies s then tag else first_match rs' s
  end.

(** 1. empty or absent input is UNKNOWN. *)
Definition classify_with (rs : list ((string -> bool) * string))
    (tracking_number : option string) : string :=
  match tracking_number with
  | None => "UNKNOWN"
  | Some s => if PyStr.nonempty s then first_match rs s else "UNKNOWN"
  end.

Definition classify : option string -> string := classify_with rules.

Definition classify_any_case : option string -> string :=
  classify_with rules_any_case.

End CarrierSpec.

(** What a payload supplies for a column: the value under [key] as the
    statement binds it, NULL when there is none. *)
Definition supplied (key : string) (data : json) : cell :=
  match get key data with
  | Ok v => match Sql.bind_param v with
            | Ok c => c
            | Err _ => None
            end
  | Err _ => None
  end.

(** The transaction id of a [transaction_created] or
    [transaction_updated] payload, as the table keys it. *)
Definition payload_transaction_id (data : json) : option string :=
  supplied "object_id" data.

Definition record_of (k : string) (t : table) : option row :=
  Sql.fetchone (Sql.where_transaction_id (Some k)) t.

Definition has_record (k : string) (t : table) : bool :=
  List.existsb (Sql.where_transaction_id (Some k)) t.

Fixpoint first_non_null (l : list cell) : cell :=
  match l with
  | [] => None
  | Some v :: _ => Some v
  | None :: l' => first_non_null l'
  end.

Definition last_non_null (l : list cell) : cell := first_non_null (List.rev l).

(** [transaction_created] events applied in order, each at its own clock
    reading. *)
Fixpoint created_sequence (t : table) (events : list (string * json))
  : result table :=
  match events with
  | [] => Ok t
  | (now, data) :: rest =>
      t' <- handle_transaction_created now t data ;;
      created_sequence t' rest
  end.

(** The same payload replayed at the clock readings [times]. *)
Definition replay (data : json) (times : list string) : list (string * json) :=
  List.map (fun now => (now, data)) times.

(** The record [handle_track_updated] would update, if any. *)
Definition track_existing (t : table) (data : json) : result (option row) :=
  tracking_number_ <- get "tracking_number" data ;;
  transaction_id_ <- get "transaction" data ;;
  find_existing t transaction_id_ tracking_number_.

(** The delivery date a [track_updated] payload carries: the status date
    of a DELIVERED status object, NULL otherwise. *)
Definition delivery_date (data : json) : cell :=
  match get_or "tracking_status" (JObj []) data with
  | Ok ts => match Sql.bind_param (delivered_at_of ts) with
             | Ok c => c
             | Err _ => None
             end
  | Err _ => None
  end.

(** The history array a [track_updated] payload carries: the value under
    [tracking_history], the empty array when the key is absent. *)
Definition payload_history (data : json) : option (list json) :=
  match get_or "tracking_history" (JArr []) data with
  | Ok (JArr l) => Some l
  | _ => None
  end.

(** The request body is absent ([get_json] gives [None]) or unparseable
    ([get_json] raises). *)
Definition absent_or_unparseable (request_json : result json) : bool :=
  match request_json with
  | Err _ => true
  | Ok JNull => true
  | Ok _ => false
  end.

Definition without_updated_at (r : row) : row :=
  {| id := id r;
     transaction_id := transaction_id r;
     tracking_number := tracking_number r;
     carrier := carrier r;
     status := status r;
     status_details := status_details r;
     metadata := metadata r;
     label_url := label_url r;
     tracking_url := tracking_url r;
     eta := eta r;
     to_name := to_name r;
     to_city := to_city r;
     to_state := to_state r;
     to_zip := to_zip r;
     to_country := to_country r;
     from_city := from_city r;
     from_state := from_state r;
     from_zip := from_zip r;
     from_country := from_country r;
     service_name := service_name r;
     service_token := service_token r;
     tracking_history := tracking_history r;
     created_at := created_at r;
     updated_at := None;
     status_date := status_date r;
     delivered_at := delivered_at r |}.


(** What [handle_transaction_created] writes, in terms of what the
    payload supplies: the row its ON CONFLICT clause leaves in place of
    [r], and the row its INSERT adds. *)
Definition supplied_status (default : string) (data : json) : cell :=
  match get_or "tracking_status" (JStr default) data with
  | Ok v => match Sql.bind_param v with
            | Ok c => c
            | Err _ => None
            end
  | Err _ => None
  end.

Definition created_merge (now : string) (data : json) (r : row) : row :=
  {| id := id r;
     transaction_id := transaction_id r;
     tracking_number := supplied "tracking_number" data;
     carrier := carrier r;
     status := supplied_status "PRE_TRANSIT" data;
     status_details := status_details r;
     metadata := Sql.coalesce (supplied "metadata" data) (metadata r);
     label_url := Sql.coalesce (supplied "label_url" data) (label_url r);
     tracking_url :=
       Sql.coalesce (supplied "tracking_url_provider" data) (tracking_url r);
     eta := Sql.coalesce (supplied "eta" data) (eta r);
     to_name := to_name r;
     to_city := to_city r;
     to_state := to_state r;
     to_zip := to_zip r;
     to_country := to_country r;
     from_city := from_city r;
     from_state := from_state r;
     from_zip := from_zip r;
     from_country := from_country r;
     service_name := service_name r;
     service_token := service_token r;
     tracking_history := tracking_history r;
     created_at := created_at r;
     updated_at := Some now;
     status_date := status_date r;
     delivered_at := delivered_at r |}.

Definition created_row (now : string) (data : json) (i : Z) (k : string) : row :=
  {| id := i;
     transaction_id := k;
     tracking_number := supplied "tracking_number" data;
     carrier :=
       match get "tracking_number" data with
       | Ok v => ok_value (detect_carrier v)
       | Err _ => None
       end;
     status := supplied_status "PRE_TRANSIT" data;
     status_details := None;
     metadata := supplied "metadata" data;
     label_url := supplied "label_url" data;
     tracking_url := supplied "tracking_url_provider" data;
     eta := supplied "eta" data;
     to_name := None;
     to_city := None;
     to_state := None;
     to_zip := None;
     to_country := None;
     from_city := None;
     from_state := None;
     from_zip := None;
     from_country := None;
     service_name := None;
     service_token := None;
     tracking_history := None;
     created_at := supplied "object_created" data;
     updated_at := Some now;
     status_date := None;
     delivered_at := None |}.

(** The table after an upsert keyed by [k]. *)
Definition created_table (now : string) (data : json) (k : string) (t : table)
  : table :=
  if has_record k t
  then List.map (fun r => if Sql.where_transaction_id (Some k) r
                          then created_merge now data r else r) t
  else (t ++ [created_row now data (Sql.fresh_id t) k])%list.

(** Whether the table holds a record for the payload's transaction id. *)
Definition payload_has_record (t : table) (data : json) : bool :=
  match payload_transaction_id data with
  | Some k => has_record k t
  | None => false
  end.

(** The values a sequence of events supplies under [key], in order. *)
Definition supplied_values (key : string) (events : list (string * json))
  : list cell :=
  List.map (fun e => supplied key (snd e)) events.

(** What [column] holds in the record keyed by [k]; NULL when the table
    has no such record. *)
Definition column_of (column : row -> cell) (k : string) (t : table) : cell :=
  match record_of k t with
  | Some r => column r
  | None => None
  end.

(** The fuel [Json.parse_value] needs on the text of a value: its number
    of nodes, each member of an array or object counted once more. *)
Fixpoint json_size (v : json) : nat :=
  match v with
  | JArr l => S (List.fold_right (fun x n => S (json_size x + n)) O l)
  | JObj l => S (List.fold_right (fun kv n => S (json_size (snd kv) + n)) O l)
  | _ => 1
  end.

(** What may follow a value in a JSON text: the end, or a character that
    starts neither a digit run nor a fraction or exponent. *)
Definition delimited (rest : string) : bool :=
  match rest with
  | EmptyString => true
  | String c _ => Ascii.eqb c "," || Ascii.eqb c "]" || Ascii.eqb c "}"
  end.

(** What may follow a run of digits. *)
Definition no_digit_head (rest : string) : bool :=
  match rest with
  | EmptyString => true
  | String c _ => negb (PyStr.is_digit c)
  end.

(** The first character of the text of a value: not white space, not a
    closing bracket. *)
Definition opens_value (c : ascii) : bool :=
  negb (Json.is_ws c) && negb (Ascii.eqb c "]") && negb (Ascii.eqb c "}").

(** [Json.parse_value] reads the text of [v] back, given fuel above its
    size and a delimiter after it. *)
Definition parses_back (v : json) : Prop :=
  forall f rest,
    (json_size v < f)%nat -> delimited rest = true ->
    Json.parse_value f (Json.dumps v ++ rest) = Some (v, rest).

Definition items_size (l : list json) : nat :=
  List.fold_right (fun x n => S (json_size x + n)) O l.

Definition fields_size (l : list (string * json)) : nat :=
  List.fold_right (fun kv n => S (json_size (snd kv) + n)) O l.

(** The text of one member of an object. *)
Definition field_text (kv : string * json) : string :=
  Json.dump_str (fst kv) ++ ": " ++ Json.dumps (snd kv).

(** The key invariant of the table: [transaction_id] is UNIQUE and [id]
    is the primary key. *)
Definition unique_keys (t : table) : Prop :=
  NoDup (List.map transaction_id t) /\ NoDup (List.map id t).

(** ** What the handlers write, column by column

    The rows the UPDATE and INSERT statements of
    [handle_transaction_updated] and [handle_track_updated] leave, in
    terms of what the payload supplies. *)

(** A value as the statement binds it, NULL when it cannot be bound. *)
Definition bound (v : json) : cell :=
  match Sql.bind_param v with
  | Ok c => c
  | Err _ => None
  end.

(** What the payload supplies under [inner] of its object [outer]. *)
Definition supplied_in (outer inner : string) (data : json) : cell :=
  match get_or outer (JObj []) data with
  | Ok o => match get inner o with
            | Ok v => bound v
            | Err _ => None
            end
  | Err _ => None
  end.

(** A part [f] of the payload's [tracking_status]. *)
Definition supplied_tracking_status (f : json -> json) (data : json) : cell :=
  match get_or "tracking_status" (JObj []) data with
  | Ok ts => bound (f ts)
  | Err _ => None
  end.

(** The carrier [handle_track_updated] stores. *)
Definition track_carrier (data : json) : cell :=
  match get "carrier" data, get "tracking_number" data with
  | Ok c, Ok tn =>
      ok_value (if truthy c then upper c
                else x <- detect_carrier tn ;; Ok (PyStr.upper x))
  | _, _ => None
  end.

(** The serialized history [handle_track_updated] stores. *)
Definition track_history (data : json) : cell :=
  match get_or "tracking_history" (JArr []) data with
  | Ok h => Some (Json.dumps h)
  | Err _ => None
  end.

(** The key of the record [handle_track_updated] inserts: the payload's
    transaction, or [track_<tracking_number>] when that is falsy. *)
Definition track_key (data : json) : option string :=
  match get "transaction" data, get "tracking_number" data with
  | Ok tid, Ok tn =>
      bound (if truthy tid then tid else JStr ("track_" ++ PyRepr.str tn))
  | _, _ => None
  end.

Definition updated_merge (now : string) (data : json) (r : row) : row :=
  {| id := id r;
     transaction_id := transaction_id r;
     tracking_number :=
       Sql.coalesce (supplied "tracking_number" data) (tracking_number r);
     carrier := carrier r;
     status := supplied_status "UNKNOWN" data;
     status_details := status_details r;
     metadata := metadata r;
     label_url := label_url r;
     tracking_url := tracking_url r;
     eta := Sql.coalesce (supplied "eta" data) (eta r);
     to_name := to_name r;
     to_city := to_city r;
     to_state := to_state r;
     to_zip := to_zip r;
     to_country := to_country r;
     from_city := from_city r;
     from_state := from_state r;
     from_zip := from_zip r;
     from_country := from_country r;
     service_name := service_name r;
     service_token := service_token r;
     tracking_history := tracking_history r;
     created_at := created_at r;
     updated_at := Some now;
     status_date := status_date r;
     delivered_at := delivered_at r |}.

Definition track_merge (now : string) (data : json) (r : row) : row :=
  {| id := id r;
     transaction_id := transaction_id r;
     tracking_number :=
       Sql.coalesce (supplied "tracking_number" data) (tracking_number r);
     carrier := track_carrier data;
     status := supplied_tracking_status status_of data;
     status_details :=
       supplied_tracking_status (member "status_details") data;
     metadata := metadata r;
     label_url := label_url r;
     tracking_url := tracking_url r;
     eta := Sql.coalesce (supplied "eta" data) (eta r);
     to_name := Sql.coalesce (supplied_in "address_to" "name" data) (to_name r);
     to_city := supplied_in "address_to" "city" data;
     to_state := supplied_in "address_to" "state" data;
     to_zip := supplied_in "address_to" "zip" data;
     to_country := supplied_in "address_to" "country" data;
     from_city := supplied_in "address_from" "city" data;
     from_state := supplied_in "address_from" "state" data;
     from_zip := supplied_in "address_from" "zip" data;
     from_country := supplied_in "address_from" "country" data;
     service_name := supplied_in "servicelevel" "name" data;
     service_token := supplied_in "servicelevel" "token" data;
     tracking_history := track_history data;
     created_at := created_at r;
     updated_at := Some now;
     status_date := supplied_tracking_status (member "status_date") data;
     delivered_at := Sql.coalesce (delivery_date data) (delivered_at r) |}.

Definition track_row (now : string) (data : json) (i : Z) (k : string) : row :=
  {| id := i;
     transaction_id := k;
     tracking_number := supplied "tracking_number" data;
     carrier := track_carrier data;
     status := supplied_tracking_status status_of data;
     status_details :=
       supplied_tracking_status (member "status_details") data;
     metadata := None;
     label_url := None;
     tracking_url := None;
     eta := supplied "eta" data;
     to_name := None;
     to_city := supplied_in "address_to" "city" data;
     to_state := supplied_in "address_to" "state" data;
     to_zip := supplied_in "address_to" "zip" data;
     to_country := supplied_in "address_to" "country" data;
     from_city := supplied_in "address_from" "city" data;
     from_state := supplied_in "address_from" "state" data;
     from_zip := supplied_in "address_from" "zip" data;
     from_country := supplied_in "address_from" "country" data;
     service_name := supplied_in "servicelevel" "name" data;
     service_token := supplied_in "servicelevel" "token" data;
     tracking_history := track_history data;
     created_at := Some now;
     updated_at := Some now;
     status_date := supplied_tracking_status (member "status_date") data;
     delivered_at := delivery_date data |}.

(** The columns only [handle_track_updated] writes are the same in [r]
    and [r']. *)
Definition same_tracking_columns (r r' : row) : Prop :=
  status_details r' = status_details r
  /\ status_date r' = status_date r
  /\ to_name r' = to_name r
  /\ to_city r' = to_city r
  /\ to_state r' = to_state r
  /\ to_zip r' = to_zip r
  /\ to_country r' = to_country r
  /\ from_city r' = from_city r
  /\ from_state r' = from_state r
  /\ from_zip r' = from_zip r
  /\ from_country r' = from_country r
  /\ service_name r' = service_name r
  /\ service_token r' = service_token r
  /\ tracking_history r' = tracking_history r
  /\ delivered_at r' = delivered_at r.


(** The identity of a record: what no handler ever rewrites. *)
Definition identity (r : row) : Z * string * cell :=
  (id r, transaction_id r, created_at r).

(** The six tags of the classifier. *)
Definition carrier_tags : list string :=
  [ "UNKNOWN"; "UPS"; "FEDEX"; "USPS"; "DHL"; "CARRIER" ].

(** The [days] and [limit] parameters as the query endpoints read them:
    [int(request.args.get('days', 90))] and
    [int(request.args.get('limit', 200))]. *)
Definition days_of (x : option string) : result Z :=
  match x with
  | Some s => PyInt.int s
  | None => Ok 90
  end.

Definition limit_of (x : option string) : result Z :=
  match x with
  | Some s => PyInt.int s
  | None => Ok 200
  end.

(** A text without a decimal digit. *)
Definition without_digit (s : string) : bool :=
  PyStr.all (fun c => negb (PyStr.is_digit c)) s.

(** [r1] was created no earlier than [r2], both creation times known. *)
Definition not_older (r1 r2 : row) : Prop :=
  ge_cell (created_at r1) (created_at r2) = true.

(** ** A worked scenario

    One label, [tx1]: created, created again with a second label URL,
    updated, tracked as delivered, and tracked as delivered once more with
    a later date. *)
Module Scenario.

Definition created_a : json :=
  JObj [ ("object_id", JStr "tx1");
         ("tracking_number", JStr "1234567890");
         ("label_url", JStr "https://labels.example/a.pdf");
         ("metadata", JStr "Order 1001");
         ("object_created", JStr "2024-01-01T09:59:58Z") ].

Definition created_b : json :=
  JObj [ ("object_id", JStr "tx1");
         ("tracking_number", JStr "1234567890");
         ("label_url", JStr "https://labels.example/b.pdf") ].

Definition updated : json :=
  JObj [ ("object_id", JStr "tx1"); ("tracking_status", JStr "TRANSIT") ].

Definition delivered (date : string) : json :=
  JObj [ ("transaction", JStr "tx1");
         ("tracking_number", JStr "1234567890");
         ("address_to", JObj [ ("city", JStr "Austin") ]);
         ("tracking_status",
          JObj [ ("status", JStr "DELIVERED"); ("status_date", JStr date) ]);
         ("tracking_history",
          JArr [ JObj [ ("status", JStr "PRE_TRANSIT") ];
                 JObj [ ("status", JStr "TRANSIT") ];
                 JObj [ ("status", JStr "DELIVERED") ] ]) ].

Definition failed : json :=
  JObj [ ("object_id", JStr "tx9");
         ("tracking_status", JStr "ERROR");
         ("object_created", JStr "2024-01-03T11:00:00Z") ].

Definition first_date : string := "2024-01-05T08:30:00Z".
Definition second_date : string := "2024-01-09T12:00:00Z".

Definition table_of (r : result table) : table :=
  match r with
  | Ok t => t
  | Err _ => []
  end.

Definition events : list (string * json) :=
  [ ("2024-01-01 10:00:00", created_a); ("2024-01-01 10:05:00", created_b) ].

Definition t_created : table := table_of (created_sequence [] events).

Definition t_updated : table :=
  table_of (handle_transaction_updated "2024-01-02 08:00:00" [] updated).

Definition t_delivered : table :=
  table_of (handle_track_updated "2024-01-05 09:00:00" t_created
              (delivered first_date)).

Definition t_delivered_again : table :=
  table_of (handle_track_updated "2024-01-09 13:00:00" t_delivered
              (delivered second_date)).

Definition t_with_error : table :=
  table_of (handle_transaction_created "2024-01-03 11:00:01" t_created failed).

(** A clock for the list query: ninety days before "now". *)
Definition cutoff (modifier : string) : cell :=
  if String.eqb modifier "-90 days" then Some "2023-12-01 00:00:00" else None.

End Scenario.

(** ** Further payloads and tables

    The events of the scenario continued: payloads that lack a key, a
    second shipment, and the tables the handlers leave on them. *)

Module Cases.

Definition no_id : json :=
  JObj [ ("tracking_number", JStr "1234567890") ].

Definition no_keys : json :=
  JObj [ ("tracking_status", JObj [ ("status", JStr "TRANSIT") ]) ].


Definition other_transaction : json :=
  JObj [ ("transaction", JStr "tx2");
         ("tracking_number", JStr "1234567890") ].

Definition created_c : json :=
  JObj [ ("object_id", JStr "tx3");
         ("tracking_number", JStr "1Z999AA10123456784");
         ("object_created", JStr "2024-01-04T07:00:00Z") ].

Definition envelope (event : string) (data : json) : json :=
  JObj [ ("event", JStr event); ("data", data) ].

Definition first_row (t : table) : row :=
  List.hd (created_row "" JNull 0 "") t.

Definition t_replayed : table :=
  Scenario.table_of
    (handle_transaction_created "2024-01-02 00:00:00" Scenario.t_created
       Scenario.created_b).

Definition t_transit : table :=
  Scenario.table_of
    (handle_transaction_updated "2024-01-02 08:00:00" Scenario.t_created
       Scenario.updated).

Definition t_tracked : table :=
  Scenario.table_of
    (handle_track_updated "2024-01-05 09:00:00" []
       (Scenario.delivered Scenario.first_date)).

Definition t_no_keys : table :=
  Scenario.table_of (handle_track_updated "2024-01-05 09:00:00" [] no_keys).


Definition t_other : table :=
  Scenario.table_of
    (handle_track_updated "2024-01-05 09:00:00" Scenario.t_created
       other_transaction).

(** Three records: tx1, the failed tx9, and tx3. *)
Definition t_three : table :=
  Scenario.table_of
    (handle_transaction_created "2024-01-04 07:00:01" Scenario.t_with_error
       created_c).

Definition shipments_of (r : response list_body) : list shipment :=
  match body r with
  | Shipments l => l
  | ListError _ => []
  end.

Definition no_numeric_id (shipment_id : string) : option Z := None.

End Cases.

(** * Properties *)

Unset Implicit Arguments.

(** ** [json.loads] after [json.dumps] *)

Lemma json_ind' (P : json -> Prop) :
  P JNull -> (forall b, P (JBool b)) -> (forall z, P (JNum z)) ->
  (forall s, P (JStr s)) ->
  (forall l, Forall P l -> P (JArr l)) ->
  (forall l, Forall (fun kv => P (snd kv)) l -> P (JObj l)) ->
  forall v, P v.
Proof.
  intros Hn Hb Hz Hs Ha Ho.
  fix IH 1. intros [| b | z | s | l | l].
  - exact Hn.
  - apply Hb.
  - apply Hz.
  - apply Hs.
  - apply Ha. induction l as [|x l IHl]; constructor; [apply IH | exact IHl].
  - apply Ho.
    induction l as [|[k v] l IHl]; constructor; [apply IH | exact IHl].
Qed.

Lemma append_assoc (a b c : string) : (a ++ b) ++ c = a ++ (b ++ c).
Proof. induction a; cbn; congruence. Qed.

Lemma append_nil_r (a : string) : a ++ "" = a.
Proof. induction a; cbn; congruence. Qed.

Lemma length_append (a b : string) :
  String.length (a ++ b) = (String.length a + String.length b)%nat.
Proof. induction a; cbn; congruence. Qed.

Lemma parse_char_dump c tail :
  Json.parse_chars (Json.dump_char c ++ tail)
  = Json.cons_char c (Json.parse_chars tail).
Proof.
  destruct c as [[|] [|] [|] [|] [|] [|] [|] [|]]; reflexivity.
Qed.

(** Numbers *)

Lemma delimited_no_digit rest : delimited rest = true -> no_digit_head rest = true.
Proof.
  destruct rest as [|c rest]; [reflexivity|].
  destruct c as [[|] [|] [|] [|] [|] [|] [|] [|]];
    intros H; vm_compute in H |- *; congruence.
Qed.

Lemma delimited_no_float rest : delimited rest = true -> Json.starts_float rest = false.
Proof.
  destruct rest as [|c rest]; [reflexivity|].
  destruct c as [[|] [|] [|] [|] [|] [|] [|] [|]];
    intros H; vm_compute in H |- *; congruence.
Qed.

Lemma uint_text_digits u :
  PyStr.all PyStr.is_digit (NilEmpty.string_of_uint u) = true.
Proof. induction u; cbn; auto. Qed.

Lemma span_digits_app ds rest :
  PyStr.all PyStr.is_digit ds = true -> no_digit_head rest = true ->
  Json.span_digits (ds ++ rest) = (ds, rest).
Proof.
  intros Hd Hr. induction ds as [|c ds IH]; cbn in *.
  - destruct rest as [|c rest]; [reflexivity|]. cbn in *.
    now destruct (PyStr.is_digit c).
  - apply andb_prop in Hd as [Hc Hd]. rewrite Hc, (IH Hd). reflexivity.
Qed.

Lemma int_of_string_of_Z z :
  NilZero.int_of_string (PyRepr.string_of_Z z) = Some (Z.to_int z).
Proof.
  unfold PyRepr.string_of_Z. apply NilZero.isi.
  - destruct z; cbn; try discriminate.
    intros [= H]. now apply Unsigned.to_uint_nonnil in H.
  - destruct z; cbn; try discriminate.
    intros [= H]. now apply Unsigned.to_uint_nonnil in H.
Qed.

Lemma uint_text_nonnil u :
  u <> Decimal.Nil ->
  NilZero.string_of_uint u = NilEmpty.string_of_uint u
  /\ PyStr.nonempty (NilEmpty.string_of_uint u) = true.
Proof. destruct u; intros H; try congruence; split; reflexivity. Qed.

(** The text of an integer: an optional minus sign and a non-empty run of
    digits. *)
Lemma string_of_Z_shape z :
  exists sign ds,
    PyRepr.string_of_Z z = sign ++ ds
    /\ (sign = "" \/ sign = "-")
    /\ PyStr.all PyStr.is_digit ds = true
    /\ PyStr.nonempty ds = true.
Proof.
  unfold PyRepr.string_of_Z.
  destruct z as [|p|p]; cbn [Z.to_int NilZero.string_of_int].
  - exists "", "0". auto.
  - exists "", (NilEmpty.string_of_uint (Pos.to_uint p)).
    destruct (uint_text_nonnil _ (Unsigned.to_uint_nonnil p)) as [-> Hn].
    repeat split; auto using uint_text_digits.
  - exists "-", (NilEmpty.string_of_uint (Pos.to_uint p)).
    destruct (uint_text_nonnil _ (Unsigned.to_uint_nonnil p)) as [-> Hn].
    repeat split; auto using uint_text_digits.
Qed.

Lemma parse_int_digits ds rest (sign : string) :
  (sign = "" \/ sign = "-") ->
  PyStr.all PyStr.is_digit ds = true -> PyStr.nonempty ds = true ->
  no_digit_head rest = true ->
  Json.parse_int ((sign ++ ds) ++ rest)
  = match NilZero.int_of_string (sign ++ ds) with
    | Some d =>
        if (String.eqb (PyRepr.string_of_Z (Z.of_int d)) (sign ++ ds)
            || String.eqb (sign ++ ds) "-0")
           && negb (Json.starts_float rest)
        then Some (JNum (Z.of_int d), rest) else None
    | None => None
    end.
Proof.
  intros Hs Hd Hn Hr. unfold Json.parse_int.
  destruct Hs as [-> | ->].
  - destruct ds as [|c ds]; [discriminate|]. cbn [append].
    assert (Hc : Ascii.eqb c "-" = false).
    { cbn in Hd. apply andb_prop in Hd as [Hc _].
      clear -Hc.
      destruct c as [[|] [|] [|] [|] [|] [|] [|] [|]];
        vm_compute in Hc |- *; congruence. }
    rewrite Hc.
    change (String c (ds ++ rest)) with (String c ds ++ rest).
    rewrite (span_digits_app _ _ Hd Hr). reflexivity.
  - cbn [append Ascii.eqb Bool.eqb]. rewrite (span_digits_app _ _ Hd Hr).
    reflexivity.
Qed.

Lemma parse_int_string_of_Z z rest :
  delimited rest = true ->
  Json.parse_int (PyRepr.string_of_Z z ++ rest) = Some (JNum z, rest).
Proof.
  intros Hr. destruct (string_of_Z_shape z) as (sign & ds & E & Hs & Hd & Hn).
  rewrite E, (parse_int_digits _ _ _ Hs Hd Hn (delimited_no_digit _ Hr)).
  rewrite <- E, int_of_string_of_Z, DecimalZ.of_to, String.eqb_refl.
  now rewrite (delimited_no_float _ Hr).
Qed.

Lemma parse_value_numeric_head f c s :
  PyStr.is_digit c || Ascii.eqb c "-" = true ->
  Json.parse_value (S f) (String c s) = Json.parse_int (String c s).
Proof.
  destruct c as [[|] [|] [|] [|] [|] [|] [|] [|]];
    intros H; vm_compute in H; try discriminate H; reflexivity.
Qed.

Lemma parse_value_number f z rest :
  delimited rest = true ->
  Json.parse_value (S f) (PyRepr.string_of_Z z ++ rest) = Some (JNum z, rest).
Proof.
  intros Hr. rewrite <- (parse_int_string_of_Z z rest Hr).
  destruct (string_of_Z_shape z) as (sign & ds & E & Hs & Hd & Hn).
  rewrite E. destruct ds as [|c ds]; [discriminate|].
  cbn in Hd. apply andb_prop in Hd as [Hc _].
  destruct Hs as [-> | ->]; cbn [append].
  - apply parse_value_numeric_head. now rewrite Hc.
  - apply parse_value_numeric_head. reflexivity.
Qed.

(** Strings *)

Lemma parse_chars_dump s rest :
  Json.parse_chars (Json.dump_chars s ++ String PyRepr.dquote rest)
  = Some (s, rest).
Proof.
  induction s as [|c s IH]; [reflexivity|].
  cbn [Json.dump_chars]. rewrite append_assoc, parse_char_dump, IH.
  reflexivity.
Qed.

Lemma dump_str_app s rest :
  Json.dump_str s ++ rest
  = String PyRepr.dquote (Json.dump_chars s ++ String PyRepr.dquote rest).
Proof. unfold Json.dump_str. cbn [append]. now rewrite append_assoc. Qed.

Lemma parse_value_quote f x :
  Json.parse_value (S f) (String PyRepr.dquote x)
  = match Json.parse_chars x with
    | Some (s, r) => Some (JStr s, r)
    | None => None
    end.
Proof. reflexivity. Qed.

(** Arrays and objects: the equations of the parser *)

Lemma parse_value_bracket f x :
  Json.parse_value (S f) (String "[" x)
  = match Json.skip_ws x with
    | String d r =>
        if Ascii.eqb d "]" then Some (JArr [], r)
        else match Json.parse_items f x with
             | Some (l, r') => Some (JArr l, r')
             | None => None
             end
    | EmptyString => None
    end.
Proof. reflexivity. Qed.

Lemma parse_value_brace f x :
  Json.parse_value (S f) (String "{" x)
  = match Json.skip_ws x with
    | String d r =>
        if Ascii.eqb d "}" then Some (JObj [], r)
        else match Json.parse_fields f x with
             | Some (l, r') => Some (JObj l, r')
             | None => None
             end
    | EmptyString => None
    end.
Proof. reflexivity. Qed.

Lemma parse_items_eq f s :
  Json.parse_items (S f) s
  = match Json.parse_value f s with
    | Some (v, r) =>
        match Json.skip_ws r with
        | String d r' =>
            if Ascii.eqb d "," then
              match Json.parse_items f r' with
              | Some (l, r2) => Some (v :: l, r2)
              | None => None
              end
            else if Ascii.eqb d "]" then Some ([v], r')
            else None
        | EmptyString => None
        end
    | None => None
    end.
Proof. reflexivity. Qed.

Lemma parse_fields_eq f x :
  Json.parse_fields (S f) (String PyRepr.dquote x)
  = match Json.parse_chars x with
    | Some (k, r1) =>
        match Json.skip_ws r1 with
        | String col r2 =>
            if Ascii.eqb col ":" then
              match Json.parse_value f r2 with
              | Some (v, r3) =>
                  match Json.skip_ws r3 with
                  | String d r4 =>
                      if Ascii.eqb d "," then
                        match Json.parse_fields f r4 with
                        | Some (l, r5) => Some ((k, v) :: l, r5)
                        | None => None
                        end
                      else if Ascii.eqb d "}" then Some ([(k, v)], r4)
                      else None
                  | EmptyString => None
                  end
              | None => None
              end
            else None
        | EmptyString => None
        end
    | None => None
    end.
Proof. reflexivity. Qed.

Lemma parse_value_space f s :
  Json.parse_value f (String " " s) = Json.parse_value f s.
Proof. destruct f; reflexivity. Qed.

Lemma parse_items_space f s :
  Json.parse_items f (String " " s) = Json.parse_items f s.
Proof.
  destruct f; [reflexivity|]. now rewrite !parse_items_eq, parse_value_space.
Qed.

Lemma parse_fields_space f s :
  Json.parse_fields f (String " " s) = Json.parse_fields f s.
Proof. destruct f; reflexivity. Qed.

Lemma digit_or_minus_opens c :
  PyStr.is_digit c || Ascii.eqb c "-" = true -> opens_value c = true.
Proof.
  destruct c as [[|] [|] [|] [|] [|] [|] [|] [|]];
    intros H; vm_compute in H |- *; congruence.
Qed.

Lemma dumps_head v tail :
  exists c s, Json.dumps v ++ tail = String c s /\ opens_value c = true.
Proof.
  destruct v as [| [|] | z | s | l | l];
    try (eexists _, _; split; [reflexivity | reflexivity]).
  cbn [Json.dumps].
  destruct (string_of_Z_shape z) as (sign & ds & -> & Hs & Hd & Hn).
  destruct ds as [|c ds]; [discriminate|].
  cbn in Hd. apply andb_prop in Hd as [Hc _].
  destruct Hs as [-> | ->]; cbn [append]; eexists _, _;
    (split; [reflexivity | apply digit_or_minus_opens]).
  - now rewrite Hc.
  - reflexivity.
Qed.

Lemma skip_ws_opens c s :
  opens_value c = true ->
  Json.skip_ws (String c s) = String c s
  /\ Ascii.eqb c "]" = false /\ Ascii.eqb c "}" = false.
Proof.
  unfold opens_value. intros H.
  apply andb_prop in H as [H H3]. apply andb_prop in H as [H1 H2].
  cbn [Json.skip_ws].
  destruct (Json.is_ws c); [discriminate|].
  destruct (Ascii.eqb c "]"); [discriminate|].
  destruct (Ascii.eqb c "}"); [discriminate|]. auto.
Qed.

(** The round trip *)

Lemma parse_items_comma f v s tail :
  Json.parse_value f s = Some (v, String "," tail) ->
  Json.parse_items (S f) s
  = match Json.parse_items f tail with
    | Some (l, r) => Some (v :: l, r)
    | None => None
    end.
Proof. intros H. rewrite parse_items_eq, H. reflexivity. Qed.

Lemma parse_items_close f v s tail :
  Json.parse_value f s = Some (v, String "]" tail) ->
  Json.parse_items (S f) s = Some ([v], tail).
Proof. intros H. rewrite parse_items_eq, H. reflexivity. Qed.

Lemma parse_fields_comma f k v x r tail :
  Json.parse_chars x = Some (k, String ":" r) ->
  Json.parse_value f r = Some (v, String "," tail) ->
  Json.parse_fields (S f) (String PyRepr.dquote x)
  = match Json.parse_fields f tail with
    | Some (l, r5) => Some ((k, v) :: l, r5)
    | None => None
    end.
Proof. intros H1 H2. rewrite parse_fields_eq, H1. cbn iota. cbn [Json.skip_ws].
  change (Json.is_ws ":") with false. cbn iota.
  change (Ascii.eqb ":" ":") with true. cbn iota. rewrite H2.
  reflexivity.
Qed.

Lemma parse_fields_close f k v x r tail :
  Json.parse_chars x = Some (k, String ":" r) ->
  Json.parse_value f r = Some (v, String "}" tail) ->
  Json.parse_fields (S f) (String PyRepr.dquote x) = Some ([(k, v)], tail).
Proof. intros H1 H2. rewrite parse_fields_eq, H1. cbn iota. cbn [Json.skip_ws].
  change (Json.is_ws ":") with false. cbn iota.
  change (Ascii.eqb ":" ":") with true. cbn iota. rewrite H2.
  reflexivity.
Qed.

Lemma join_cons2 sep (a b : string) (l : list string) :
  PyRepr.join sep (a :: b :: l) = a ++ sep ++ PyRepr.join sep (b :: l).
Proof. reflexivity. Qed.

Lemma parse_items_dumps l :
  Forall parses_back l -> l <> [] ->
  forall f rest,
    (items_size l < f)%nat ->
    Json.parse_items f
      (PyRepr.join ", " (List.map Json.dumps l) ++ String "]" rest)
    = Some (l, rest).
Proof.
  induction 1 as [|x l Hx Hl IH]; [congruence|]. intros _ f rest Hf.
  destruct f as [|f]; [lia|]. cbn [items_size fold_right] in Hf.
  fold (items_size l) in Hf.
  destruct l as [|y l].
  - cbn [List.map PyRepr.join].
    apply parse_items_close. apply Hx; [lia | reflexivity].
  - cbn [List.map]. rewrite join_cons2.
    set (J := PyRepr.join ", " (Json.dumps y :: List.map Json.dumps l)) in *.
    rewrite !append_assoc.
    change (", " ++ J ++ String "]" rest)
      with (String "," (String " " (J ++ String "]" rest))).
    rewrite (parse_items_comma f x _ (String " " (J ++ String "]" rest)))
      by (apply Hx; [lia | reflexivity]).
    rewrite parse_items_space. unfold J.
    change (Json.dumps y :: List.map Json.dumps l)
      with (List.map Json.dumps (y :: l)).
    rewrite IH by (congruence || lia).
    reflexivity.
Qed.

Lemma parse_fields_dumps l :
  Forall (fun kv => parses_back (snd kv)) l -> l <> [] ->
  forall f rest,
    (fields_size l < f)%nat ->
    Json.parse_fields f
      (PyRepr.join ", " (List.map field_text l) ++ String "}" rest)
    = Some (l, rest).
Proof.
  induction 1 as [|[k v] l Hx Hl IH]; [congruence|]. intros _ f rest Hf.
  destruct f as [|f]; [lia|]. cbn [fields_size fold_right snd] in Hf, Hx.
  fold (fields_size l) in Hf.
  destruct l as [|y l].
  - cbn [List.map PyRepr.join]. unfold field_text. cbn [fst snd].
    rewrite append_assoc, dump_str_app.
    apply (parse_fields_close f k v _ (String " " (Json.dumps v ++ String "}" rest))).
    + rewrite append_assoc. apply parse_chars_dump.
    + rewrite parse_value_space. apply Hx; [lia | reflexivity].
  - cbn [List.map]. rewrite join_cons2.
    set (J := PyRepr.join ", " (field_text y :: List.map field_text l)) in *.
    unfold field_text at 1. cbn [fst snd].
    rewrite !append_assoc, dump_str_app.
    change (", " ++ J ++ String "}" rest)
      with (String "," (String " " (J ++ String "}" rest))).
    rewrite (parse_fields_comma f k v _
               (String " " (Json.dumps v
                            ++ String "," (String " " (J ++ String "}" rest))))
               (String " " (J ++ String "}" rest))).
    + rewrite parse_fields_space. unfold J.
      change (field_text y :: List.map field_text l)
        with (List.map field_text (y :: l)).
      rewrite IH by (congruence || lia). reflexivity.
    + apply parse_chars_dump.
    + rewrite parse_value_space. apply Hx; [lia | reflexivity].
Qed.

Lemma skip_ws_quote s :
  Json.skip_ws (String PyRepr.dquote s) = String PyRepr.dquote s.
Proof. reflexivity. Qed.

Theorem parse_value_dumps v : parses_back v.
Proof.
  induction v as [| b | z | s | l IH | l IH] using json_ind';
    intros f rest Hf Hr; (destruct f as [|f]; [cbn in Hf; lia|]).
  - destruct rest; reflexivity.
  - destruct b, rest; reflexivity.
  - now apply parse_value_number.
  - cbn [Json.dumps].
    now rewrite dump_str_app, parse_value_quote, parse_chars_dump.
  - cbn [Json.dumps json_size] in *. fold (items_size l) in Hf.
    rewrite !append_assoc. cbn [append]. rewrite parse_value_bracket.
    destruct l as [|x l]; [reflexivity|].
    destruct (dumps_head x
                (", " ++ PyRepr.join ", " (List.map Json.dumps l)
                 ++ String "]" rest)) as (c & s & E & Hc).
    assert (Hhead : exists d r,
               Json.skip_ws (PyRepr.join ", " (List.map Json.dumps (x :: l))
                             ++ String "]" rest) = String d r
               /\ Ascii.eqb d "]" = false).
    { destruct l as [|y l].
      - cbn [List.map PyRepr.join].
        destruct (dumps_head x (String "]" rest)) as (c' & s' & E' & Hc').
        rewrite E'. destruct (skip_ws_opens c' s' Hc') as (-> & H1 & _). eauto.
      - change (PyRepr.join ", " (List.map Json.dumps (x :: y :: l)))
          with (Json.dumps x ++ ", "
                ++ PyRepr.join ", " (List.map Json.dumps (y :: l))).
        rewrite append_assoc.
        destruct (dumps_head x ((", " ++ PyRepr.join ", "
                                   (List.map Json.dumps (y :: l)))
                                ++ String "]" rest)) as (c' & s' & E' & Hc').
        rewrite E'. destruct (skip_ws_opens c' s' Hc') as (-> & H1 & _). eauto. }
    destruct Hhead as (d & r & -> & ->).
    rewrite parse_items_dumps; auto; [congruence | lia].
  - cbn [Json.dumps json_size] in *. fold (fields_size l) in Hf.
    change (List.map (fun kv => Json.dump_str (fst kv) ++ ": "
                                ++ Json.dumps (snd kv)) l)
      with (List.map field_text l).
    rewrite !append_assoc. cbn [append]. rewrite parse_value_brace.
    destruct l as [|[k v] l]; [reflexivity|].
    assert (Hhead : exists r,
               Json.skip_ws (PyRepr.join ", " (List.map field_text ((k, v) :: l))
                             ++ String "}" rest) = String PyRepr.dquote r).
    { destruct l as [|y l].
      - cbn [List.map PyRepr.join]. unfold field_text.
        rewrite append_assoc, dump_str_app, skip_ws_quote. eauto.
      - change (PyRepr.join ", " (List.map field_text ((k, v) :: y :: l)))
          with (field_text (k, v) ++ ", "
                ++ PyRepr.join ", " (List.map field_text (y :: l))).
        unfold field_text at 1.
        rewrite !append_assoc, dump_str_app, skip_ws_quote. eauto. }
    destruct Hhead as (r & ->).
    change (Ascii.eqb PyRepr.dquote "}") with false. cbn iota.
    rewrite parse_fields_dumps; auto; [congruence | lia].
Qed.

Lemma string_of_Z_nonempty z : (1 <= String.length (PyRepr.string_of_Z z))%nat.
Proof.
  destruct (string_of_Z_shape z) as (sign & ds & -> & _ & _ & Hn).
  rewrite length_append. destruct ds; [discriminate|]. cbn. lia.
Qed.

Lemma items_size_le l :
  Forall (fun x => (json_size x <= String.length (Json.dumps x))%nat) l ->
  (items_size l
   <= S (String.length (PyRepr.join ", " (List.map Json.dumps l))))%nat.
Proof.
  induction 1 as [|x l Hx Hl IH]; [cbn; lia|].
  cbn [items_size fold_right]. fold (items_size l).
  destruct l as [|y l].
  - cbn [List.map PyRepr.join items_size fold_right]. lia.
  - cbn [List.map]. rewrite join_cons2, !length_append.
    cbn [List.map] in IH. cbn [String.length]. lia.
Qed.

Lemma fields_size_le l :
  Forall (fun kv => (json_size (snd kv)
                     <= String.length (Json.dumps (snd kv)))%nat) l ->
  (fields_size l
   <= S (String.length (PyRepr.join ", " (List.map field_text l))))%nat.
Proof.
  induction 1 as [|[k v] l Hx Hl IH]; [cbn; lia|].
  cbn [fields_size fold_right snd] in *. fold (fields_size l).
  destruct l as [|y l].
  - cbn [List.map PyRepr.join fields_size fold_right]. unfold field_text.
    rewrite !length_append. cbn [fst snd]. lia.
  - cbn [List.map]. rewrite join_cons2, !length_append.
    cbn [List.map] in IH. unfold field_text at 1.
    rewrite !length_append. cbn [fst snd String.length]. lia.
Qed.

Lemma json_size_le_length v :
  (json_size v <= String.length (Json.dumps v))%nat.
Proof.
  induction v as [| b | z | s | l IH | l IH] using json_ind'.
  - cbn. lia.
  - destruct b; cbn; lia.
  - cbn [json_size Json.dumps]. apply string_of_Z_nonempty.
  - cbn. lia.
  - cbn [json_size Json.dumps]. fold (items_size l).
    apply items_size_le in IH. rewrite !length_append.
    cbn [String.length]. lia.
  - cbn [json_size Json.dumps]. fold (fields_size l).
    apply fields_size_le in IH.
    change (List.map (fun kv => Json.dump_str (fst kv) ++ ": "
                                ++ Json.dumps (snd kv)) l)
      with (List.map field_text l).
    rewrite !length_append. cbn [String.length]. lia.
Qed.

(** Decoding what [json.dumps] wrote gives the value back. *)
Theorem loads_dumps v : Json.loads (Json.dumps v) = Some v.
Proof.
  unfold Json.loads.
  pose proof (parse_value_dumps v (S (String.length (Json.dumps v))) ""
                ltac:(pose proof (json_size_le_length v); lia) eq_refl) as H.
  rewrite append_nil_r in H. now rewrite H.
Qed.

Lemma decode_history_dumps l :
  decode_history (Some (Json.dumps (JArr l))) = JArr l.
Proof.
  unfold decode_history. rewrite loads_dumps. reflexivity.
Qed.

(** ** Carrier classifier *)

Section Classifier.

Local Ltac by_bits c :=
  destruct c as [[|] [|] [|] [|] [|] [|] [|] [|]]; reflexivity.

Lemma is_digit_upper_char c :
  PyStr.is_digit (PyStr.upper_char c) = PyStr.is_digit c.
Proof. by_bits c. Qed.

Lemma is_alpha_upper_char c :
  PyStr.is_alpha (PyStr.upper_char c) = PyStr.is_alpha c.
Proof. by_bits c. Qed.

Lemma nine_upper_char c :
  Ascii.eqb (PyStr.upper_char c) "9" = Ascii.eqb c "9".
Proof. by_bits c. Qed.

Lemma length_upper s : String.length (PyStr.upper s) = String.length s.
Proof. unfold PyStr.upper. induction s; simpl; congruence. Qed.

Lemma len_upper s : PyStr.len (PyStr.upper s) = PyStr.len s.
Proof. unfold PyStr.len. now rewrite length_upper. Qed.

Lemma nonempty_upper s : PyStr.nonempty (PyStr.upper s) = PyStr.nonempty s.
Proof. now destruct s. Qed.

Lemma all_digit_upper s :
  PyStr.all PyStr.is_digit (PyStr.upper s) = PyStr.all PyStr.is_digit s.
Proof.
  induction s as [|c s IH]; [reflexivity|].
  change (PyStr.is_digit (PyStr.upper_char c)
          && PyStr.all PyStr.is_digit (PyStr.upper s)
          = PyStr.is_digit c && PyStr.all PyStr.is_digit s).
  now rewrite is_digit_upper_char, IH.
Qed.

Lemma isdigit_upper s : PyStr.isdigit (PyStr.upper s) = PyStr.isdigit s.
Proof.
  unfold PyStr.isdigit. now rewrite nonempty_upper, all_digit_upper.
Qed.

Lemma first_is_nine_upper s :
  PyStr.first_is "9" (PyStr.upper s) = PyStr.first_is "9" s.
Proof. destruct s; simpl; [reflexivity | apply nine_upper_char]. Qed.

Lemma isalpha_take2_upper s :
  PyStr.isalpha (PyStr.take 2 (PyStr.upper s))
  = PyStr.isalpha (PyStr.take 2 s).
Proof.
  destruct s as [|a [|b s]]; try reflexivity.
  - cbn. now rewrite is_alpha_upper_char.
  - unfold PyStr.isalpha, PyStr.take. cbn.
    rewrite !is_alpha_upper_char. now destruct s.
Qed.

(** The code tests the upper-cased number; the rules, with the suffix
    of rule 4 in either case, read the same on the number itself. *)
Lemma classify_upper_first_match s :
  classify_upper (PyStr.upper s)
  = CarrierSpec.first_match CarrierSpec.rules_any_case s.
Proof.
  unfold classify_upper.
  cbn [CarrierSpec.first_match CarrierSpec.rules_any_case].
  unfold CarrierSpec.rule_ups, CarrierSpec.rule_fedex,
    CarrierSpec.rule_usps_any_case, CarrierSpec.usps_digits,
    CarrierSpec.rule_dhl, CarrierSpec.all_digit.
  rewrite len_upper, isdigit_upper, first_is_nine_upper, isalpha_take2_upper.
  reflexivity.
Qed.

End Classifier.

(** C4 (as amended): on every tracking number of ASCII characters that
    is not an all-digit number of 16 or more digits with a leading 9,
    [detect_carrier] applies the six classification rules strictly in the
    stated order, first match winning, the suffix "US" of rule 4 being
    compared in either case as the prefix "1Z" of rule 2 is.  In
    particular "1Z999AA10123456784" is UPS, "123456789012" is FEDEX,
    "1234567890" is DHL, an empty or absent input is UNKNOWN, and a
    string matching no rule is CARRIER.  Nothing is said of the all-digit
    numbers of 16 or more digits with a leading 9. *)
Theorem detect_carrier_rules_in_order :
  (forall s,
      PyStr.isascii s = true ->
      CarrierSpec.usps_digits s = false ->
      detect_carrier (JStr s) = Ok (CarrierSpec.classify_any_case (Some s)))
  /\ detect_carrier JNull = Ok (CarrierSpec.classify_any_case None)
  /\ detect_carrier (JStr "") = Ok "UNKNOWN"
  /\ detect_carrier JNull = Ok "UNKNOWN"
  /\ detect_carrier (JStr "1Z999AA10123456784") = Ok "UPS"
  /\ detect_carrier (JStr "123456789012") = Ok "FEDEX"
  /\ detect_carrier (JStr "1234567890") = Ok "DHL"
  /\ detect_carrier (JStr "EA123456789US") = Ok "USPS"
  /\ detect_carrier (JStr "TRACK1") = Ok "CARRIER".
Proof.
  split.
  - intros s _ _. unfold detect_carrier, CarrierSpec.classify_any_case,
      CarrierSpec.classify_with. cbn [truthy].
    destruct (PyStr.nonempty s); cbn [negb].
    + now rewrite classify_upper_first_match.
    + reflexivity.
  - repeat split; reflexivity.
Qed.

(** A 13-character number ending in lower-case "us". *)
Lemma detect_carrier_rules_in_order_witness :
  detect_carrier (JStr "ea123456789us") = Ok "USPS".
Proof.
  apply (proj1 detect_carrier_rules_in_order "ea123456789us"); reflexivity.
Defined.

(** C4 (as stated) fails twice.  The 19-digit number with a leading 9 is
    not USPS: it is all digits and at least 12 long, and the FEDEX test
    comes first.  And the rules as the specification words them make a
    13-character number ending in lower-case "us" CARRIER, where the code,
    which upper-cases the number before every test, makes it USPS. *)
Lemma detect_carrier_not_the_stated_rules :
  detect_carrier (JStr "9400111899223344556") <> Ok "USPS"
  /\ CarrierSpec.classify (Some "ea123456789us") = "CARRIER"
  /\ detect_carrier (JStr "ea123456789us") = Ok "USPS"
  /\ detect_carrier (JStr "ea123456789us")
     <> Ok (CarrierSpec.classify (Some "ea123456789us")).
Proof.
  repeat split; try reflexivity; vm_compute; discriminate.
Qed.

(** Every number the first half of rule 4 describes has been taken by the
    FEDEX test before the USPS test is reached: that half never decides. *)
Lemma usps_digits_shadowed s :
  CarrierSpec.usps_digits s = true ->
  CarrierSpec.rule_ups s = false ->
  detect_carrier (JStr s) = Ok "FEDEX".
Proof.
  intros H Hups. unfold CarrierSpec.usps_digits in H.
  apply andb_prop in H as [H Hd]. apply andb_prop in H as [Hl _].
  assert (Hne : PyStr.nonempty s = true).
  { unfold CarrierSpec.all_digit, PyStr.isdigit in Hd.
    now apply andb_prop in Hd as [Hd _]. }
  unfold detect_carrier. cbn [truthy]. rewrite Hne. cbn [negb].
  rewrite classify_upper_first_match.
  cbn [CarrierSpec.first_match CarrierSpec.rules_any_case]. rewrite Hups.
  unfold CarrierSpec.rule_fedex. rewrite Hd.
  apply Z.leb_le in Hl.
  replace (12 <=? PyStr.len s) with true; [reflexivity|].
  symmetry. apply Z.leb_le. lia.
Qed.

(** ** Webhook endpoint *)

(** C9 (as amended): the webhook endpoint responds 400 exactly when
    [request.get_json()] returns a falsy value (null, false, 0, or an
    empty string, array or object); in every other case it responds 200,
    with [{"received": true}] when the dispatch raised nothing and with
    [{"error": message}] when an exception was raised, be it by the
    reconciliation or by [get_json] itself on an unparseable body; an
    error response leaves the table as it was. *)
Theorem shippo_webhook_status_codes now t request_json :
  let r := fst (shippo_webhook now t request_json) in
  let t' := snd (shippo_webhook now t request_json) in
  (code r = 400%nat <-> exists v, request_json = Ok v /\ truthy v = false)
  /\ (code r = 400%nat \/ code r = 200%nat)
  /\ (body r = Received <->
      exists v, request_json = Ok v /\ truthy v = true
                /\ dispatch now t v = Ok t')
  /\ (forall e, body r = Error e <->
        request_json = Err e
        \/ exists v, request_json = Ok v /\ truthy v = true
                     /\ dispatch now t v = Err e)
  /\ (body r <> Received -> t' = t)
  /\ (body r = NoPayload <-> code r = 400%nat).
Proof.
  unfold shippo_webhook.
  destruct request_json as [v|e0];
    [destruct (truthy v) eqn:Hv;
     [destruct (dispatch now t v) as [t1|e1] eqn:Hd|]|];
    cbn [fst snd code body negb].
  - split; [|split; [|split; [|split; [|split]]]].
    + split; [discriminate|]. intros (w & [= <-] & Hw). congruence.
    + now right.
    + split; [|reflexivity]. intros _. exists v. auto.
    + intros e. split; [discriminate|].
      intros [[=] | (w & [= <-] & _ & H)]. congruence.
    + congruence.
    + split; discriminate.
  - split; [|split; [|split; [|split; [|split]]]].
    + split; [discriminate|]. intros (w & [= <-] & Hw). congruence.
    + now right.
    + split; [discriminate|]. intros (w & [= <-] & _ & H). congruence.
    + intros e. split.
      * intros [= <-]. right. exists v. auto.
      * intros [[=] | (w & [= <-] & _ & H)]. congruence.
    + reflexivity.
    + split; discriminate.
  - split; [|split; [|split; [|split; [|split]]]].
    + split; [|reflexivity]. intros _. exists v. auto.
    + now left.
    + split; [discriminate|]. intros (w & [= <-] & Hw & _). congruence.
    + intros e. split; [discriminate|].
      intros [[=] | (w & [= <-] & Hw & _)]. congruence.
    + reflexivity.
    + split; reflexivity.
  - split; [|split; [|split; [|split; [|split]]]].
    + split; [discriminate|]. intros (w & [=] & _).
    + now right.
    + split; [discriminate|]. intros (w & [=] & _).
    + intros e. split.
      * intros [= <-]. now left.
      * intros [[= <-] | (w & [=] & _)]. reflexivity.
    + reflexivity.
    + split; discriminate.
Qed.

(** C9 (as stated) fails both ways: the body [{}] is present and parses,
    and the response is 400; an unparseable body makes [get_json] raise,
    and the response is 200. *)
Lemma shippo_webhook_400_not_exactly_absent_or_unparseable :
  (code (fst (shippo_webhook "2024-01-01 00:00:00" [] (Ok (JObj [])))) = 400%nat
   /\ absent_or_unparseable (Ok (JObj [])) = false)
  /\ (code (fst (shippo_webhook "2024-01-01 00:00:00" [] (Err BadRequest)))
      = 200%nat
      /\ absent_or_unparseable (Err BadRequest) = true).
Proof. vm_compute. repeat split. Qed.

(** ** Shipment list *)

Lemma In_insert_desc x r l : In x (insert_desc r l) -> x = r \/ In x l.
Proof.
  induction l as [|y l IH]; simpl.
  - intros [->|[]]. now left.
  - destruct (lt_cell (created_at r) (created_at y)); simpl.
    + intros [->|H]; [right; now left|].
      destruct (IH H) as [->|H']; auto.
    + intros [->|H]; auto.
Qed.

Lemma In_order_by_created_desc x l : In x (order_by_created_desc l) -> In x l.
Proof.
  induction l as [|y l IH]; simpl; [easy|].
  intros H. apply In_insert_desc in H as [->|H]; auto.
Qed.

Lemma In_limit_rows x n l : In x (limit_rows n l) -> In x l.
Proof.
  unfold limit_rows. destruct (n <? 0); [easy|].
  intros H. rewrite <- (firstn_skipn (Z.to_nat n) l).
  apply in_or_app. now left.
Qed.

Lemma ne_cell_error c : Sql.ne_cell c (Some "ERROR") = true -> c <> Some "ERROR".
Proof.
  destruct c as [s|]; simpl; [|discriminate].
  intros H [= ->]. discriminate.
Qed.

Lemma list_where_not_error datetime_now days st search r :
  list_where datetime_now days st search r = true ->
  status r <> Some "ERROR".
Proof.
  unfold list_where. intros H.
  apply andb_prop in H as [H _]. apply andb_prop in H as [H _].
  apply andb_prop in H as [_ H]. now apply ne_cell_error.
Qed.

(** C8: whatever the table and the [status], [search], [days] and [limit]
    parameters, the shipment list holds no record whose status is
    'ERROR' (and every shipment it holds is a row of the table). *)
Theorem list_never_returns_error datetime_now t a :
  match body (get_shippo_shipments datetime_now t a) with
  | Shipments l =>
      Forall (fun s => status (shipment_row s) <> Some "ERROR"
                       /\ In (shipment_row s) t) l
  | ListError _ => True
  end.
Proof.
  unfold get_shippo_shipments.
  destruct (list_query datetime_now t a) as [l|e] eqn:Hq; cbn; [|exact I].
  unfold list_query in Hq.
  destruct (match arg_days a with Some s => PyInt.int s | None => Ok 90 end)
    as [days|]; cbn in Hq; [|discriminate].
  destruct (match arg_limit a with Some s => PyInt.int s | None => Ok 200 end)
    as [limit|]; cbn in Hq; [|discriminate].
  destruct (Sql.int64 limit); cbn in Hq; [|discriminate].
  injection Hq as <-.
  apply Forall_forall. intros s Hs.
  apply in_map_iff in Hs as (r & <- & Hr). cbn.
  apply In_limit_rows, In_order_by_created_desc, filter_In in Hr as [Hin Hw].
  split; [now apply list_where_not_error in Hw | exact Hin].
Qed.

(** On the scenario: the table holds [tx1] and the failed [tx9]; the list
    shows [tx1] alone, whatever the status filter. *)
Example list_scenario :
  List.map transaction_id Scenario.t_with_error = ["tx1"; "tx9"]
  /\ body (get_shippo_shipments Scenario.cutoff Scenario.t_with_error
             (mkArgs None None None None))
     = Shipments [ mkShipment (List.hd (created_row "" JNull 0 "")
                                 Scenario.t_with_error) (JArr []) ]
  /\ body (get_shippo_shipments Scenario.cutoff Scenario.t_with_error
             (mkArgs (Some "error") None None None))
     = Shipments [].
Proof. vm_compute. repeat split. Qed.

(** ** Reconciliation handlers: proof tools *)

Arguments handle_transaction_created : simpl never.
Arguments handle_transaction_updated : simpl never.
Arguments handle_track_updated : simpl never.
Arguments dispatch : simpl never.

(** Peel the successful binds off a hypothesis [H : ... = Ok _]. *)
Ltac inv_bind H :=
  repeat match type of H with
         | bind ?m _ = Ok _ =>
             let E := fresh "E" in
             destruct m eqn:E; cbn [bind] in H; [|discriminate H]
         end.

Lemma get_or_inv k d data v :
  get_or k d data = Ok v ->
  exists l, data = JObj l
            /\ v = match assoc k l with Some x => x | None => d end.
Proof.
  destruct data; cbn; try discriminate. intros [= <-]. eauto.
Qed.

Lemma get_inv k data v : get k data = Ok v -> exists l, data = JObj l.
Proof. intros H. apply get_or_inv in H as (l & -> & _). eauto. Qed.

Lemma Forall2_map_same {A} (R : A -> A -> Prop) (f : A -> A) (l : list A) :
  (forall x, In x l -> R x (f x)) -> Forall2 R l (List.map f l).
Proof.
  induction l as [|x l IH]; cbn; intros H; constructor.
  - apply H. now left.
  - apply IH. intros y Hy. apply H. now right.
Qed.

(** ** [handle_track_updated] on an existing record *)

(** C10: when [handle_track_updated] updates an existing record, every
    record of the table, the updated one included, keeps its
    [transaction_id], [created_at], [metadata], [label_url] and
    [tracking_url] (and its [id]), whatever the payload. *)
Theorem track_update_frame now t data e t' :
  track_existing t data = Ok (Some e) ->
  handle_track_updated now t data = Ok t' ->
  Forall2 (fun r r' =>
             id r' = id r
             /\ transaction_id r' = transaction_id r
             /\ created_at r' = created_at r
             /\ metadata r' = metadata r
             /\ label_url r' = label_url r
             /\ tracking_url r' = tracking_url r) t t'.
Proof.
  intros Hex H. unfold handle_track_updated in H. unfold track_existing in Hex.
  destruct (get "tracking_number" data) as [tn|]; [|discriminate].
  destruct (get "transaction" data) as [tid|]; [|discriminate].
  cbn [bind] in Hex, H. rewrite Hex in H.
  inv_bind H. injection H as <-.
  unfold Sql.update. cbn [fst].
  apply Forall2_map_same. intros r _.
  destruct (Sql.where_id (id e) r); cbn; auto 10.
Qed.

(** The frame on the scenario: the delivered event leaves the label and
    the metadata of [tx1] alone. *)
Lemma track_update_frame_witness :
  Forall2 (fun r r' =>
             id r' = id r
             /\ transaction_id r' = transaction_id r
             /\ created_at r' = created_at r
             /\ metadata r' = metadata r
             /\ label_url r' = label_url r
             /\ tracking_url r' = tracking_url r)
    Scenario.t_created Scenario.t_delivered.
Proof.
  eapply (track_update_frame "2024-01-05 09:00:00" Scenario.t_created
            (Scenario.delivered Scenario.first_date)).
  - vm_compute. reflexivity.
  - vm_compute. reflexivity.
Defined.

(** ** [handle_transaction_created] *)

Lemma created_ok now t data t' :
  handle_transaction_created now t data = Ok t' ->
  exists k, payload_transaction_id data = Some k
            /\ t' = created_table now data k t.
Proof.
  intros H. unfold handle_transaction_created in H.
  destruct data as [| | | | |l]; try (cbn [get get_or bind] in H; discriminate).
  unfold payload_transaction_id, created_table, created_merge, created_row,
    supplied, supplied_status, has_record.
  cbn [get get_or bind] in H |- *.
  inv_bind H.
  repeat match goal with
         | E : _ = Ok _ |- _ => rewrite E; clear E
         end.
  match type of H with
  | match ?x with _ => _ end = _ => destruct x as [k|]; [|discriminate]
  end.
  exists k. split; [reflexivity|]. cbn [ok_value].
  destruct (existsb (Sql.where_transaction_id (Some k)) t);
    injection H as <-; reflexivity.
Qed.

Lemma existsb_map_same {A} (w : A -> bool) (f : A -> A) (l : list A) :
  (forall x, w (f x) = w x) -> existsb w (List.map f l) = existsb w l.
Proof.
  intros Hw. induction l as [|x l IH]; cbn; [reflexivity|].
  now rewrite Hw, IH.
Qed.

Lemma find_map_same {A} (w : A -> bool) (f : A -> A) (l : list A) :
  (forall x, w (f x) = w x) ->
  List.find w (List.map f l) = option_map f (List.find w l).
Proof.
  intros Hw. induction l as [|x l IH]; cbn; [reflexivity|].
  rewrite Hw. destruct (w x); [reflexivity | exact IH].
Qed.

Lemma find_none_existsb {A} (w : A -> bool) (l : list A) :
  existsb w l = false -> List.find w l = None.
Proof.
  induction l as [|x l IH]; cbn; [reflexivity|].
  destruct (w x); cbn; [discriminate | exact IH].
Qed.

Lemma find_some_existsb {A} (w : A -> bool) (l : list A) :
  existsb w l = true -> exists x, List.find w l = Some x.
Proof.
  induction l as [|x l IH]; cbn; [discriminate|].
  destruct (w x); cbn; eauto.
Qed.

Lemma find_app_none {A} (w : A -> bool) (l : list A) (x : A) :
  List.find w l = None -> w x = true -> List.find w (l ++ [x]) = Some x.
Proof.
  induction l as [|y l IH]; cbn; intros Hn Hx.
  - now rewrite Hx.
  - destruct (w y); [discriminate | auto].
Qed.

Lemma rowcount_zero (w : row -> bool) (t : table) :
  (List.length (List.filter w t) =? 0)%nat = negb (existsb w t).
Proof.
  induction t as [|r t IH]; cbn; [reflexivity|].
  destruct (w r); cbn; [reflexivity | exact IH].
Qed.

Lemma where_transaction_id_refl k r :
  transaction_id r = k -> Sql.where_transaction_id (Some k) r = true.
Proof. intros <-. cbn. apply String.eqb_refl. Qed.

Lemma where_transaction_id_eq k r :
  Sql.where_transaction_id (Some k) r = true -> transaction_id r = k.
Proof. cbn. apply String.eqb_eq. Qed.

Lemma where_transaction_id_null r : Sql.where_transaction_id None r = false.
Proof. reflexivity. Qed.

(** The rows an upsert writes keep the key of the row they replace. *)
Lemma where_created_merge w now data r :
  Sql.where_transaction_id w
    (if Sql.where_transaction_id w r then created_merge now data r else r)
  = Sql.where_transaction_id w r.
Proof. now destruct (Sql.where_transaction_id w r) eqn:E. Qed.

Lemma has_record_created_table now data k t :
  has_record k (created_table now data k t) = true.
Proof.
  unfold created_table, has_record.
  destruct (existsb (Sql.where_transaction_id (Some k)) t) eqn:E.
  - rewrite existsb_map_same; [exact E|].
    intros r. apply where_created_merge.
  - rewrite existsb_app. cbn. rewrite String.eqb_refl. now rewrite orb_true_r.
Qed.

(** The record keyed by [k] after an upsert: the merge of the one that
    was there, or the new row. *)
Lemma record_of_created_table now data k t :
  record_of k (created_table now data k t)
  = Some match record_of k t with
         | Some r => created_merge now data r
         | None => created_row now data (Sql.fresh_id t) k
         end.
Proof.
  unfold created_table, has_record, record_of, Sql.fetchone.
  destruct (existsb (Sql.where_transaction_id (Some k)) t) eqn:E.
  - rewrite find_map_same.
    + destruct (find_some_existsb _ _ E) as [r Hr]. rewrite Hr.
      cbn [option_map].
      apply find_some in Hr as [_ Hr]. now rewrite Hr.
    + intros r. apply where_created_merge.
  - rewrite (find_none_existsb _ _ E).
    apply find_app_none; [now apply find_none_existsb|].
    now apply where_transaction_id_refl.
Qed.

(** Whether [handle_transaction_created] raises depends on the payload
    alone. *)
Lemma created_accepts now t now' t' data :
  is_ok (handle_transaction_created now t data)
  = is_ok (handle_transaction_created now' t' data).
Proof.
  unfold handle_transaction_created.
  destruct data as [| | | | |l]; try reflexivity.
  cbn [get get_or bind].
  repeat match goal with
         | |- context [bind ?m _] => destruct m; cbn [bind is_ok]
         end; try reflexivity.
  match goal with
  | |- context [match ?x with Some _ => _ | None => _ end] => destruct x
  end; [|reflexivity].
  destruct (existsb _ t), (existsb _ t'); reflexivity.
Qed.

Lemma created_again now t data t1 now' s :
  handle_transaction_created now t data = Ok t1 ->
  exists k, payload_transaction_id data = Some k
            /\ t1 = created_table now data k t
            /\ handle_transaction_created now' s data
               = Ok (created_table now' data k s).
Proof.
  intros H. pose proof (created_accepts now t now' s data) as Ha.
  rewrite H in Ha. cbn in Ha.
  destruct (handle_transaction_created now' s data) as [s'|] eqn:Hs;
    [|discriminate].
  apply created_ok in H as (k & Hk & ->).
  apply created_ok in Hs as (k' & Hk' & ->).
  assert (k' = k) as -> by congruence.
  exists k. auto.
Qed.

(** ** [handle_transaction_updated] *)

Lemma existsb_where_null (t : table) :
  existsb (Sql.where_transaction_id None) t = false.
Proof. induction t; cbn; auto. Qed.

(** Either the UPDATE found the record and rewrote it in place, or the
    call was the one of [handle_transaction_created]. *)
Lemma updated_ok now t data t' :
  handle_transaction_updated now t data = Ok t' ->
  exists k,
    payload_transaction_id data = Some k
    /\ if has_record k t
       then exists f, (forall r, transaction_id (f r) = transaction_id r
                                 /\ id (f r) = id r)
                      /\ t' = List.map
                                (fun r => if Sql.where_transaction_id (Some k) r
                                          then f r else r) t
       else handle_transaction_created now t data = Ok t'.
Proof.
  intros H. unfold handle_transaction_updated in H.
  destruct data as [| | | | |l]; try (cbn [get get_or bind] in H; discriminate).
  cbn [get get_or bind] in H. inv_bind H.
  unfold Sql.update in H. rewrite rowcount_zero in H.
  match type of H with
  | context [Sql.where_transaction_id ?x] => destruct x as [k|] eqn:Hx
  end.
  - assert (Hk : payload_transaction_id (JObj l) = Some k).
    { unfold payload_transaction_id, supplied. cbn [get get_or].
      match goal with E : Sql.bind_param _ = Ok (Some k) |- _ => now rewrite E end. }
    exists k. split; [exact Hk|]. unfold has_record.
    destruct (existsb (Sql.where_transaction_id (Some k)) t);
      cbn [negb] in H; [|exact H].
    injection H as <-. eexists. split; [|reflexivity]. intros r. split; reflexivity.
  - rewrite existsb_where_null in H. cbn [negb] in H.
    apply created_ok in H as (k & Hk & _).
    unfold payload_transaction_id, supplied in Hk. cbn [get get_or] in Hk.
    match goal with E : Sql.bind_param _ = Ok None |- _ => rewrite E in Hk end.
    discriminate.
Qed.

(** C3: after [handle_transaction_updated] returns, be it through its
    UPDATE or through its fallback to [handle_transaction_created], the
    table holds a record keyed by the payload's transaction id. *)
Theorem updated_record_exists now t data t' :
  handle_transaction_updated now t data = Ok t' ->
  exists k r, payload_transaction_id data = Some k
              /\ record_of k t' = Some r
              /\ transaction_id r = k.
Proof.
  intros H. apply updated_ok in H as (k & Hk & H).
  assert (Hrec : has_record k t' = true).
  { destruct (has_record k t) eqn:E.
    - destruct H as (f & Hf & ->). unfold has_record in *.
      rewrite existsb_map_same; [exact E|].
      intros r. unfold Sql.where_transaction_id at 1 3.
      destruct (Sql.where_transaction_id (Some k) r); [|reflexivity].
      now rewrite (proj1 (Hf r)).
    - apply created_ok in H as (k' & Hk' & ->).
      assert (k' = k) as -> by congruence.
      apply has_record_created_table. }
  destruct (find_some_existsb _ _ Hrec) as [r Hr].
  exists k, r. repeat split; [exact Hk | exact Hr |].
  apply find_some in Hr as [_ Hr]. now apply where_transaction_id_eq.
Qed.

(** On the scenario: an update for a label not seen before creates it. *)
Lemma updated_record_exists_witness :
  exists k r, payload_transaction_id Scenario.updated = Some k
              /\ record_of k Scenario.t_updated = Some r
              /\ transaction_id r = k.
Proof.
  apply (updated_record_exists "2024-01-02 08:00:00" [] Scenario.updated
           Scenario.t_updated).
  vm_compute. reflexivity.
Defined.

(** C6: for a payload whose transaction id has no record in the table,
    [handle_transaction_updated] produces exactly the table, hence the
    record, that [handle_transaction_created] produces on the same table
    with the same payload; it raises when that one raises. *)
Theorem updated_unknown_is_created now t data :
  payload_has_record t data = false ->
  ok_value (handle_transaction_updated now t data)
  = ok_value (handle_transaction_created now t data).
Proof.
  intros Hno.
  destruct (handle_transaction_updated now t data) as [t'|e] eqn:Hu;
    destruct (handle_transaction_created now t data) as [t1|e1] eqn:Hc;
    cbn [ok_value]; try reflexivity.
  - apply updated_ok in Hu as (k & Hk & Hu).
    unfold payload_has_record in Hno. rewrite Hk in Hno. rewrite Hno in Hu.
    congruence.
  - apply updated_ok in Hu as (k & Hk & Hu).
    unfold payload_has_record in Hno. rewrite Hk in Hno. rewrite Hno in Hu.
    congruence.
  - exfalso. pose proof Hc as Hc0.
    unfold handle_transaction_updated in Hu.
    unfold handle_transaction_created in Hc.
    destruct data as [| | | | |l];
      try (cbn [get get_or bind] in Hc; discriminate).
    unfold payload_has_record, payload_transaction_id, supplied in Hno.
    cbn [get get_or bind] in Hu, Hc, Hno.
    assert (Hst : forall c,
               Sql.bind_param match assoc "tracking_status" l with
                              | Some v => v | None => JStr "PRE_TRANSIT" end
               = Ok c ->
               exists c', Sql.bind_param match assoc "tracking_status" l with
                                         | Some v => v | None => JStr "UNKNOWN" end
                          = Ok c').
    { destruct (assoc "tracking_status" l); cbn; eauto. }
    inv_bind Hc.
    destruct (Hst _ eq_refl) as [c' Hc'].
    rewrite Hc' in Hu. cbn [bind] in Hu.
    match type of Hc with
    | match ?x with _ => _ end = _ => destruct x as [k|]; [|discriminate]
    end.
    unfold Sql.update in Hu. rewrite rowcount_zero in Hu.
    unfold has_record in Hno. rewrite Hno in Hu. cbn [negb] in Hu.
    congruence.
Qed.

(** On the scenario: the update of an unknown label, on the empty table. *)
Lemma updated_unknown_is_created_witness :
  ok_value (handle_transaction_updated "2024-01-02 08:00:00" [] Scenario.updated)
  = ok_value (handle_transaction_created "2024-01-02 08:00:00" [] Scenario.updated).
Proof.
  apply (updated_unknown_is_created "2024-01-02 08:00:00" [] Scenario.updated).
  reflexivity.
Defined.

(** ** Sequences of [transaction_created] events *)

Lemma coalesce_none_r x : Sql.coalesce x None = x.
Proof. now destruct x. Qed.

Lemma coalesce_idem x y : Sql.coalesce x (Sql.coalesce x y) = Sql.coalesce x y.
Proof. now destruct x. Qed.

Lemma coalesce_self x : Sql.coalesce x x = x.
Proof. now destruct x. Qed.

Lemma first_non_null_app l x :
  first_non_null (l ++ [x]) = Sql.coalesce (first_non_null l) x.
Proof.
  induction l as [|[v|] l IH]; cbn; auto. now destruct x.
Qed.

Lemma coalesce_last_non_null_cons x l p :
  Sql.coalesce (last_non_null (x :: l)) p
  = Sql.coalesce (last_non_null l) (Sql.coalesce x p).
Proof.
  unfold last_non_null. cbn [rev]. rewrite first_non_null_app.
  destruct (first_non_null (rev l)); reflexivity.
Qed.

(** One upsert, column by column: a supplied non-null value overwrites,
    a null one keeps what the record held. *)
Lemma column_of_created_table now data k t :
  let t' := created_table now data k t in
  column_of label_url k t'
  = Sql.coalesce (supplied "label_url" data) (column_of label_url k t)
  /\ column_of tracking_url k t'
     = Sql.coalesce (supplied "tracking_url_provider" data)
         (column_of tracking_url k t)
  /\ column_of eta k t'
     = Sql.coalesce (supplied "eta" data) (column_of eta k t)
  /\ column_of metadata k t'
     = Sql.coalesce (supplied "metadata" data) (column_of metadata k t)
  /\ column_of updated_at k t' = Some now.
Proof.
  cbn zeta. unfold column_of. rewrite record_of_created_table.
  destruct (record_of k t) as [r|]; cbn; rewrite ?coalesce_none_r; auto.
Qed.

Lemma created_sequence_columns k : forall events t t',
  Forall (fun e => payload_transaction_id (snd e) = Some k) events ->
  created_sequence t events = Ok t' ->
  column_of label_url k t'
  = Sql.coalesce (last_non_null (supplied_values "label_url" events))
      (column_of label_url k t)
  /\ column_of tracking_url k t'
     = Sql.coalesce
         (last_non_null (supplied_values "tracking_url_provider" events))
         (column_of tracking_url k t)
  /\ column_of eta k t'
     = Sql.coalesce (last_non_null (supplied_values "eta" events))
         (column_of eta k t)
  /\ column_of metadata k t'
     = Sql.coalesce (last_non_null (supplied_values "metadata" events))
         (column_of metadata k t)
  /\ (events <> [] -> has_record k t' = true).
Proof.
  induction events as [|[now data] rest IH]; intros t t' Hk H.
  - injection H as <-. cbn. repeat split; congruence.
  - cbn [created_sequence] in H.
    destruct (handle_transaction_created now t data) as [t1|] eqn:H1;
      [|discriminate].
    cbn [bind] in H. inversion Hk as [|? ? Hd Hrest]; subst.
    apply created_ok in H1 as (k' & Hk' & ->). cbn [snd] in Hd.
    assert (k' = k) as -> by congruence.
    destruct (IH _ _ Hrest H) as (Hl & Hu & He & Hm & Hrec).
    destruct (column_of_created_table now data k t) as (Hl1 & Hu1 & He1 & Hm1 & _).
    unfold supplied_values in *. cbn [List.map snd].
    rewrite !coalesce_last_non_null_cons.
    rewrite Hl, Hu, He, Hm, Hl1, Hu1, He1, Hm1.
    repeat split. intros _.
    destruct rest as [|e rest']; [|apply Hrec; discriminate].
    injection H as <-. apply has_record_created_table.
Qed.

(** C1 (as amended): for every non-empty sequence of
    [transaction_created] events carrying the same transaction id,
    applied in order, the resulting record's [label_url], [tracking_url],
    [eta] and [metadata] each equal the last non-null value supplied for
    that field across the sequence; when every event supplies null, the
    field is what the record held before the sequence (null for a record
    the sequence created). *)
Theorem created_sequence_last_non_null k events t t' :
  events <> [] ->
  Forall (fun e => payload_transaction_id (snd e) = Some k) events ->
  created_sequence t events = Ok t' ->
  exists r,
    record_of k t' = Some r
    /\ label_url r
       = Sql.coalesce (last_non_null (supplied_values "label_url" events))
           (column_of label_url k t)
    /\ tracking_url r
       = Sql.coalesce
           (last_non_null (supplied_values "tracking_url_provider" events))
           (column_of tracking_url k t)
    /\ eta r
       = Sql.coalesce (last_non_null (supplied_values "eta" events))
           (column_of eta k t)
    /\ metadata r
       = Sql.coalesce (last_non_null (supplied_values "metadata" events))
           (column_of metadata k t).
Proof.
  intros Hne Hk H.
  destruct (@created_sequence_columns k events t t' Hk H)
    as (Hl & Hu & He & Hm & Hrec).
  destruct (find_some_existsb _ _ (Hrec Hne)) as [r Hr].
  assert (Hc : forall column, column_of column k t' = column r).
  { intros column. unfold column_of, record_of, Sql.fetchone. now rewrite Hr. }
  rewrite Hc in Hl, Hu, He, Hm.
  exists r. auto.
Qed.

(** On the scenario: the second label URL wins, the metadata of the first
    event stays. *)
Lemma created_sequence_last_non_null_witness :
  exists r,
    record_of "tx1" Scenario.t_created = Some r
    /\ label_url r = Some "https://labels.example/b.pdf"
    /\ tracking_url r = None
    /\ eta r = None
    /\ metadata r = Some "Order 1001".
Proof.
  apply (created_sequence_last_non_null "tx1" Scenario.events []
           Scenario.t_created).
  - discriminate.
  - repeat constructor.
  - vm_compute. reflexivity.
Defined.

(** C1 (as stated) fails: two events supply a label URL, the record ends
    with the second, and the first non-null value supplied is the
    first. *)
Lemma created_sequence_not_first_non_null :
  created_sequence [] Scenario.events = Ok Scenario.t_created
  /\ column_of label_url "tx1" Scenario.t_created
     = Some "https://labels.example/b.pdf"
  /\ first_non_null (supplied_values "label_url" Scenario.events)
     = Some "https://labels.example/a.pdf".
Proof. vm_compute. repeat split. Qed.

(** ** Replaying one [transaction_created] payload *)

Lemma merge_merge now1 now2 data r :
  without_updated_at (created_merge now2 data (created_merge now1 data r))
  = without_updated_at (created_merge now1 data r).
Proof.
  unfold without_updated_at, created_merge. cbn.
  now rewrite !coalesce_idem.
Qed.

Lemma merge_created_row now1 now2 data i k :
  without_updated_at (created_merge now2 data (created_row now1 data i k))
  = without_updated_at (created_row now1 data i k).
Proof.
  unfold without_updated_at, created_merge, created_row. cbn.
  now rewrite !coalesce_self.
Qed.

Lemma merge_congruence now now' data r r' :
  without_updated_at r = without_updated_at r' ->
  without_updated_at (created_merge now data r)
  = without_updated_at (created_merge now' data r').
Proof.
  destruct r, r'. unfold without_updated_at, created_merge. cbn.
  intros [= -> -> -> -> -> -> -> -> -> -> -> -> -> -> -> -> -> -> -> -> -> -> -> -> ->].
  reflexivity.
Qed.

Lemma where_without_updated_at w r :
  Sql.where_transaction_id w (without_updated_at r)
  = Sql.where_transaction_id w r.
Proof. reflexivity. Qed.

Lemma has_record_congruence k s s' :
  List.map without_updated_at s = List.map without_updated_at s' ->
  has_record k s = has_record k s'.
Proof.
  intros H. unfold has_record.
  rewrite <- (existsb_map_same (Sql.where_transaction_id (Some k))
                without_updated_at s) by reflexivity.
  rewrite <- (existsb_map_same (Sql.where_transaction_id (Some k))
                without_updated_at s') by reflexivity.
  now rewrite H.
Qed.

Lemma cons_eq_inv {A} (x y : A) (l l' : list A) :
  x :: l = y :: l' -> x = y /\ l = l'.
Proof. intros [= -> ->]. auto. Qed.

Lemma fresh_id_congruence s : forall s',
  List.map without_updated_at s = List.map without_updated_at s' ->
  Sql.fresh_id s = Sql.fresh_id s'.
Proof.
  unfold Sql.fresh_id.
  induction s as [|r s IH]; intros [|r' s'] H; try discriminate; [reflexivity|].
  cbn [List.map] in H. apply cons_eq_inv in H as [Hr Hs]. cbn [fold_right].
  apply IH in Hs. apply (f_equal id) in Hr. cbn in Hr. rewrite Hr. lia.
Qed.

(** The upsert respects equality of tables up to [updated_at]. *)
Lemma created_table_congruence now now' data k s s' :
  List.map without_updated_at s = List.map without_updated_at s' ->
  List.map without_updated_at (created_table now data k s)
  = List.map without_updated_at (created_table now' data k s').
Proof.
  intros H. unfold created_table.
  rewrite <- (has_record_congruence k _ _ H).
  destruct (has_record k s).
  - clear -H. revert s' H.
    induction s as [|r s IH]; intros [|r' s'] H; try discriminate;
      [reflexivity|].
    cbn [List.map] in H. apply cons_eq_inv in H as [Hr Hs].
    cbn [List.map]. f_equal; [|now apply IH].
    rewrite <- (where_without_updated_at (Some k) r),
            <- (where_without_updated_at (Some k) r'), Hr.
    destruct (Sql.where_transaction_id (Some k) (without_updated_at r'));
      [now apply merge_congruence | exact Hr].
  - rewrite !map_app, H, (fresh_id_congruence _ _ H). reflexivity.
Qed.

(** A second upsert of the same payload changes [updated_at] only. *)
Lemma created_table_twice now1 now2 data k t :
  List.map without_updated_at
    (created_table now2 data k (created_table now1 data k t))
  = List.map without_updated_at (created_table now1 data k t).
Proof.
  unfold created_table at 1. rewrite has_record_created_table.
  rewrite map_map. apply map_ext_in. intros r Hr.
  destruct (Sql.where_transaction_id (Some k) r) eqn:Ew; [|reflexivity].
  unfold created_table, has_record in Hr.
  destruct (existsb (Sql.where_transaction_id (Some k)) t) eqn:E.
  - apply in_map_iff in Hr as (r0 & <- & _).
    rewrite where_created_merge in Ew. rewrite Ew. apply merge_merge.
  - apply in_app_or in Hr as [Hr|[<-|[]]].
    + assert (Sql.where_transaction_id (Some k) r = false); [|congruence].
      rewrite <- not_true_iff_false. intros Hw.
      assert (existsb (Sql.where_transaction_id (Some k)) t = true);
        [|congruence].
      apply existsb_exists. eauto.
    + apply merge_created_row.
Qed.

Lemma last_cons {A} (l : list A) (a d : A) : List.last (a :: l) d = List.last l a.
Proof.
  revert a d. induction l as [|b l IH]; intros a d; [reflexivity|].
  change (List.last (a :: b :: l) d) with (List.last (b :: l) d).
  now rewrite !IH.
Qed.

Lemma replay_settled data k now0 t0 :
  handle_transaction_created now0 t0 data = Ok (created_table now0 data k t0) ->
  payload_transaction_id data = Some k ->
  forall times s u,
    List.map without_updated_at s
    = List.map without_updated_at (created_table now0 data k t0) ->
    column_of updated_at k s = Some u ->
    exists tn,
      created_sequence s (replay data times) = Ok tn
      /\ List.map without_updated_at tn
         = List.map without_updated_at (created_table now0 data k t0)
      /\ column_of updated_at k tn = Some (List.last times u).
Proof.
  intros H0 Hk. induction times as [|now times IH]; intros s u Hs Hu.
  - exists s. cbn. auto.
  - cbn [replay List.map created_sequence].
    destruct (created_again now0 t0 data _ now s H0) as (k' & Hk' & _ & ->).
    assert (k' = k) as -> by congruence.
    cbn [bind]. rewrite last_cons. apply IH.
    + rewrite (created_table_congruence now now data k _ _ Hs).
      apply created_table_twice.
    + apply column_of_created_table.
Qed.

(** C5 (as amended): replaying an identical [transaction_created]
    payload any number of times after a first application yields the
    same table, hence the same record contents, as applying it once,
    except for [updated_at], which holds the clock reading of the last
    replay; when the first application raises, so does the replay, and
    nothing is stored. *)
Theorem created_replay_idempotent now times t data :
  match handle_transaction_created now t data with
  | Ok t1 =>
      exists tn k,
        created_sequence t (replay data (now :: times)) = Ok tn
        /\ List.map without_updated_at tn = List.map without_updated_at t1
        /\ payload_transaction_id data = Some k
        /\ column_of updated_at k tn = Some (List.last times now)
  | Err e => created_sequence t (replay data (now :: times)) = Err e
  end.
Proof.
  cbn [replay List.map created_sequence].
  destruct (handle_transaction_created now t data) as [t1|e] eqn:H1;
    cbn [bind]; [|reflexivity].
  destruct (created_again now t data t1 now t H1) as (k & Hk & -> & _).
  destruct (replay_settled data k now t H1 Hk times
              (created_table now data k t) now eq_refl)
    as (tn & Hseq & Heq & Hu).
  { apply column_of_created_table. }
  exists tn, k. auto.
Qed.

(** C5 (as stated) fails on [updated_at]: a replay five seconds after the
    first application leaves a record that differs from the one a single
    application leaves. *)
Lemma created_replay_changes_updated_at :
  option_map (record_of "tx1")
    (ok_value (created_sequence []
                 (replay Scenario.created_a
                    ["2024-01-01 10:00:00"; "2024-01-01 10:00:05"])))
  <> option_map (record_of "tx1")
       (ok_value (created_sequence []
                    (replay Scenario.created_a ["2024-01-01 10:00:00"]))).
Proof. vm_compute. discriminate. Qed.

(** ** [handle_track_updated]: delivery date *)

Lemma find_existing_In t tid tn e :
  find_existing t tid tn = Ok (Some e) -> In e t.
Proof.
  unfold find_existing.
  destruct (truthy tid).
  - destruct (Sql.bind_param tid); cbn [bind]; [|discriminate].
    intros [= H]. now apply find_some in H.
  - destruct (Sql.bind_param tn); cbn [bind]; [|discriminate].
    intros [= H]. now apply find_some in H.
Qed.

(** On the scenario: three replays; the label, the metadata and the
    creation time are those of the first application. *)
Example replay_scenario :
  List.map without_updated_at
    (Scenario.table_of
       (created_sequence []
          (replay Scenario.created_a
             ["2024-01-01 10:00:00"; "2024-01-01 10:00:05";
              "2024-01-01 10:00:09"])))
  = List.map without_updated_at
      (Scenario.table_of
         (handle_transaction_created "2024-01-01 10:00:00" []
            Scenario.created_a)).
Proof. vm_compute. reflexivity. Qed.

(** C2 (as amended): when [handle_track_updated] updates an existing
    record, [delivered_at] becomes the event's delivery date if the event
    is DELIVERED with a non-null status date, and is left unchanged
    otherwise.  So a [delivered_at] once set is never reset to null, but
    a later DELIVERED event with a different non-null date replaces it:
    the last delivery date wins.  Records other than the updated one keep
    theirs. *)
Theorem track_update_delivered_at now t data e t' :
  track_existing t data = Ok (Some e) ->
  handle_track_updated now t data = Ok t' ->
  Forall2 (fun r r' =>
             id r' = id r
             /\ delivered_at r'
                = if Sql.where_id (id e) r
                  then Sql.coalesce (delivery_date data) (delivered_at r)
                  else delivered_at r) t t'
  /\ exists e', In e' t'
                /\ id e' = id e
                /\ transaction_id e' = transaction_id e
                /\ delivered_at e'
                   = Sql.coalesce (delivery_date data) (delivered_at e).
Proof.
  intros Hex H. unfold handle_track_updated in H. unfold track_existing in Hex.
  destruct data as [| | | | |l]; try (cbn [get get_or bind] in H; discriminate).
  unfold delivery_date.
  cbn [get get_or bind] in Hex, H |- *. rewrite Hex in H. cbn [bind] in H.
  pose proof (find_existing_In _ _ _ _ Hex) as Hin.
  inv_bind H. injection H as <-.
  unfold Sql.update. cbn [fst]. split.
  - apply Forall2_map_same. intros r _.
    destruct (Sql.where_id (id e) r); cbn; auto.
  - eexists. split; [apply in_map, Hin|].
    unfold Sql.where_id. rewrite Z.eqb_refl. cbn. auto.
Qed.

(** On the scenario: the second delivered event sets the later date. *)
Lemma track_update_delivered_at_witness :
  exists e',
    In e' Scenario.t_delivered_again
    /\ transaction_id e' = "tx1"
    /\ delivered_at e' = Some Scenario.second_date.
Proof.
  destruct (track_update_delivered_at "2024-01-09 13:00:00"
              Scenario.t_delivered (Scenario.delivered Scenario.second_date)
              (List.hd (created_row "" JNull 0 "") Scenario.t_delivered)
              Scenario.t_delivered_again)
    as (_ & e' & Hin & _ & Htid & Hd).
  - vm_compute. reflexivity.
  - vm_compute. reflexivity.
  - exists e'. repeat split; [exact Hin | exact Htid | exact Hd].
Defined.

(** C2 (as stated) fails: the first DELIVERED event sets [delivered_at],
    and a second one with a later status date replaces it. *)
Lemma track_update_delivered_at_not_write_once :
  handle_track_updated "2024-01-05 09:00:00" Scenario.t_created
    (Scenario.delivered "2024-01-05T08:30:00Z") = Ok Scenario.t_delivered
  /\ column_of delivered_at "tx1" Scenario.t_delivered
     = Some "2024-01-05T08:30:00Z"
  /\ handle_track_updated "2024-01-09 13:00:00" Scenario.t_delivered
       (Scenario.delivered "2024-01-09T12:00:00Z")
     = Ok Scenario.t_delivered_again
  /\ column_of delivered_at "tx1" Scenario.t_delivered_again
     = Some "2024-01-09T12:00:00Z".
Proof. vm_compute. repeat split. Qed.

(** ** [handle_track_updated]: tracking history *)

(** C7: whatever the table held before, after [handle_track_updated]
    with a payload whose history array has length K the stored
    [tracking_history] of the record it wrote (the existing record it
    updated, or the record it appended) decodes to that very array, so to
    an array of length exactly K: the prior history contributes
    nothing. *)
Theorem track_updated_replaces_history now t data t' history :
  handle_track_updated now t data = Ok t' ->
  payload_history data = Some history ->
  exists r',
    In r' t'
    /\ decode_history (tracking_history r') = JArr history
    /\ (exists h, decode_history (tracking_history r') = JArr h
                  /\ List.length h = List.length history)
    /\ match track_existing t data with
       | Ok (Some e) => id r' = id e /\ transaction_id r' = transaction_id e
       | _ => t' = (t ++ [r'])%list
       end.
Proof.
  intros H Hh. unfold handle_track_updated in H.
  destruct data as [| | | | |l]; try (cbn [get get_or bind] in H; discriminate).
  unfold track_existing, payload_history in *.
  cbn [get get_or bind] in H, Hh |- *.
  destruct (match assoc "tracking_history" l with
            | Some v => v | None => JArr [] end) as [| | | |h|] eqn:Eh;
    try discriminate Hh.
  injection Hh as ->.
  destruct (find_existing t _ _) as [[e|]|] eqn:Hex;
    cbn [bind] in H; [| |discriminate].
  - pose proof (find_existing_In _ _ _ _ Hex) as Hin.
    inv_bind H. injection H as <-.
    unfold Sql.update. cbn [fst].
    eexists. split; [apply in_map, Hin|].
    unfold Sql.where_id. rewrite Z.eqb_refl.
    cbn [tracking_history id transaction_id].
    change (String "[" (PyRepr.join ", " (List.map Json.dumps history) ++ "]"))
      with (Json.dumps (JArr history)).
    rewrite decode_history_dumps. repeat split; eauto.
  - inv_bind H.
    match type of H with
    | match ?x with _ => _ end = _ => destruct x as [k|]; [|discriminate]
    end.
    destruct (existsb _ t); [discriminate|]. injection H as <-.
    eexists. split; [apply in_or_app; right; now left|].
    cbn [tracking_history].
    change (String "[" (PyRepr.join ", " (List.map Json.dumps history) ++ "]"))
      with (Json.dumps (JArr history)).
    rewrite decode_history_dumps. repeat split; eauto.
Qed.

(** On the scenario: a history of three entries decodes to three. *)
Lemma track_updated_replaces_history_witness :
  exists r',
    In r' Scenario.t_delivered
    /\ (exists h, decode_history (tracking_history r') = JArr h
                  /\ List.length h = 3%nat)
    /\ transaction_id r' = "tx1".
Proof.
  destruct (track_updated_replaces_history "2024-01-05 09:00:00"
              Scenario.t_created (Scenario.delivered Scenario.first_date)
              Scenario.t_delivered
              [ JObj [ ("status", JStr "PRE_TRANSIT") ];
                JObj [ ("status", JStr "TRANSIT") ];
                JObj [ ("status", JStr "DELIVERED") ] ])
    as (r' & Hin & _ & Hlen & Hex).
  - vm_compute. reflexivity.
  - reflexivity.
  - exists r'. repeat split; [exact Hin | exact Hlen | apply Hex].
Defined.

(** ** The key invariant *)

Lemma map_update_same {A} (proj : row -> A) (w : row -> bool) (f : row -> row)
    (t : table) :
  (forall r, proj (f r) = proj r) ->
  List.map proj (List.map (fun r => if w r then f r else r) t)
  = List.map proj t.
Proof.
  intros Hf. rewrite map_map. apply map_ext. intros r.
  destruct (w r); auto.
Qed.

Lemma id_below_fresh (t : table) r : In r t -> id r < Sql.fresh_id t.
Proof.
  unfold Sql.fresh_id. induction t as [|x t IH]; cbn [In fold_right].
  - intros [].
  - intros [->|H]; [lia|]. apply IH in H. lia.
Qed.

Lemma fresh_id_new (t : table) : ~ In (Sql.fresh_id t) (List.map id t).
Proof.
  intros H. apply in_map_iff in H as (r & Hr & Hin).
  apply id_below_fresh in Hin. lia.
Qed.

Lemma no_record_new k (t : table) :
  existsb (Sql.where_transaction_id (Some k)) t = false ->
  ~ In k (List.map transaction_id t).
Proof.
  intros E H. apply in_map_iff in H as (r & Hr & Hin).
  assert (existsb (Sql.where_transaction_id (Some k)) t = true); [|congruence].
  apply existsb_exists. exists r. split; [exact Hin|].
  now apply where_transaction_id_refl.
Qed.

Lemma unique_keys_update (w : row -> bool) (f : row -> row) (t : table) :
  (forall r, transaction_id (f r) = transaction_id r) ->
  (forall r, id (f r) = id r) ->
  unique_keys t ->
  unique_keys (List.map (fun r => if w r then f r else r) t).
Proof.
  intros Ht Hi [H1 H2]. unfold unique_keys.
  now rewrite (map_update_same transaction_id), (map_update_same id).
Qed.

Lemma unique_keys_insert (t : table) (r : row) :
  existsb (Sql.where_transaction_id (Some (transaction_id r))) t = false ->
  id r = Sql.fresh_id t ->
  unique_keys t -> unique_keys (t ++ [r])%list.
Proof.
  intros E Hid [H1 H2]. unfold unique_keys. rewrite !map_app. cbn [List.map].
  split; apply NoDup_app; auto.
  - repeat constructor. intros [].
  - intros a Ha [<-|[]]. now apply (no_record_new _ _ E).
  - repeat constructor. intros [].
  - intros a Ha [<-|[]]. rewrite Hid in Ha. now apply (fresh_id_new t).
Qed.

Lemma created_table_unique_keys now data k t :
  unique_keys t -> unique_keys (created_table now data k t).
Proof.
  intros H. unfold created_table, has_record.
  destruct (existsb _ t) eqn:E.
  - apply unique_keys_update; auto.
  - apply unique_keys_insert; auto.
Qed.

(** Every handler keeps [transaction_id] and [id] free of duplicates:
    there is exactly one record per transaction id. *)
Lemma handlers_keep_unique_keys now t data t' :
  unique_keys t ->
  handle_transaction_created now t data = Ok t'
  \/ handle_transaction_updated now t data = Ok t'
  \/ handle_track_updated now t data = Ok t' ->
  unique_keys t'.
Proof.
  intros Hu [H | [H | H]].
  - apply created_ok in H as (k & _ & ->).
    now apply created_table_unique_keys.
  - apply updated_ok in H as (k & _ & H).
    destruct (has_record k t).
    + destruct H as (f & Hf & ->).
      apply unique_keys_update; auto; intros r; apply Hf.
    + apply created_ok in H as (k' & _ & ->).
      now apply created_table_unique_keys.
  - unfold handle_track_updated in H.
    destruct data as [| | | | |l];
      try (cbn [get get_or bind] in H; discriminate).
    cbn [get get_or bind] in H.
    destruct (find_existing t _ _) as [[e|]|];
      cbn [bind] in H; [| |discriminate].
    + inv_bind H. injection H as <-. unfold Sql.update. cbn [fst].
      apply unique_keys_update; auto.
    + inv_bind H.
      match type of H with
      | match ?x with _ => _ end = _ => destruct x as [k|]; [|discriminate]
      end.
      destruct (existsb _ t) eqn:Hnew; [discriminate|]. injection H as <-.
      apply unique_keys_insert; auto.
Qed.

(** * Further properties *)

(** ** Carrier classifier: case, formats, errors *)

Lemma upper_nonempty_eq s1 s2 :
  PyStr.upper s1 = PyStr.upper s2 -> PyStr.nonempty s1 = PyStr.nonempty s2.
Proof.
  intros H. rewrite <- (nonempty_upper s1), <- (nonempty_upper s2).
  now rewrite H.
Qed.

(** X1: the classification does not depend on letter case: two tracking
    numbers that agree once upper-cased get the same carrier. *)
Theorem detect_carrier_ignores_case s1 s2 :
  PyStr.upper s1 = PyStr.upper s2 ->
  detect_carrier (JStr s1) = detect_carrier (JStr s2).
Proof.
  intros H. unfold detect_carrier. cbn [truthy].
  rewrite (upper_nonempty_eq s1 s2 H), H. reflexivity.
Qed.

(** A lower-case UPS number and its upper-case form. *)
Lemma detect_carrier_ignores_case_witness :
  detect_carrier (JStr "1z999aa10123456784")
  = detect_carrier (JStr "1Z999AA10123456784").
Proof.
  apply (detect_carrier_ignores_case "1z999aa10123456784" "1Z999AA10123456784").
  reflexivity.
Defined.

Lemma alpha_not_one a :
  PyStr.is_alpha a = true ->
  PyStr.is_digit a = false
  /\ (if ascii_dec "1" (PyStr.upper_char a) then true else false) = false.
Proof.
  destruct a as [[|] [|] [|] [|] [|] [|] [|] [|]];
    intros H; vm_compute in H; try discriminate H; split; reflexivity.
Qed.

Lemma prefix_1Z_inv u :
  String.prefix "1Z" u = true -> exists rest, u = String "1" (String "Z" rest).
Proof.
  destruct u as [|a [|b u]]; cbn [String.prefix].
  - discriminate.
  - destruct (ascii_dec "1" a); discriminate.
  - destruct (ascii_dec "1" a) as [<-|]; [|discriminate].
    destruct (ascii_dec "Z" b) as [<-|]; [|discriminate]. eauto.
Qed.

Lemma alpha_head_rules s :
  PyStr.isalpha (PyStr.take 2 s) = true ->
  CarrierSpec.rule_ups s = false /\ CarrierSpec.all_digit s = false.
Proof.
  destruct s as [|a s]; [discriminate|]. intros H.
  assert (Ha : PyStr.is_alpha a = true).
  { unfold PyStr.isalpha, PyStr.take in H. destruct s; cbn in H.
    - now rewrite andb_true_r in H.
    - now apply andb_prop in H as [H _]. }
  destruct (alpha_not_one a Ha) as [Hd H1]. split.
  - unfold CarrierSpec.rule_ups, PyStr.startswith, PyStr.upper.
    cbn [PyStr.map String.prefix].
    destruct (ascii_dec "1" (PyStr.upper_char a)); [discriminate|reflexivity].
  - unfold CarrierSpec.all_digit, PyStr.isdigit. cbn. now rewrite Hd.
Qed.

Lemma detect_carrier_first_match s :
  PyStr.nonempty s = true ->
  detect_carrier (JStr s)
  = Ok (CarrierSpec.first_match CarrierSpec.rules_any_case s).
Proof.
  intros H. unfold detect_carrier. cbn [truthy]. rewrite H. cbn [negb].
  now rewrite classify_upper_first_match.
Qed.

(** X2: a tracking number of ASCII characters is classified USPS
    exactly when it has 13 characters, the first two alphabetic, and ends
    with "US" in either case; the all-digit USPS format is never
    reached. *)
Theorem detect_carrier_usps_iff s :
  PyStr.isascii s = true ->
  detect_carrier (JStr s) = Ok "USPS"
  <-> PyStr.len s = 13
      /\ PyStr.isalpha (PyStr.take 2 s) = true
      /\ PyStr.take_last 2 (PyStr.upper s) = "US".
Proof.
  intros _. split.
  - intros H. destruct (PyStr.nonempty s) eqn:Hne.
    + rewrite (detect_carrier_first_match s Hne) in H.
      cbn [CarrierSpec.first_match CarrierSpec.rules_any_case] in H.
      destruct (CarrierSpec.rule_ups s); [discriminate|].
      destruct (CarrierSpec.rule_fedex s) eqn:Hf; [discriminate|].
      destruct (CarrierSpec.rule_usps_any_case s) eqn:Hu.
      * unfold CarrierSpec.rule_usps_any_case, CarrierSpec.usps_digits in Hu.
        unfold CarrierSpec.rule_fedex in Hf.
        apply orb_prop in Hu as [Hu|Hu].
        -- apply andb_prop in Hu as [Hu Hd]. apply andb_prop in Hu as [Hl _].
           rewrite Hd, andb_true_r in Hf.
           apply Z.leb_le in Hl. apply Z.leb_gt in Hf. lia.
        -- apply andb_prop in Hu as [Hu He]. apply andb_prop in Hu as [Hl Ha].
           apply Z.eqb_eq in Hl. apply String.eqb_eq in He. auto.
      * destruct (CarrierSpec.rule_dhl s); discriminate.
    + unfold detect_carrier in H. cbn [truthy] in H. rewrite Hne in H.
      discriminate.
  - intros (Hl & Ha & He).
    assert (Hne : PyStr.nonempty s = true).
    { destruct s; [discriminate Ha | reflexivity]. }
    rewrite (detect_carrier_first_match s Hne).
    destruct (alpha_head_rules s Ha) as [Hups Hd].
    cbn [CarrierSpec.first_match CarrierSpec.rules_any_case]. rewrite Hups.
    unfold CarrierSpec.rule_fedex, CarrierSpec.rule_usps_any_case,
      CarrierSpec.usps_digits.
    rewrite Hd, Ha, He, Hl. reflexivity.
Qed.

(** A registered-mail number in lower case, and a 20-digit number. *)
Lemma detect_carrier_usps_iff_witness :
  detect_carrier (JStr "ra123456789us") = Ok "USPS"
  /\ detect_carrier (JStr "94001118992233445566") <> Ok "USPS".
Proof.
  split.
  - apply (detect_carrier_usps_iff "ra123456789us"); [reflexivity|].
    repeat split; reflexivity.
  - intros H.
    apply (detect_carrier_usps_iff "94001118992233445566") in H;
      [|reflexivity].
    destruct H as [H _]. vm_compute in H. discriminate H.
Defined.

(** X3: the classifier answers one of six tags on every string and on
    every falsy value; it raises, and then an AttributeError, exactly on
    a truthy value that is not a string. *)
Theorem detect_carrier_total v :
  (forall s, v = JStr s ->
             exists tag, detect_carrier v = Ok tag /\ In tag carrier_tags)
  /\ (truthy v = false -> detect_carrier v = Ok "UNKNOWN")
  /\ (truthy v = true -> (forall s, v <> JStr s) ->
      detect_carrier v = Err AttributeError).
Proof.
  repeat split.
  - intros s ->. unfold detect_carrier. cbn [truthy].
    destruct (PyStr.nonempty s); cbn [negb]; [|eexists; split; [reflexivity|cbn; auto]].
    rewrite classify_upper_first_match.
    cbn [CarrierSpec.first_match CarrierSpec.rules_any_case].
    destruct (CarrierSpec.rule_ups s);
      [eexists; split; [reflexivity|cbn; auto]|].
    destruct (CarrierSpec.rule_fedex s);
      [eexists; split; [reflexivity|cbn; auto]|].
    destruct (CarrierSpec.rule_usps_any_case s);
      [eexists; split; [reflexivity|cbn; auto 7]|].
    destruct (CarrierSpec.rule_dhl s);
      eexists; (split; [reflexivity|cbn; auto 7]).
  - intros H. unfold detect_carrier. now rewrite H.
  - intros H Hs. unfold detect_carrier. rewrite H. cbn [negb].
    destruct v; try reflexivity. now destruct (Hs s).
Qed.

Lemma isdigit_1Z rest : PyStr.isdigit (String "1" (String "Z" rest)) = false.
Proof. reflexivity. Qed.

Lemma digits_not_ups s : PyStr.isdigit s = true -> CarrierSpec.rule_ups s = false.
Proof.
  intros H. unfold CarrierSpec.rule_ups, PyStr.startswith.
  destruct (String.prefix "1Z" (PyStr.upper s)) eqn:E; [|reflexivity].
  apply prefix_1Z_inv in E as [rest E].
  rewrite <- isdigit_upper, E, isdigit_1Z in H. discriminate H.
Qed.

(** X4: an all-digit tracking number is classified by its length alone:
    FEDEX from 12 digits on, DHL with 10 or 11, CARRIER below 10; never
    UPS and never USPS. *)
Theorem detect_carrier_digits s :
  PyStr.isdigit s = true ->
  detect_carrier (JStr s)
  = Ok (if 12 <=? PyStr.len s then "FEDEX"
        else if (PyStr.len s =? 10) || (PyStr.len s =? 11) then "DHL"
        else "CARRIER").
Proof.
  intros H.
  assert (Hne : PyStr.nonempty s = true).
  { unfold PyStr.isdigit in H. now apply andb_prop in H as [H _]. }
  rewrite (detect_carrier_first_match s Hne).
  cbn [CarrierSpec.first_match CarrierSpec.rules_any_case].
  rewrite (digits_not_ups s H).
  unfold CarrierSpec.rule_fedex, CarrierSpec.rule_usps_any_case,
    CarrierSpec.usps_digits, CarrierSpec.rule_dhl, CarrierSpec.all_digit.
  rewrite H, !andb_true_r.
  destruct (12 <=? PyStr.len s) eqn:E12; [reflexivity|].
  apply Z.leb_gt in E12.
  replace (16 <=? PyStr.len s) with false by (symmetry; apply Z.leb_gt; lia).
  replace (PyStr.len s =? 13) with false by (symmetry; apply Z.eqb_neq; lia).
  cbn [andb orb].
  destruct ((PyStr.len s =? 10) || (PyStr.len s =? 11)); reflexivity.
Qed.

(** A 19-digit number with a leading 9. *)
Lemma detect_carrier_digits_witness :
  detect_carrier (JStr "9400111899223344556") = Ok "FEDEX".
Proof.
  apply (detect_carrier_digits "9400111899223344556"). reflexivity.
Defined.

(** ** The handlers, statement by statement *)

Ltac unfold_columns :=
  unfold updated_merge, track_merge, track_row, track_key, track_carrier,
    track_history, delivery_date, supplied_tracking_status, supplied_in,
    supplied_status, supplied, payload_transaction_id, track_existing, bound.

Lemma has_record_of k t r : record_of k t = Some r -> has_record k t = true.
Proof.
  intros H. apply find_some in H as [Hin Hw].
  apply existsb_exists. eauto.
Qed.


(** The UPDATE of [handle_transaction_updated], when it finds the
    record. *)
Lemma updated_rows now t data t' k :
  handle_transaction_updated now t data = Ok t' ->
  payload_transaction_id data = Some k ->
  has_record k t = true ->
  t' = List.map (fun r => if Sql.where_transaction_id (Some k) r
                          then updated_merge now data r else r) t.
Proof.
  intros H Hk Hrec. unfold handle_transaction_updated in H.
  destruct data as [| | | | |l]; try (cbn [get get_or bind] in H; discriminate).
  unfold_columns. unfold payload_transaction_id, supplied in Hk.
  cbn [get get_or bind] in H, Hk |- *. inv_bind H. subst.
  unfold Sql.update in H. rewrite rowcount_zero in H.
  unfold has_record in Hrec. rewrite Hrec in H. cbn [negb] in H.
  now injection H as <-.
Qed.

(** [handle_track_updated], when it returns: the UPDATE of the record it
    found, or the INSERT of a record under a key the table did not
    hold. *)
Lemma track_ok now t data t' :
  handle_track_updated now t data = Ok t' ->
  match track_existing t data with
  | Ok (Some e) =>
      t' = List.map (fun r => if Sql.where_id (id e) r
                              then track_merge now data r else r) t
  | Ok None =>
      exists k, track_key data = Some k
                /\ has_record k t = false
                /\ t' = (t ++ [track_row now data (Sql.fresh_id t) k])%list
  | Err _ => False
  end.
Proof.
  intros H. unfold handle_track_updated in H.
  destruct data as [| | | | |l]; try (cbn [get get_or bind] in H; discriminate).
  unfold_columns. cbn [get get_or bind] in H |- *.
  destruct (find_existing t _ _) as [[e|]|];
    cbn [bind] in H; [| |discriminate].
  - inv_bind H. now injection H as <-.
  - inv_bind H.
    match type of H with
    | match ?x with _ => _ end = _ => destruct x as [k|]; [|discriminate]
    end.
    exists k. unfold has_record.
    destruct (existsb _ t); [discriminate|]. now injection H as <-.
Qed.

(** ** The transaction handlers on an existing and on a new record *)

Lemma In_map_if_other (w : row -> bool) (f : row -> row) t r0 :
  In r0 t -> w r0 = false ->
  In r0 (List.map (fun r => if w r then f r else r) t).
Proof.
  intros Hin Hw. apply in_map_iff. exists r0. now rewrite Hw.
Qed.

Lemma where_transaction_id_neq k r :
  transaction_id r <> k -> Sql.where_transaction_id (Some k) r = false.
Proof. intros H. cbn. now apply String.eqb_neq. Qed.

Lemma record_of_map_update k (f : row -> row) t r :
  (forall x, transaction_id (f x) = transaction_id x) ->
  record_of k t = Some r ->
  record_of k (List.map (fun x => if Sql.where_transaction_id (Some k) x
                                  then f x else x) t)
  = Some (f r).
Proof.
  intros Hf Hr. unfold record_of, Sql.fetchone in *.
  rewrite find_map_same.
  - rewrite Hr. cbn [option_map]. apply find_some in Hr as [_ Hr].
    now rewrite Hr.
  - intros x. destruct (Sql.where_transaction_id (Some k) x) eqn:E; [|exact E].
    unfold Sql.where_transaction_id in *. now rewrite Hf.
Qed.

(** X5: [handle_transaction_created] for a transaction id that has a
    record adds no record and rewrites that one in place: its tracking
    number and status become what the payload supplies, unconditionally
    (NULL for an absent tracking number, PRE_TRANSIT for an absent
    status), while its carrier is not detected again and its id, creation
    time and every column of the tracking events stay; records under
    other ids are untouched. *)
Theorem created_on_existing now t data t' k r :
  handle_transaction_created now t data = Ok t' ->
  payload_transaction_id data = Some k ->
  record_of k t = Some r ->
  exists r',
    record_of k t' = Some r'
    /\ List.map identity t' = List.map identity t
    /\ tracking_number r' = supplied "tracking_number" data
    /\ status r' = supplied_status "PRE_TRANSIT" data
    /\ carrier r' = carrier r
    /\ updated_at r' = Some now
    /\ same_tracking_columns r r'
    /\ (forall r0, In r0 t -> transaction_id r0 <> k -> In r0 t').
Proof.
  intros H Hk Hr. apply created_ok in H as (k' & Hk' & ->).
  assert (k' = k) as -> by congruence.
  unfold created_table. rewrite (has_record_of k t r Hr).
  exists (created_merge now data r). split; [|split].
  - now apply record_of_map_update.
  - now apply map_update_same.
  - unfold same_tracking_columns. cbn. repeat split.
    intros r0 Hin Hne. apply In_map_if_other; [exact Hin|].
    now apply where_transaction_id_neq.
Qed.



(** X7: [handle_transaction_updated] for a transaction id that has a
    record rewrites that record in place and adds none: the status
    becomes the payload's (UNKNOWN when the payload has none), the
    tracking number and the ETA change only when the payload supplies a
    non-null one, and the carrier, the label, the metadata and every
    column of the tracking events stay; records under other ids are
    untouched. *)
Theorem updated_on_existing now t data t' k r :
  handle_transaction_updated now t data = Ok t' ->
  payload_transaction_id data = Some k ->
  record_of k t = Some r ->
  exists r',
    record_of k t' = Some r'
    /\ List.map identity t' = List.map identity t
    /\ status r' = supplied_status "UNKNOWN" data
    /\ tracking_number r'
       = Sql.coalesce (supplied "tracking_number" data) (tracking_number r)
    /\ eta r' = Sql.coalesce (supplied "eta" data) (eta r)
    /\ updated_at r' = Some now
    /\ carrier r' = carrier r
    /\ metadata r' = metadata r
    /\ label_url r' = label_url r
    /\ tracking_url r' = tracking_url r
    /\ same_tracking_columns r r'
    /\ (forall r0, In r0 t -> transaction_id r0 <> k -> In r0 t').
Proof.
  intros H Hk Hr.
  rewrite (updated_rows now t data t' k H Hk (has_record_of k t r Hr)).
  exists (updated_merge now data r). split; [|split].
  - now apply record_of_map_update.
  - now apply map_update_same.
  - unfold same_tracking_columns. cbn. repeat split.
    intros r0 Hin Hne. apply In_map_if_other; [exact Hin|].
    now apply where_transaction_id_neq.
Qed.

(** X8: a payload without a usable [object_id] (absent, null, or a list
    or object) is stored by neither transaction handler: both raise. *)
Theorem transaction_id_required now t data :
  payload_transaction_id data = None ->
  is_ok (handle_transaction_created now t data) = false
  /\ is_ok (handle_transaction_updated now t data) = false.
Proof.
  intros Hk. split.
  - destruct (handle_transaction_created now t data) as [t'|] eqn:H;
      [|reflexivity].
    apply created_ok in H as (k & Hk' & _). congruence.
  - destruct (handle_transaction_updated now t data) as [t'|] eqn:H;
      [|reflexivity].
    apply updated_ok in H as (k & Hk' & _). congruence.
Qed.

(** ** The webhook on the table as a whole *)

Lemma dispatch_cases now t payload t' :
  dispatch now t payload = Ok t' ->
  t' = t
  \/ exists data,
       handle_transaction_created now t data = Ok t'
       \/ handle_transaction_updated now t data = Ok t'
       \/ handle_track_updated now t data = Ok t'.
Proof.
  unfold dispatch. intros H. inv_bind H.
  destruct (eq_str a "transaction_created"); [right; eauto|].
  destruct (eq_str a "transaction_updated"); [right; eauto|].
  destruct (eq_str a "track_updated"); [right; eauto 6|].
  injection H as <-. now left.
Qed.

Lemma webhook_cases now t request_json :
  snd (shippo_webhook now t request_json) = t
  \/ exists data,
       handle_transaction_created now t data
         = Ok (snd (shippo_webhook now t request_json))
       \/ handle_transaction_updated now t data
         = Ok (snd (shippo_webhook now t request_json))
       \/ handle_track_updated now t data
         = Ok (snd (shippo_webhook now t request_json)).
Proof.
  unfold shippo_webhook.
  destruct request_json as [payload|]; [|now left].
  destruct (truthy payload); cbn [negb]; [|now left].
  destruct (dispatch now t payload) as [t'|] eqn:H; [|now left].
  cbn [snd]. now apply dispatch_cases in H.
Qed.

(** X9: whatever the request, the webhook keeps the table free of
    duplicate transaction ids and of duplicate ids: one record per
    transaction id. *)
Theorem webhook_keeps_unique_keys now t request_json :
  unique_keys t -> unique_keys (snd (shippo_webhook now t request_json)).
Proof.
  intros Hu. destruct (webhook_cases now t request_json) as [-> | [data H]].
  - exact Hu.
  - exact (handlers_keep_unique_keys now t data _ Hu H).
Qed.

Lemma identity_created_merge now data r :
  identity (created_merge now data r) = identity r.
Proof. reflexivity. Qed.

Lemma handlers_keep_records now t data t' :
  handle_transaction_created now t data = Ok t'
  \/ handle_transaction_updated now t data = Ok t'
  \/ handle_track_updated now t data = Ok t' ->
  exists new, List.map identity t' = (List.map identity t ++ new)%list
              /\ (List.length new <= 1)%nat.
Proof.
  assert (Hc : forall t', handle_transaction_created now t data = Ok t' ->
                 exists new, List.map identity t'
                             = (List.map identity t ++ new)%list
                             /\ (List.length new <= 1)%nat).
  { intros t1 H. apply created_ok in H as (k & _ & ->). unfold created_table.
    destruct (has_record k t).
    - exists []. rewrite app_nil_r. split; [|cbn; lia].
      now apply map_update_same.
    - eexists [_]. rewrite map_app. split; [reflexivity | cbn; lia]. }
  intros [H | [H | H]].
  - now apply Hc.
  - pose proof H as H0. apply updated_ok in H as (k & Hk & H).
    destruct (has_record k t) eqn:E.
    + rewrite (updated_rows now t data t' k H0 Hk E).
      exists []. rewrite app_nil_r. split; [|cbn; lia].
      now apply map_update_same.
    + now apply Hc.
  - apply track_ok in H. destruct (track_existing t data) as [[e|]|]; [| |easy].
    + subst t'. exists []. rewrite app_nil_r. split; [|cbn; lia].
      now apply map_update_same.
    + destruct H as (k & _ & _ & ->).
      eexists [_]. rewrite map_app. split; [reflexivity | cbn; lia].
Qed.

(** X10: whatever the request, the webhook removes no record and rewrites
    no record's id, transaction id or creation time: the records of the
    table keep their identity and their order, and at most one record is
    added, at the end. *)
Theorem webhook_keeps_records now t request_json :
  exists new,
    List.map identity (snd (shippo_webhook now t request_json))
    = (List.map identity t ++ new)%list
    /\ (List.length new <= 1)%nat.
Proof.
  destruct (webhook_cases now t request_json) as [-> | [data H]].
  - exists []. rewrite app_nil_r. split; [reflexivity | cbn; lia].
  - exact (handlers_keep_records now t data _ H).
Qed.

(** ** [handle_track_updated]: creation, keys, status shapes *)

Lemma bound_some v k : bound v = Some k -> Sql.bind_param v = Ok (Some k).
Proof.
  unfold bound. destruct (Sql.bind_param v) as [c|]; [|discriminate].
  now intros ->.
Qed.

(** X11: when [handle_track_updated] finds no record it appends exactly
    one and touches no other.  The new record is keyed by the payload's
    transaction or, when that is falsy, by [track_] followed by the
    tracking number; its creation and update times are the current time;
    and its [to_name] is NULL whatever [address_to] holds, the INSERT
    having no such column, as are its metadata and its URLs. *)
Theorem track_inserts_new now t data t' :
  handle_track_updated now t data = Ok t' ->
  track_existing t data = Ok None ->
  exists k r' tid tn,
    t' = (t ++ [r'])%list
    /\ transaction_id r' = k
    /\ get "transaction" data = Ok tid
    /\ get "tracking_number" data = Ok tn
    /\ Sql.bind_param (if truthy tid then tid
                       else JStr ("track_" ++ PyRepr.str tn)) = Ok (Some k)
    /\ record_of k t = None
    /\ created_at r' = Some now
    /\ updated_at r' = Some now
    /\ to_name r' = None
    /\ to_city r' = supplied_in "address_to" "city" data
    /\ metadata r' = None
    /\ label_url r' = None
    /\ tracking_url r' = None.
Proof.
  intros H Hex. apply track_ok in H. rewrite Hex in H.
  destruct H as (k & Hk & Hrec & ->).
  unfold track_key in Hk.
  destruct (get "transaction" data) as [tid|] eqn:Etid; [|discriminate].
  destruct (get "tracking_number" data) as [tn|] eqn:Etn; [|discriminate].
  apply bound_some in Hk.
  exists k, (track_row now data (Sql.fresh_id t) k), tid, tn.
  cbn. repeat split; auto.
  now apply find_none_existsb.
Qed.

Lemma find_existing_no_keys t tid tn :
  truthy tid = false -> Sql.bind_param tn = Ok None ->
  find_existing t tid tn = Ok None.
Proof.
  intros Hf Hb. unfold find_existing. rewrite Hf, Hb. cbn [bind].
  f_equal. unfold Sql.fetchone. induction t as [|r t IH]; [reflexivity|].
  cbn [find]. unfold Sql.where_tracking_number at 1, Sql.eq_cell.
  destruct (tracking_number r); exact IH.
Qed.

(** X12: a [track_updated] payload that has neither a transaction nor a
    tracking number is stored once, under the key [track_None]; every
    later event of that shape raises on the UNIQUE constraint, since no
    lookup can find the record. *)
Theorem track_without_keys_only_once now now' t data t' tid :
  handle_track_updated now t data = Ok t' ->
  get "transaction" data = Ok tid ->
  truthy tid = false ->
  get "tracking_number" data = Ok JNull ->
  record_of "track_None" t' <> None
  /\ handle_track_updated now' t' data = Err IntegrityError.
Proof.
  intros H Htid Hf Htn.
  assert (Hex : forall t0, track_existing t0 data = Ok None).
  { intros t0. unfold track_existing. rewrite Htn, Htid. cbn [bind].
    now apply find_existing_no_keys. }
  pose proof (track_ok now t data t' H) as H1. rewrite Hex in H1.
  destruct H1 as (k & Hk & _ & ->).
  unfold track_key in Hk. rewrite Htid, Htn, Hf in Hk.
  injection Hk as <-. split.
  { unfold record_of, Sql.fetchone.
    destruct (find _ _) eqn:E; [discriminate|].
    apply find_none with (x := track_row now data (Sql.fresh_id t) "track_None")
      in E; [discriminate E|].
    apply in_or_app. right. now left. }
  unfold handle_track_updated in H |- *.
  destruct data as [| | | | |l]; try (cbn [get get_or bind] in H; discriminate).
  unfold track_existing in Hex.
  cbn [get get_or bind] in H, Hex, Htid, Htn |- *.
  injection Htid as Htid. injection Htn as Htn.
  rewrite !Hex in *. cbn [bind] in H |- *.
  rewrite Htid in *. rewrite Hf in *. rewrite Htn in *.
  inv_bind H.
  match type of H with
  | match ?x with _ => _ end = _ => destruct x as [k|]; [|discriminate]
  end.
  destruct (existsb _ t) eqn:Hnew; [discriminate|].
  match goal with
  | E : Sql.bind_param (JStr _) = Ok (Some k) |- _ =>
      cbn in E; injection E as <-
  end.
  repeat (cbn [bind];
          match goal with
          | E : ?m = Ok _ |- context [bind ?m _] => rewrite E
          end).
  cbn [bind]. rewrite existsb_app.
  replace (existsb (Sql.where_transaction_id (Some "track_None"))
             [track_row now (JObj l) (Sql.fresh_id t) "track_None"])
    with true by reflexivity.
  now rewrite orb_true_r.
Qed.


(** ** The shipment list: limit, order, filters, errors *)

Lemma list_query_inv datetime_now t a l :
  body (get_shippo_shipments datetime_now t a) = Shipments l ->
  exists days limit,
    days_of (arg_days a) = Ok days
    /\ limit_of (arg_limit a) = Ok limit
    /\ Sql.int64 limit = true
    /\ l = List.map (fun r => mkShipment r (decode_history (tracking_history r)))
             (limit_rows limit
                (order_by_created_desc
                   (List.filter
                      (list_where datetime_now days (arg_status a)
                         match arg_search a with
                         | Some s => s
                         | None => EmptyString
                         end) t))).
Proof.
  unfold get_shippo_shipments, list_query, days_of, limit_of.
  destruct (match arg_days a with Some s => PyInt.int s | None => Ok 90 end)
    as [days|]; cbn [bind body]; [|discriminate].
  destruct (match arg_limit a with Some s => PyInt.int s | None => Ok 200 end)
    as [limit|]; cbn [bind body]; [|discriminate].
  destruct (Sql.int64 limit) eqn:E; cbn [bind body]; [|discriminate].
  intros [= <-]. exists days, limit. repeat split. exact E.
Qed.

Lemma length_limit_rows n l :
  0 <= n -> (List.length (limit_rows n l) <= Z.to_nat n)%nat.
Proof.
  intros Hn. unfold limit_rows.
  destruct (n <? 0) eqn:E; [apply Z.ltb_lt in E; lia|].
  apply firstn_le_length.
Qed.

(** X14: the list holds at most [limit] shipments for a non-negative
    [limit] parameter, and at most 200 when the parameter is absent. *)
Theorem list_respects_limit datetime_now t a l :
  body (get_shippo_shipments datetime_now t a) = Shipments l ->
  exists limit,
    limit_of (arg_limit a) = Ok limit
    /\ (0 <= limit -> (List.length l <= Z.to_nat limit)%nat)
    /\ (arg_limit a = None -> (List.length l <= 200)%nat).
Proof.
  intros H. apply list_query_inv in H as (days & limit & _ & Hl & _ & ->).
  exists limit. rewrite length_map. repeat split; auto.
  - apply length_limit_rows.
  - intros Hn. rewrite Hn in Hl. injection Hl as <-.
    apply (length_limit_rows 200). lia.
Qed.

Lemma lt_cell_asym a b : lt_cell a b = true -> lt_cell b a = false.
Proof.
  destruct a as [x|], b as [y|]; cbn [lt_cell]; try congruence.
  unfold String.ltb. rewrite (String.compare_antisym y x).
  destruct (String.compare x y); cbn [CompOpp]; congruence.
Qed.

Lemma insert_desc_sorted r l :
  Sorted (fun r1 r2 => lt_cell (created_at r1) (created_at r2) = false) l ->
  Sorted (fun r1 r2 => lt_cell (created_at r1) (created_at r2) = false)
    (insert_desc r l).
Proof.
  induction l as [|y l IH]; intros Hs; cbn [insert_desc].
  - repeat constructor.
  - destruct (lt_cell (created_at r) (created_at y)) eqn:E.
    + inversion Hs as [|? ? Hl Hh]; subst. constructor; [now apply IH|].
      destruct l as [|z l]; cbn [insert_desc].
      * constructor. now apply lt_cell_asym.
      * inversion Hh; subst.
        destruct (lt_cell (created_at r) (created_at z)); constructor;
          [assumption | now apply lt_cell_asym].
    + constructor; [exact Hs | now constructor].
Qed.

Lemma order_by_created_desc_sorted l :
  Sorted (fun r1 r2 => lt_cell (created_at r1) (created_at r2) = false)
    (order_by_created_desc l).
Proof.
  induction l as [|r l IH]; cbn; [constructor | now apply insert_desc_sorted].
Qed.

Lemma Sorted_firstn {A} (R : A -> A -> Prop) n l :
  Sorted R l -> Sorted R (List.firstn n l).
Proof.
  revert l. induction n as [|n IH]; intros [|x l] Hs; cbn; try constructor.
  - inversion Hs; subst. now apply IH.
  - inversion Hs as [|? ? _ Hh]; subst.
    destruct n, l; cbn; constructor. now inversion Hh.
Qed.

Lemma Sorted_weaken_in {A} (R R' : A -> A -> Prop) l :
  (forall x y, In x l -> In y l -> R x y -> R' x y) ->
  Sorted R l -> Sorted R' l.
Proof.
  induction l as [|x l IH]; intros H Hs; [constructor|].
  inversion Hs as [|? ? Hl Hh]; subst. constructor.
  - apply IH; [|exact Hl]. intros a b Ha Hb. apply H; now right.
  - destruct Hh; constructor. apply H; cbn; auto.
Qed.

Lemma Sorted_map {A B} (R : B -> B -> Prop) (f : A -> B) l :
  Sorted (fun x y => R (f x) (f y)) l -> Sorted R (List.map f l).
Proof.
  induction 1 as [|x l Hl IH Hh]; cbn; constructor; [exact IH|].
  destruct Hh; cbn; now constructor.
Qed.

Lemma not_lt_ge a b x y :
  a = Some x -> b = Some y -> lt_cell a b = false -> ge_cell a b = true.
Proof.
  intros -> ->. cbn [lt_cell ge_cell]. unfold String.ltb, String.leb.
  rewrite (String.compare_antisym y x).
  destruct (String.compare x y); cbn [CompOpp]; congruence.
Qed.

Lemma list_where_created datetime_now days st search r :
  list_where datetime_now days st search r = true ->
  exists x, created_at r = Some x.
Proof.
  unfold list_where. intros H.
  apply andb_prop in H as [H _]. apply andb_prop in H as [H _].
  apply andb_prop in H as [H _].
  destruct (created_at r); [eauto | discriminate].
Qed.

(** X15: the list is ordered newest first: each shipment was created no
    earlier than the one after it (both creation times being known). *)
Theorem list_newest_first datetime_now t a l :
  body (get_shippo_shipments datetime_now t a) = Shipments l ->
  Sorted (fun s1 s2 => not_older (shipment_row s1) (shipment_row s2)) l.
Proof.
  intros H. apply list_query_inv in H as (days & limit & _ & _ & _ & ->).
  apply Sorted_map. cbn [shipment_row].
  set (rows := List.filter _ t).
  assert (Hs : Sorted (fun r1 r2 =>
                         lt_cell (created_at r1) (created_at r2) = false)
                 (limit_rows limit (order_by_created_desc rows))).
  { unfold limit_rows. destruct (limit <? 0).
    - apply order_by_created_desc_sorted.
    - apply Sorted_firstn, order_by_created_desc_sorted. }
  revert Hs. apply Sorted_weaken_in. intros x y Hx Hy Hlt.
  apply In_limit_rows, In_order_by_created_desc, filter_In in Hx as [_ Hx].
  apply In_limit_rows, In_order_by_created_desc, filter_In in Hy as [_ Hy].
  apply list_where_created in Hx as [cx Hx].
  apply list_where_created in Hy as [cy Hy].
  unfold not_older. now apply (not_lt_ge _ _ cx cy).
Qed.



(** X17: a [status] parameter that is empty or reads ALL in any case is
    no filter: the response is the one without the parameter. *)
Theorem list_status_all datetime_now t s search days limit :
  PyStr.nonempty s = false \/ PyStr.upper s = "ALL" ->
  get_shippo_shipments datetime_now t (mkArgs (Some s) search days limit)
  = get_shippo_shipments datetime_now t (mkArgs None search days limit).
Proof.
  intros H. unfold get_shippo_shipments, list_query.
  cbn [arg_status arg_search arg_days arg_limit].
  assert (Hw : forall d q r,
             list_where datetime_now d (Some s) q r
             = list_where datetime_now d None q r).
  { intros d q r. unfold list_where.
    destruct H as [-> | ->]; [reflexivity|].
    now rewrite andb_false_r. }
  destruct (match days with Some s0 => PyInt.int s0 | None => Ok 90 end);
    cbn [bind]; [|reflexivity].
  destruct (match limit with Some s0 => PyInt.int s0 | None => Ok 200 end);
    cbn [bind]; [|reflexivity].
  destruct (Sql.int64 a0); cbn [bind]; [|reflexivity].
  now rewrite (filter_ext _ _ (Hw a _)).
Qed.

Lemma without_digit_lstrip s :
  without_digit s = true -> without_digit (PyInt.lstrip s) = true.
Proof.
  induction s as [|c s IH]; [easy|]. intros H.
  cbn [PyInt.lstrip]. destruct (PyInt.is_space c); [|exact H].
  apply IH. unfold without_digit in H. cbn [PyStr.all] in H.
  now apply andb_prop in H as [_ H].
Qed.

Lemma without_digit_rstrip s :
  without_digit s = true -> without_digit (PyInt.rstrip s) = true.
Proof.
  induction s as [|c s IH]; [easy|]. intros H.
  unfold without_digit in H. cbn [PyStr.all] in H.
  apply andb_prop in H as [Hc H]. specialize (IH H).
  cbn [PyInt.rstrip]. destruct (PyInt.rstrip s) as [|d r].
  - destruct (PyInt.is_space c); [reflexivity|].
    unfold without_digit. cbn [PyStr.all]. now rewrite Hc.
  - unfold without_digit in *. cbn [PyStr.all] in *. now rewrite Hc, IH.
Qed.

Lemma unsigned_without_digit s :
  without_digit s = true -> PyInt.unsigned s = None.
Proof.
  destruct s as [|c s]; [reflexivity|]. intros H.
  unfold without_digit in H. cbn [PyStr.all] in H.
  apply andb_prop in H as [Hc _]. apply negb_true_iff in Hc.
  unfold PyInt.unsigned. now rewrite Hc.
Qed.

(** [int()] needs a digit. *)
Lemma int_without_digit s :
  without_digit s = true -> PyInt.int s = Err ValueError.
Proof.
  intros H. apply without_digit_lstrip, without_digit_rstrip in H.
  unfold PyInt.int. destruct (PyInt.rstrip (PyInt.lstrip s)) as [|c b] eqn:E;
    [reflexivity|].
  pose proof (unsigned_without_digit _ H) as Hu.
  assert (Hb : PyInt.unsigned b = None).
  { apply unsigned_without_digit. unfold without_digit in H.
    cbn [PyStr.all] in H. now apply andb_prop in H as [_ H]. }
  rewrite Hu, Hb. cbn [option_map].
  destruct (Ascii.eqb c "-"); [reflexivity|].
  now destruct (Ascii.eqb c "+").
Qed.

(** X18: a [days] or [limit] parameter of ASCII characters without a
    single digit is answered 500 with the ValueError of [int()], by the
    list whatever the table and the other parameters are, and by the
    statistics: the parameters are not validated apart. *)
Theorem bad_number_answers_500 datetime_now t a s :
  PyStr.isascii s = true ->
  without_digit s = true ->
  (arg_days a = Some s \/ arg_limit a = Some s ->
   get_shippo_shipments datetime_now t a = mkResponse 500 (ListError ValueError))
  /\ get_shippo_stats datetime_now t (Some s)
     = mkResponse 500 (StatsError ValueError).
Proof.
  intros _ H. apply int_without_digit in H. split.
  - intros Ha. unfold get_shippo_shipments, list_query.
    destruct Ha as [Ha|Ha]; rewrite Ha.
    + rewrite H. reflexivity.
    + destruct (match arg_days a with Some s0 => PyInt.int s0 | None => Ok 90 end)
        as [days|e] eqn:E; cbn [bind].
      * rewrite H. reflexivity.
      * destruct (arg_days a) as [d|]; [|discriminate E].
        unfold PyInt.int in E.
        destruct (match PyInt.rstrip (PyInt.lstrip d) with
                  | EmptyString => None
                  | String c s' => _
                  end) as [z|];
          [destruct (PyInt.max_str_digits <? _) in E|];
          try discriminate E; now injection E as <-.
  - unfold get_shippo_stats, stats_query. now rewrite H.
Qed.

(** ** The statistics *)

Lemma same_cell_eq a b : same_cell a b = true <-> a = b.
Proof.
  destruct a as [x|], b as [y|]; cbn; split; try congruence.
  - intros H. apply String.eqb_eq in H. now subst.
  - intros [= ->]. apply String.eqb_refl.
Qed.

Lemma same_cell_refl a : same_cell a a = true.
Proof. now apply same_cell_eq. Qed.

Lemma same_cell_neq a b : same_cell a b = false <-> a <> b.
Proof.
  rewrite <- not_true_iff_false. now rewrite same_cell_eq.
Qed.

Lemma In_statuses k rows :
  In k (statuses rows) <-> exists r, In r rows /\ status r = k.
Proof.
  induction rows as [|r rows IH]; cbn [statuses In].
  - split; [intros [] | intros (r & [] & _)].
  - split.
    + intros [<- | H]; [eauto|].
      apply filter_In in H as [H _]. apply IH in H as (r' & Hin & Hs). eauto.
    + intros (r' & [<- | Hin] & Hs); [now left|].
      destruct (same_cell k (status r)) eqn:E.
      * left. symmetry. now apply same_cell_eq.
      * right. apply filter_In. split; [apply IH; eauto | now rewrite E].
Qed.

Lemma NoDup_statuses rows : NoDup (statuses rows).
Proof.
  induction rows as [|r rows IH]; cbn [statuses]; constructor.
  - intros H. apply filter_In in H as [_ H].
    now rewrite same_cell_refl in H.
  - now apply NoDup_filter.
Qed.

Lemma count_status_cons k r rows :
  count_status k (r :: rows)
  = ((if same_cell (status r) k then 1 else 0) + count_status k rows)%nat.
Proof.
  unfold count_status. cbn [List.filter].
  now destruct (same_cell (status r) k).
Qed.

Lemma count_status_absent k rows :
  ~ In k (statuses rows) -> count_status k rows = O.
Proof.
  intros H. induction rows as [|r rows IH]; [reflexivity|].
  rewrite count_status_cons.
  destruct (same_cell (status r) k) eqn:E.
  - apply same_cell_eq in E. destruct H. apply In_statuses.
    exists r. split; [now left | exact E].
  - apply IH. intros Hin. apply H. apply In_statuses.
    apply In_statuses in Hin as (r' & Hr' & Hs). exists r'. split; [now right | exact Hs].
Qed.

(** A sum over distinct keys splits into the term of one key and the sum
    over the others. *)
Lemma sum_split (g : cell -> nat) k (keys : list cell) :
  NoDup keys ->
  List.fold_right (fun x n => (g x + n)%nat) O keys
  = ((if existsb (same_cell k) keys then g k else O)
     + List.fold_right (fun x n => (g x + n)%nat) O
         (List.filter (fun x => negb (same_cell x k)) keys))%nat.
Proof.
  induction 1 as [|x keys Hx Hn IH]; [reflexivity|].
  cbn [fold_right existsb List.filter]. rewrite IH.
  destruct (same_cell x k) eqn:E.
  - apply same_cell_eq in E. subst x.
    rewrite same_cell_refl. cbn [orb negb].
    replace (existsb (same_cell k) keys) with false; [lia|].
    symmetry. apply not_true_iff_false. intros He.
    apply existsb_exists in He as (y & Hy & Hs).
    apply same_cell_eq in Hs. now subst.
  - assert (same_cell k x = false) as ->.
    { apply same_cell_neq. apply same_cell_neq in E. congruence. }
    cbn [orb negb fold_right]. lia.
Qed.

Lemma existsb_statuses k rows :
  existsb (same_cell k) (statuses rows) = false -> count_status k rows = O.
Proof.
  intros H. apply count_status_absent. intros Hin.
  assert (existsb (same_cell k) (statuses rows) = true); [|congruence].
  apply existsb_exists. exists k. split; [exact Hin | apply same_cell_refl].
Qed.

Lemma sum_other_keys r rows (keys : list cell) :
  List.fold_right (fun k n => (count_status k (r :: rows) + n)%nat) O
    (List.filter (fun k => negb (same_cell k (status r))) keys)
  = List.fold_right (fun k n => (count_status k rows + n)%nat) O
      (List.filter (fun k => negb (same_cell k (status r))) keys).
Proof.
  induction keys as [|k keys IHk]; [reflexivity|].
  cbn [List.filter]. destruct (same_cell k (status r)) eqn:E; cbn [negb].
  - exact IHk.
  - cbn [fold_right]. rewrite IHk, count_status_cons.
    assert (same_cell (status r) k = false) as ->.
    { apply same_cell_neq. apply same_cell_neq in E. congruence. }
    reflexivity.
Qed.

(** The counts of the groups add up to the number of rows. *)
Lemma group_counts_total rows :
  List.fold_right (fun k n => (count_status k rows + n)%nat) O (statuses rows)
  = List.length rows.
Proof.
  induction rows as [|r rows IH]; [reflexivity|].
  cbn [statuses fold_right List.length].
  rewrite count_status_cons, same_cell_refl.
  rewrite <- IH.
  rewrite (sum_split (fun k => count_status k rows) (status r) (statuses rows)
             (NoDup_statuses rows)).
  rewrite (sum_other_keys r rows (statuses rows)).
  destruct (existsb (same_cell (status r)) (statuses rows)) eqn:E; [lia|].
  rewrite (existsb_statuses _ _ E). lia.
Qed.

Lemma total_group_by_status rows :
  List.fold_right (fun kn n => (snd kn + n)%nat) O (group_by_status rows)
  = List.length rows.
Proof.
  unfold group_by_status. rewrite <- (group_counts_total rows).
  induction (statuses rows) as [|k keys IH]; [reflexivity|].
  cbn [List.map fold_right snd]. now rewrite IH.
Qed.

Lemma status_count_group k rows :
  status_count k (group_by_status rows)
  = if existsb (same_cell k) (statuses rows)
    then Some (count_status k rows) else None.
Proof.
  unfold group_by_status.
  induction (statuses rows) as [|x keys IH]; [reflexivity|].
  cbn [List.map status_count existsb].
  destruct (same_cell x k) eqn:E.
  - apply same_cell_eq in E. subst x. now rewrite same_cell_refl.
  - assert (same_cell k x = false) as ->.
    { apply same_cell_neq. apply same_cell_neq in E. congruence. }
    exact IH.
Qed.

Lemma stats_where_status datetime_now days r :
  stats_where datetime_now days r = true ->
  exists s, status r = Some s /\ s <> "ERROR".
Proof.
  unfold stats_where. intros H. apply andb_prop in H as [_ H].
  destruct (status r) as [s|]; [|discriminate]. exists s. split; [reflexivity|].
  cbn in H. intros ->. discriminate.
Qed.

(** X19: in a successful statistics response the total is the number of
    records created within the window whose status is known and not
    ERROR; [by_status] has one entry per status of those records, with
    the number of records of that status, which is at least one; it has
    no entry for ERROR and none for a NULL status. *)
Theorem stats_counts datetime_now t arg_days_ total by_status :
  body (get_shippo_stats datetime_now t arg_days_) = Stats total by_status ->
  exists days,
    days_of arg_days_ = Ok days
    /\ total = List.length (List.filter (stats_where datetime_now days) t)
    /\ NoDup (List.map fst by_status)
    /\ status_count (Some "ERROR") by_status = None
    /\ status_count None by_status = None
    /\ (forall k,
          status_count k by_status
          = match count_status k (List.filter (stats_where datetime_now days) t)
            with
            | O => None
            | n => Some n
            end).
Proof.
  unfold get_shippo_stats, stats_query, days_of.
  destruct (match arg_days_ with Some s => PyInt.int s | None => Ok 90 end)
    as [days|]; cbn [bind body]; [|discriminate].
  intros [= <- <-]. exists days.
  set (rows := List.filter (stats_where datetime_now days) t).
  assert (Hk : forall k,
             status_count k (group_by_status rows)
             = match count_status k rows with O => None | n => Some n end).
  { intros k. rewrite status_count_group.
    destruct (existsb (same_cell k) (statuses rows)) eqn:E.
    - apply existsb_exists in E as (x & Hx & Hs). apply same_cell_eq in Hs.
      subst x. apply In_statuses in Hx as (r & Hr & Hs).
      destruct (count_status k rows) eqn:Ec; [|reflexivity].
      exfalso. clear -Hr Hs Ec. induction rows as [|r0 rows IH]; [easy|].
      rewrite count_status_cons in Ec. destruct Hr as [-> | Hr].
      + rewrite Hs, same_cell_refl in Ec. discriminate.
      + apply IH; [exact Hr | lia].
    - now rewrite (existsb_statuses _ _ E). }
  assert (Hnone : forall k,
             (forall r, In r rows -> status r <> k) ->
             status_count k (group_by_status rows) = None).
  { intros k Hno. rewrite Hk.
    replace (count_status k rows) with O; [reflexivity|]. symmetry.
    apply count_status_absent. intros Hin.
    apply In_statuses in Hin as (r & Hr & Hs). exact (Hno r Hr Hs). }
  repeat split.
  - apply total_group_by_status.
  - unfold group_by_status. rewrite map_map. cbn [fst]. rewrite map_id.
    apply NoDup_statuses.
  - apply Hnone. intros r Hr Hs. apply filter_In in Hr as [_ Hr].
    apply stats_where_status in Hr as (s & Hs' & Hne). congruence.
  - apply Hnone. intros r Hr Hs. apply filter_In in Hr as [_ Hr].
    apply stats_where_status in Hr as (s & Hs' & Hne). congruence.
  - exact Hk.
Qed.

Lemma length_insert_desc r l :
  List.length (insert_desc r l) = S (List.length l).
Proof.
  induction l as [|y l IH]; cbn [insert_desc]; [reflexivity|].
  destruct (lt_cell (created_at r) (created_at y)); cbn [List.length];
    [now rewrite IH | reflexivity].
Qed.

Lemma length_order_by_created_desc l :
  List.length (order_by_created_desc l) = List.length l.
Proof.
  induction l as [|r l IH]; [reflexivity|].
  cbn [order_by_created_desc fold_right].
  rewrite length_insert_desc. cbn [List.length]. f_equal. exact IH.
Qed.

Lemma list_where_no_filter datetime_now days r :
  list_where datetime_now days None EmptyString r
  = stats_where datetime_now days r.
Proof.
  unfold list_where, stats_where. cbn [PyStr.nonempty].
  now rewrite !andb_true_r.
Qed.

(** X20: the statistics and the list agree: for the same [days], the
    list without status and search filter holds as many shipments as the
    statistics' total, cut at the limit when that is not negative (at
    200 when no limit is given). *)
Theorem stats_total_is_list_count datetime_now t arg_days_ arg_limit_
    total by_status limit :
  body (get_shippo_stats datetime_now t arg_days_) = Stats total by_status ->
  limit_of arg_limit_ = Ok limit ->
  Sql.int64 limit = true ->
  exists l,
    body (get_shippo_shipments datetime_now t
            (mkArgs None None arg_days_ arg_limit_)) = Shipments l
    /\ List.length l
       = if limit <? 0 then total else Nat.min (Z.to_nat limit) total.
Proof.
  unfold get_shippo_stats, stats_query, get_shippo_shipments, list_query,
    limit_of.
  cbn [arg_status arg_search arg_days arg_limit].
  destruct (match arg_days_ with Some s => PyInt.int s | None => Ok 90 end)
    as [days|]; cbn [bind body]; [|discriminate].
  intros [= <- _] -> Hi. cbn [bind]. rewrite Hi. cbn [bind body].
  eexists. split; [reflexivity|].
  rewrite length_map, total_group_by_status.
  rewrite (filter_ext _ _ (list_where_no_filter datetime_now days)).
  unfold limit_rows. destruct (limit <? 0).
  - apply length_order_by_created_desc.
  - now rewrite length_firstn, length_order_by_created_desc.
Qed.

(** ** One shipment *)

Lemma fetches_first : fetches (@List.hd_error row).
Proof.
  split.
  - intros [|x l] r; cbn; [discriminate|]. intros [= ->]. now left.
  - intros [|x l]; cbn; [reflexivity | discriminate].
Qed.

(** X21: the single-shipment endpoint answers 404 exactly when no record
    has the given value as its id, its tracking number or its transaction
    id; otherwise it answers 200 with a record of the table that has. *)
Theorem lookup_not_found_iff numeric_id fetch t shipment_id :
  fetches fetch ->
  let r := get_shippo_shipment numeric_id fetch t shipment_id in
  (code r = 404%nat <->
   forall x, In x t -> lookup_where numeric_id shipment_id x = false)
  /\ (code r = 404%nat \/ code r = 200%nat)
  /\ (forall x h, body r = Found x h ->
        code r = 200%nat
        /\ In x t
        /\ lookup_where numeric_id shipment_id x = true
        /\ h = lookup_history (tracking_history x)).
Proof.
  intros [Hsome Hnone]. unfold get_shippo_shipment.
  destruct (fetch (List.filter (lookup_where numeric_id shipment_id) t))
    as [x|] eqn:E; cbn [code body].
  - apply Hsome in E. apply filter_In in E as [Hin Hw]. repeat split.
    + discriminate.
    + intros H. rewrite (H x Hin) in Hw. discriminate.
    + now right.
    + congruence.
    + congruence.
    + injection H as <- <-. reflexivity.
  - apply Hnone in E. repeat split; try discriminate.
    + intros _ x Hin.
      destruct (lookup_where numeric_id shipment_id x) eqn:Hw; [|reflexivity].
      assert (Hf : In x (List.filter (lookup_where numeric_id shipment_id) t))
        by (apply filter_In; auto).
      rewrite E in Hf. destruct Hf.
    + now left.
Qed.

(** X22: a record a transaction handler has just stored can be looked
    up by its transaction id: after [handle_transaction_created] or
    [handle_transaction_updated] returns, the single-shipment endpoint
    answers 200 for the payload's id, with a record that carries that
    value as id, tracking number or transaction id. *)
Theorem stored_then_found numeric_id fetch now t data t' k :
  fetches fetch ->
  handle_transaction_created now t data = Ok t'
  \/ handle_transaction_updated now t data = Ok t' ->
  payload_transaction_id data = Some k ->
  exists x,
    get_shippo_shipment numeric_id fetch t' k
    = mkResponse 200 (Found x (lookup_history (tracking_history x)))
    /\ In x t'
    /\ lookup_where numeric_id k x = true.
Proof.
  intros [Hsome Hnone] H Hk.
  assert (Hrec : has_record k t' = true).
  { assert (Hc : forall t1, handle_transaction_created now t data = Ok t1 ->
                            has_record k t1 = true).
    { intros t1 H1. apply created_ok in H1 as (k' & Hk' & ->).
      assert (k' = k) as -> by congruence. apply has_record_created_table. }
    destruct H as [H | H]; [now apply Hc|].
    pose proof H as H0. apply updated_ok in H as (k' & Hk' & H).
    assert (k' = k) as -> by congruence.
    destruct (has_record k t) eqn:E; [|now apply Hc].
    rewrite (updated_rows now t data t' k H0 Hk E). unfold has_record in *.
    rewrite existsb_map_same; [exact E|].
    intros r. now destruct (Sql.where_transaction_id (Some k) r) eqn:Er. }
  unfold get_shippo_shipment.
  destruct (fetch (List.filter (lookup_where numeric_id k) t')) as [x|] eqn:E.
  - exists x. apply Hsome in E. apply filter_In in E as [Hin Hw]. auto.
  - apply Hnone in E. exfalso.
    apply existsb_exists in Hrec as (r & Hin & Hw).
    assert (Hf : In r (List.filter (lookup_where numeric_id k) t')).
    { apply filter_In. split; [exact Hin|]. unfold lookup_where.
      unfold Sql.where_transaction_id in Hw. rewrite Hw.
      now rewrite orb_true_r. }
    rewrite E in Hf. destruct Hf.
Qed.

(** ** [handle_track_updated]: lookup precedence, history, replay *)

(** X23: the lookup of [handle_track_updated] consults one key only: a
    payload with a truthy transaction that no record carries makes it
    append a record under that transaction, also when the table holds
    records with the payload's tracking number; these are left as they
    are. *)
Theorem track_no_fallback now t data t' tid k :
  handle_track_updated now t data = Ok t' ->
  get "transaction" data = Ok tid ->
  truthy tid = true ->
  Sql.bind_param tid = Ok (Some k) ->
  record_of k t = None ->
  exists r',
    t' = (t ++ [r'])%list
    /\ transaction_id r' = k
    /\ tracking_number r' = supplied "tracking_number" data.
Proof.
  intros H Htid Ht Hb Hrec.
  assert (Hex : track_existing t data = Ok None).
  { unfold track_existing. rewrite Htid.
    destruct (get "tracking_number" data) as [tn|] eqn:Etn.
    - cbn [bind]. unfold find_existing. rewrite Ht, Hb. cbn [bind].
      f_equal. exact Hrec.
    - apply get_inv in Htid as [l ->]. discriminate Etn. }
  apply track_ok in H. rewrite Hex in H.
  destruct H as (k' & Hk & _ & ->).
  unfold track_key in Hk. rewrite Htid, Ht in Hk.
  destruct (get "tracking_number" data); [|discriminate].
  unfold bound in Hk. rewrite Hb in Hk. injection Hk as <-.
  eexists. repeat split.
Qed.

Lemma shipment_history_decoded datetime_now t a l s :
  body (get_shippo_shipments datetime_now t a) = Shipments l ->
  In s l ->
  shipment_history s = decode_history (tracking_history (shipment_row s)).
Proof.
  intros H Hin. apply list_query_inv in H as (days & limit & _ & _ & _ & H).
  rewrite H in Hin. apply in_map_iff in Hin as (r & <- & _). reflexivity.
Qed.

Lemma lookup_history_dumps h :
  lookup_history (Some (Json.dumps (JArr h))) = Decoded (JArr h).
Proof.
  unfold lookup_history. rewrite loads_dumps. reflexivity.
Qed.

(** X24: the history a [track_updated] event carries comes back from
    both read endpoints as the array it was: after the handler returns,
    the record it wrote is shown with exactly that history by the list,
    whatever the parameters, and by the single-shipment endpoint. *)
Theorem history_shown_as_sent now t data t' history :
  handle_track_updated now t data = Ok t' ->
  payload_history data = Some history ->
  exists r',
    In r' t'
    /\ match track_existing t data with
       | Ok (Some e) => id r' = id e
       | _ => t' = (t ++ [r'])%list
       end
    /\ (forall datetime_now a l s,
          body (get_shippo_shipments datetime_now t' a) = Shipments l ->
          In s l -> shipment_row s = r' ->
          shipment_history s = JArr history)
    /\ (forall numeric_id fetch shipment_id h,
          body (get_shippo_shipment numeric_id fetch t' shipment_id)
          = Found r' h ->
          h = Decoded (JArr history)).
Proof.
  intros H Hh.
  assert (Hth : track_history data = Some (Json.dumps (JArr history))).
  { unfold track_history, payload_history in *.
    destruct (get_or "tracking_history" (JArr []) data) as [[| | | |x|]|];
      try discriminate. now injection Hh as ->. }
  assert (Hshow : forall r',
             tracking_history r' = Some (Json.dumps (JArr history)) ->
             (forall datetime_now a l s,
                 body (get_shippo_shipments datetime_now t' a) = Shipments l ->
                 In s l -> shipment_row s = r' ->
                 shipment_history s = JArr history)
             /\ (forall numeric_id fetch shipment_id h,
                    body (get_shippo_shipment numeric_id fetch t' shipment_id)
                    = Found r' h ->
                    h = Decoded (JArr history))).
  { intros r' Hr. split.
    - intros dn a l s Hl Hin Hs.
      rewrite (shipment_history_decoded dn t' a l s Hl Hin), Hs, Hr.
      apply decode_history_dumps.
    - intros nid fetch sid h Hb. unfold get_shippo_shipment in Hb.
      destruct (fetch _) as [x|]; cbn [body] in Hb; [|discriminate].
      injection Hb as -> <-. rewrite Hr. apply lookup_history_dumps. }
  pose proof (track_ok now t data t' H) as Hok.
  destruct (track_existing t data) as [[e|]|] eqn:Hex; [| |easy].
  - assert (Hin : In e t).
    { unfold track_existing in Hex.
      destruct (get "tracking_number" data); [|discriminate].
      destruct (get "transaction" data); [|discriminate].
      now apply find_existing_In in Hex. }
    exists (track_merge now data e). subst t'. split; [|split].
    + apply in_map_iff. exists e. split; [|exact Hin].
      unfold Sql.where_id. now rewrite Z.eqb_refl.
    + reflexivity.
    + now apply Hshow.
  - destruct Hok as (k & _ & _ & ->).
    exists (track_row now data (Sql.fresh_id t) k). split; [|split].
    + apply in_or_app. right. now left.
    + reflexivity.
    + now apply Hshow.
Qed.

Lemma find_map_same_in {A} (w : A -> bool) (f : A -> A) (l : list A) :
  (forall x, In x l -> w (f x) = w x) ->
  List.find w (List.map f l) = option_map f (List.find w l).
Proof.
  induction l as [|x l IH]; intros Hw; cbn; [reflexivity|].
  rewrite (Hw x (or_introl eq_refl)).
  destruct (w x); [reflexivity|].
  apply IH. intros y Hy. apply Hw. now right.
Qed.

Lemma NoDup_map_In_eq {A B} (f : A -> B) (l : list A) x y :
  NoDup (List.map f l) -> In x l -> In y l -> f x = f y -> x = y.
Proof.
  induction l as [|a l IH]; cbn; intros Hn Hx Hy E; [easy|].
  inversion Hn as [|? ? Hnot Hn']; subst.
  destruct Hx as [->|Hx], Hy as [->|Hy].
  - reflexivity.
  - exfalso. apply Hnot. rewrite E. now apply in_map.
  - exfalso. apply Hnot. rewrite <- E. now apply in_map.
  - now apply IH.
Qed.

Lemma track_existing_after_update now t data e :
  unique_keys t ->
  track_existing t data = Ok (Some e) ->
  track_existing
    (List.map (fun r => if Sql.where_id (id e) r
                        then track_merge now data r else r) t) data
  = Ok (Some (track_merge now data e)).
Proof.
  intros [_ Hid] Hex.
  assert (Hin : In e t).
  { unfold track_existing in Hex.
    destruct (get "tracking_number" data); [|discriminate].
    destruct (get "transaction" data); [|discriminate].
    now apply find_existing_In in Hex. }
  assert (Hself : Sql.where_id (id e) e = true)
    by (unfold Sql.where_id; apply Z.eqb_refl).
  unfold track_existing in *.
  destruct (get "tracking_number" data) as [tn|] eqn:Etn; [|discriminate].
  destruct (get "transaction" data) as [tid|] eqn:Etid; [|discriminate].
  cbn [bind] in *. unfold find_existing in *.
  destruct (truthy tid).
  - destruct (Sql.bind_param tid) as [k|]; [|discriminate].
    cbn [bind] in *. injection Hex as Hex. f_equal.
    unfold Sql.fetchone in *. rewrite find_map_same.
    + rewrite Hex. cbn [option_map]. now rewrite Hself.
    + intros x. now destruct (Sql.where_id (id e) x).
  - destruct (Sql.bind_param tn) as [c|] eqn:Ec; [|discriminate].
    cbn [bind] in *. injection Hex as Hex. f_equal.
    unfold Sql.fetchone in *. rewrite find_map_same_in.
    + rewrite Hex. cbn [option_map]. now rewrite Hself.
    + intros x Hx. destruct (Sql.where_id (id e) x) eqn:W; [|reflexivity].
      assert (x = e) as ->.
      { apply (NoDup_map_In_eq id t); try assumption.
        unfold Sql.where_id in W. now apply Z.eqb_eq in W. }
      apply find_some in Hex as [_ Hw]. rewrite Hw.
      unfold Sql.where_tracking_number in *.
      cbn [track_merge tracking_number].
      unfold supplied. rewrite Etn, Ec.
      destruct c as [y|]; [|now destruct (tracking_number e)].
      cbn. apply String.eqb_refl.
Qed.

Lemma track_merge_twice now now' data r :
  without_updated_at (track_merge now' data (track_merge now data r))
  = without_updated_at (track_merge now data r).
Proof.
  unfold without_updated_at, track_merge. cbn. now rewrite !coalesce_idem.
Qed.

(** X25: a replayed [track_updated] event is harmless on a record that
    existed: when [handle_track_updated] has updated an existing record,
    handling the same payload again succeeds, finds the same record and
    leaves every column of every record as the first call left it, except
    that record's [updated_at]. *)
Theorem track_replay_idempotent now now' t data e t1 :
  unique_keys t ->
  track_existing t data = Ok (Some e) ->
  handle_track_updated now t data = Ok t1 ->
  exists t2,
    handle_track_updated now' t1 data = Ok t2
    /\ List.map without_updated_at t2 = List.map without_updated_at t1
    /\ List.map updated_at t2
       = List.map (fun r => if Sql.where_id (id e) r then Some now'
                            else updated_at r) t1.
Proof.
  intros Hu Hex H.
  pose proof (track_ok now t data t1 H) as H1. rewrite Hex in H1.
  pose proof (track_existing_after_update now t data e Hu Hex) as Hex1.
  rewrite <- H1 in Hex1.
  assert (Hret : exists t2, handle_track_updated now' t1 data = Ok t2).
  { clear H1 Hu. unfold handle_track_updated in H |- *.
    destruct data as [| | | | |l];
      try (cbn [get get_or bind] in H; discriminate).
    unfold track_existing in Hex, Hex1.
    cbn [get get_or bind] in H, Hex, Hex1 |- *.
    rewrite Hex in H. rewrite Hex1. cbn [bind] in H |- *.
    inv_bind H.
    repeat (cbn [bind];
            match goal with
            | E : ?m = Ok _ |- context [bind ?m _] => rewrite E
            end).
    cbn [bind]. eexists. reflexivity. }
  destruct Hret as [t2 H2]. exists t2. split; [exact H2|].
  apply track_ok in H2. rewrite Hex1 in H2.
  cbn [track_merge id] in H2. subst t2. split.
  - rewrite List.map_map. rewrite <- (List.map_id (List.map _ t1)) at 1.
    rewrite H1, !List.map_map. apply List.map_ext. intros r.
    destruct (Sql.where_id (id e) r) eqn:W.
    + replace (Sql.where_id (id e) (track_merge now data r)) with true
        by (now rewrite <- W).
      apply track_merge_twice.
    + now rewrite W.
  - rewrite List.map_map. apply List.map_ext. intros r.
    now destruct (Sql.where_id (id e) r).
Qed.

(** ** The further properties on the scenario *)

Ltac by_evaluation := vm_compute; reflexivity.

Ltac no_duplicates :=
  split; vm_compute;
  repeat (constructor; [intros H; repeat destruct H as [H|H]; discriminate H
                       || exact H|]);
  constructor.

(** Replaying [created_b] on the record of tx1. *)
Lemma created_on_existing_witness :
  exists r',
    record_of "tx1" Cases.t_replayed = Some r'
    /\ List.map identity Cases.t_replayed = List.map identity Scenario.t_created
    /\ tracking_number r' = supplied "tracking_number" Scenario.created_b
    /\ status r' = supplied_status "PRE_TRANSIT" Scenario.created_b
    /\ carrier r' = carrier (Cases.first_row Scenario.t_created)
    /\ updated_at r' = Some "2024-01-02 00:00:00"
    /\ same_tracking_columns (Cases.first_row Scenario.t_created) r'
    /\ (forall r0, In r0 Scenario.t_created -> transaction_id r0 <> "tx1" ->
                   In r0 Cases.t_replayed).
Proof.
  apply (created_on_existing "2024-01-02 00:00:00" Scenario.t_created
           Scenario.created_b Cases.t_replayed "tx1"
           (Cases.first_row Scenario.t_created)); by_evaluation.
Defined.


(** tx1 goes to TRANSIT. *)
Lemma updated_on_existing_witness :
  exists r',
    record_of "tx1" Cases.t_transit = Some r'
    /\ List.map identity Cases.t_transit = List.map identity Scenario.t_created
    /\ status r' = supplied_status "UNKNOWN" Scenario.updated
    /\ tracking_number r'
       = Sql.coalesce (supplied "tracking_number" Scenario.updated)
           (tracking_number (Cases.first_row Scenario.t_created))
    /\ eta r' = Sql.coalesce (supplied "eta" Scenario.updated)
                  (eta (Cases.first_row Scenario.t_created))
    /\ updated_at r' = Some "2024-01-02 08:00:00"
    /\ carrier r' = carrier (Cases.first_row Scenario.t_created)
    /\ metadata r' = metadata (Cases.first_row Scenario.t_created)
    /\ label_url r' = label_url (Cases.first_row Scenario.t_created)
    /\ tracking_url r' = tracking_url (Cases.first_row Scenario.t_created)
    /\ same_tracking_columns (Cases.first_row Scenario.t_created) r'
    /\ (forall r0, In r0 Scenario.t_created -> transaction_id r0 <> "tx1" ->
                   In r0 Cases.t_transit).
Proof.
  apply (updated_on_existing "2024-01-02 08:00:00" Scenario.t_created
           Scenario.updated Cases.t_transit "tx1"
           (Cases.first_row Scenario.t_created)); by_evaluation.
Defined.

(** A payload with a tracking number and no [object_id]. *)
Lemma transaction_id_required_witness :
  is_ok (handle_transaction_created "2024-01-02 00:00:00" Scenario.t_created
           Cases.no_id) = false
  /\ is_ok (handle_transaction_updated "2024-01-02 00:00:00"
              Scenario.t_created Cases.no_id) = false.
Proof.
  apply (transaction_id_required "2024-01-02 00:00:00" Scenario.t_created
           Cases.no_id). by_evaluation.
Defined.

(** The webhook receiving tx3 on the table of tx1 and tx9. *)
Lemma webhook_keeps_unique_keys_witness :
  unique_keys
    (snd (shippo_webhook "2024-01-04 07:00:01" Scenario.t_with_error
            (Ok (Cases.envelope "transaction_created" Cases.created_c)))).
Proof.
  apply (webhook_keeps_unique_keys "2024-01-04 07:00:01"
           Scenario.t_with_error
           (Ok (Cases.envelope "transaction_created" Cases.created_c))).
  no_duplicates.
Defined.

(** A delivery reported for a shipment the table does not know. *)
Lemma track_inserts_new_witness :
  exists k r' tid tn,
    Cases.t_tracked = ([] ++ [r'])%list
    /\ transaction_id r' = k
    /\ get "transaction" (Scenario.delivered Scenario.first_date) = Ok tid
    /\ get "tracking_number" (Scenario.delivered Scenario.first_date) = Ok tn
    /\ Sql.bind_param (if truthy tid then tid
                       else JStr ("track_" ++ PyRepr.str tn)) = Ok (Some k)
    /\ record_of k [] = None
    /\ created_at r' = Some "2024-01-05 09:00:00"
    /\ updated_at r' = Some "2024-01-05 09:00:00"
    /\ to_name r' = None
    /\ to_city r'
       = supplied_in "address_to" "city" (Scenario.delivered Scenario.first_date)
    /\ metadata r' = None
    /\ label_url r' = None
    /\ tracking_url r' = None.
Proof.
  apply (track_inserts_new "2024-01-05 09:00:00" []
           (Scenario.delivered Scenario.first_date) Cases.t_tracked);
    by_evaluation.
Defined.

(** A status without transaction and tracking number, twice. *)
Lemma track_without_keys_only_once_witness :
  record_of "track_None" Cases.t_no_keys <> None
  /\ handle_track_updated "2024-01-06 09:00:00" Cases.t_no_keys Cases.no_keys
     = Err IntegrityError.
Proof.
  apply (track_without_keys_only_once "2024-01-05 09:00:00"
           "2024-01-06 09:00:00" [] Cases.no_keys Cases.t_no_keys JNull);
    by_evaluation.
Defined.


(** The list with [limit=1] over three records. *)
Lemma list_respects_limit_witness :
  exists limit,
    limit_of (Some "1") = Ok limit
    /\ (0 <= limit ->
        (List.length
           (Cases.shipments_of
              (get_shippo_shipments Scenario.cutoff Cases.t_three
                 (mkArgs None None None (Some "1"))))
         <= Z.to_nat limit)%nat)
    /\ (Some "1" = None ->
        (List.length
           (Cases.shipments_of
              (get_shippo_shipments Scenario.cutoff Cases.t_three
                 (mkArgs None None None (Some "1"))))
         <= 200)%nat).
Proof.
  apply (list_respects_limit Scenario.cutoff Cases.t_three
           (mkArgs None None None (Some "1"))). by_evaluation.
Defined.

(** tx3 is listed before tx1. *)
Lemma list_newest_first_witness :
  Sorted (fun s1 s2 => not_older (shipment_row s1) (shipment_row s2))
    (Cases.shipments_of
       (get_shippo_shipments Scenario.cutoff Cases.t_three
          (mkArgs None None None None))).
Proof.
  apply (list_newest_first Scenario.cutoff Cases.t_three
           (mkArgs None None None None)). by_evaluation.
Defined.


(** [status=all] *)
Lemma list_status_all_witness :
  get_shippo_shipments Scenario.cutoff Cases.t_three
    (mkArgs (Some "all") None None None)
  = get_shippo_shipments Scenario.cutoff Cases.t_three
      (mkArgs None None None None).
Proof.
  apply (list_status_all Scenario.cutoff Cases.t_three "all").
  right. by_evaluation.
Defined.

(** The statistics of the three records: two counted, tx9 left out. *)
Lemma stats_counts_witness :
  exists days,
    days_of None = Ok days
    /\ 2%nat
       = List.length
           (List.filter (stats_where Scenario.cutoff days) Cases.t_three)
    /\ NoDup (List.map fst [(Some "PRE_TRANSIT", 2%nat)])
    /\ status_count (Some "ERROR") [(Some "PRE_TRANSIT", 2%nat)] = None
    /\ status_count None [(Some "PRE_TRANSIT", 2%nat)] = None
    /\ (forall k,
          status_count k [(Some "PRE_TRANSIT", 2%nat)]
          = match count_status k
                    (List.filter (stats_where Scenario.cutoff days)
                       Cases.t_three)
            with
            | O => None
            | n => Some n
            end).
Proof.
  apply (stats_counts Scenario.cutoff Cases.t_three None). by_evaluation.
Defined.

Lemma stats_total_is_list_count_witness :
  exists l,
    body (get_shippo_shipments Scenario.cutoff Cases.t_three
            (mkArgs None None None (Some "1"))) = Shipments l
    /\ List.length l = if 1 <? 0 then 2%nat else Nat.min (Z.to_nat 1) 2.
Proof.
  apply (stats_total_is_list_count Scenario.cutoff Cases.t_three None
           (Some "1") 2 [(Some "PRE_TRANSIT", 2%nat)] 1); by_evaluation.
Defined.

(** Looking up tx1 when [fetchone()] gives the first matching row. *)
Lemma lookup_not_found_iff_witness :
  let r := get_shippo_shipment Cases.no_numeric_id (@List.hd_error row)
             Cases.t_three "tx1" in
  (code r = 404%nat <->
   forall x, In x Cases.t_three ->
             lookup_where Cases.no_numeric_id "tx1" x = false)
  /\ (code r = 404%nat \/ code r = 200%nat)
  /\ (forall x h, body r = Found x h ->
        code r = 200%nat
        /\ In x Cases.t_three
        /\ lookup_where Cases.no_numeric_id "tx1" x = true
        /\ h = lookup_history (tracking_history x)).
Proof.
  apply (lookup_not_found_iff Cases.no_numeric_id (@List.hd_error row)
           Cases.t_three "tx1").
  split.
  - intros [|x l] r E; [discriminate E|]. injection E as ->. now left.
  - intros [|x l] E; [reflexivity | discriminate E].
Defined.

Lemma stored_then_found_witness :
  exists x,
    get_shippo_shipment Cases.no_numeric_id (@List.hd_error row)
      Scenario.t_with_error "tx9"
    = mkResponse 200 (Found x (lookup_history (tracking_history x)))
    /\ In x Scenario.t_with_error
    /\ lookup_where Cases.no_numeric_id "tx9" x = true.
Proof.
  apply (stored_then_found Cases.no_numeric_id (@List.hd_error row)
           "2024-01-03 11:00:01" Scenario.t_created Scenario.failed
           Scenario.t_with_error "tx9").
  - split.
    + intros [|x l] r E; [discriminate E|]. injection E as ->. now left.
    + intros [|x l] E; [reflexivity | discriminate E].
  - left. by_evaluation.
  - by_evaluation.
Defined.

(** Transaction tx2 reports the tracking number of tx1. *)
Lemma track_no_fallback_witness :
  exists r',
    Cases.t_other = (Scenario.t_created ++ [r'])%list
    /\ transaction_id r' = "tx2"
    /\ tracking_number r' = supplied "tracking_number" Cases.other_transaction.
Proof.
  apply (track_no_fallback "2024-01-05 09:00:00" Scenario.t_created
           Cases.other_transaction Cases.t_other (JStr "tx2") "tx2");
    by_evaluation.
Defined.

(** The three events of the delivery of tx1. *)
Lemma history_shown_as_sent_witness :
  exists r',
    In r' Scenario.t_delivered
    /\ id r' = 1
    /\ forall l s,
        body (get_shippo_shipments Scenario.cutoff Scenario.t_delivered
                (mkArgs None None None None)) = Shipments l ->
        In s l -> shipment_row s = r' ->
        shipment_history s
        = JArr [ JObj [ ("status", JStr "PRE_TRANSIT") ];
                 JObj [ ("status", JStr "TRANSIT") ];
                 JObj [ ("status", JStr "DELIVERED") ] ].
Proof.
  destruct (history_shown_as_sent "2024-01-05 09:00:00" Scenario.t_created
              (Scenario.delivered Scenario.first_date) Scenario.t_delivered
              [ JObj [ ("status", JStr "PRE_TRANSIT") ];
                JObj [ ("status", JStr "TRANSIT") ];
                JObj [ ("status", JStr "DELIVERED") ] ])
    as (r' & Hin & Hid & Hlist & _); try by_evaluation.
  exists r'. split; [exact Hin|]. split; [exact Hid|].
  intros l s Hl Hs Hr.
  exact (Hlist Scenario.cutoff (mkArgs None None None None) l s Hl Hs Hr).
Defined.

(** The delivery of tx1 reported a second time, four days later. *)
Lemma track_replay_idempotent_witness :
  exists t2,
    handle_track_updated "2024-01-09 13:00:00" Scenario.t_delivered
      (Scenario.delivered Scenario.first_date) = Ok t2
    /\ List.map without_updated_at t2
       = List.map without_updated_at Scenario.t_delivered
    /\ List.map updated_at t2
       = List.map (fun r => if Sql.where_id
                                 (id (Cases.first_row Scenario.t_created)) r
                            then Some "2024-01-09 13:00:00"
                            else updated_at r) Scenario.t_delivered.
Proof.
  apply (track_replay_idempotent "2024-01-05 09:00:00" "2024-01-09 13:00:00"
           Scenario.t_created (Scenario.delivered Scenario.first_date)
           (Cases.first_row Scenario.t_created) Scenario.t_delivered);
    try by_evaluation.
  no_duplicates.
Defined.

(** [limit=ten] *)
Lemma bad_number_answers_500_witness :
  get_shippo_shipments Scenario.cutoff Cases.t_three
    (mkArgs None None None (Some "ten"))
  = mkResponse 500 (ListError ValueError)
  /\ get_shippo_stats Scenario.cutoff Cases.t_three (Some "ten")
     = mkResponse 500 (StatsError ValueError).
Proof.
  destruct (bad_number_answers_500 Scenario.cutoff Cases.t_three
              (mkArgs None None None (Some "ten")) "ten")
    as [Hlist Hstats]; try reflexivity.
  split; [apply Hlist; now right | exact Hstats].
Defined.
